(** * hello-page: payment webhook, Xendit secret endpoint and the
      domain-suggestion hook

    A shallow embedding of
    - [supabase/functions/midtrans-webhook/index.ts] (module [Webhook]),
    - the edge function [super-admin-xendit-secret] (module [XenditSecret]),
    - [src/hooks/useDomainSuggestions.ts] (module [useDomainSuggestions]),
    - [src/components/order/OrderWebsitePackagesCards.tsx] (module [Packages]),
    together with the platform pieces they call: JavaScript strings and
    JSON values ([Js]), the SHA-512 digest of Web Crypto ([Sha512]), the
    [Date] built-ins ([JsDate]) and the hosted table store ([Db]).

    Conventions.  A JavaScript string is a [string] whose characters are the
    code units U+0000..U+00FF.  A JavaScript number is an exact integer
    ([Z]); [Date] time values are exact integers as well and are not
    clipped.  A uuid column is an opaque key ([uuid]): the text of a uuid is
    never empty, so such a value is truthy exactly when it is not null. *)

From Stdlib Require Import ZArith List String Ascii Bool Lia DecimalString.
From Stdlib Require Import Sorting.Sorted Sorting.Permutation.
Import ListNotations.

Open Scope string_scope.
Open Scope Z_scope.

(* ================================================================== *)
(** ** JavaScript strings and JSON values *)

Module Js.

(** White space and line terminators of ECMAScript below U+0100: the
    characters removed by [trim] and matched by the regular expression
    class [\s]. *)
Definition is_white_space (c : ascii) : bool :=
  let n := Z.of_N (N_of_ascii c) in
  (n =? 9) || (n =? 10) || (n =? 11) || (n =? 12) || (n =? 13)
  || (n =? 32) || (n =? 160).

Fixpoint trimStart (s : string) : string :=
  match s with
  | EmptyString => EmptyString
  | String c s' => if is_white_space c then trimStart s' else s
  end.

Fixpoint trimEnd (s : string) : string :=
  match s with
  | EmptyString => EmptyString
  | String c s' =>
      match trimEnd s' with
      | EmptyString => if is_white_space c then EmptyString else String c EmptyString
      | t => String c t
      end
  end.

(** [s.trim()] *)
Definition trim (s : string) : string := trimEnd (trimStart s).

(** [/\s/.test(s)] *)
Fixpoint has_white_space (s : string) : bool :=
  match s with
  | EmptyString => false
  | String c s' => is_white_space c || has_white_space s'
  end.

(** [s.startsWith(p)] *)
Definition startsWith (s p : string) : bool := String.prefix p s.

(** [s.length] *)
Definition length (s : string) : Z := Z.of_nat (String.length s).

(** A string used as a condition: [""] is falsy. *)
Definition truthy (s : string) : bool := negb (s =? "")%string.

(** [s || null] *)
Definition or_null (s : string) : option string :=
  if truthy s then Some s else None.

(** The values [req.json()] can produce. *)
#[warnings="-register-all"] Inductive jsval : Type :=
| JNull
| JBool (b : bool)
| JNum (z : Z)
| JStr (s : string)
| JArr (items : list jsval)
| JObj (fields : list (string * jsval)).

(** Decimal text of an integer, as [String(n)] prints it. *)
Definition string_of_Z (z : Z) : string := NilZero.string_of_int (Z.to_int z).

(** [String(v)] *)
Fixpoint to_String (v : jsval) : string :=
  match v with
  | JNull => "null"
  | JBool true => "true"
  | JBool false => "false"
  | JNum z => string_of_Z z
  | JStr s => s
  | JArr items =>
      (fix join (l : list jsval) : string :=
         match l with
         | [] => ""
         | x :: rest =>
             let e := match x with JNull => "" | _ => to_String x end in
             match rest with
             | [] => e
             | _ :: _ => e ++ "," ++ join rest
             end
         end) items
  | JObj _ => "[object Object]"
  end.

(** Own property [k] of a parsed object; a later duplicate key wins, as in
    [JSON.parse]. *)
Definition own (fields : list (string * jsval)) (k : string) : option jsval :=
  fold_left (fun acc kv => if (fst kv =? k)%string then Some (snd kv) else acc)
            fields None.

(** [v?.k] for a key that no built-in prototype defines; [None] is
    [undefined]. *)
Definition get (v : jsval) (k : string) : option jsval :=
  match v with
  | JObj fields => own fields k
  | _ => None
  end.

(** [String(x ?? "")] where [x] may be [undefined] *)
Definition String_or_empty (x : option jsval) : string :=
  match x with
  | None | Some JNull => ""
  | Some v => to_String v
  end.

(** [String(v?.k ?? "").trim()] *)
Definition field (v : jsval) (k : string) : string :=
  trim (String_or_empty (get v k)).

(** What a [throw] carries.  [Error m] is an instance of [Error] with
    message [m]; [Thrown s] is any other value, [s] being [String] of it. *)
Inductive exn : Type :=
| Error (message : string)
| Thrown (text : string).

(** Outcome of a computation that may throw. *)
Definition result (A : Type) : Type := (exn + A)%type.

End Js.

(* ================================================================== *)
(** ** SHA-512 (FIPS 180-4), the digest behind [crypto.subtle.digest] *)

Module Sha512.

Definition w64 (x : Z) : Z := x mod 2 ^ 64.
Definition add64 (x y : Z) : Z := w64 (x + y).
Definition rotr (n x : Z) : Z :=
  Z.lor (Z.shiftr x n) (w64 (Z.shiftl x (64 - n))).
Definition shr (n x : Z) : Z := Z.shiftr x n.

Definition Ch (x y z : Z) : Z := Z.lxor (Z.land x y) (Z.land (Z.lxor x (2 ^ 64 - 1)) z).
Definition Maj (x y z : Z) : Z :=
  Z.lxor (Z.lxor (Z.land x y) (Z.land x z)) (Z.land y z).
Definition Sum0 (x : Z) : Z := Z.lxor (Z.lxor (rotr 28 x) (rotr 34 x)) (rotr 39 x).
Definition Sum1 (x : Z) : Z := Z.lxor (Z.lxor (rotr 14 x) (rotr 18 x)) (rotr 41 x).
Definition sig0 (x : Z) : Z := Z.lxor (Z.lxor (rotr 1 x) (rotr 8 x)) (shr 7 x).
Definition sig1 (x : Z) : Z := Z.lxor (Z.lxor (rotr 19 x) (rotr 61 x)) (shr 6 x).

Definition K : list Z :=
  [ 0x428a2f98d728ae22; 0x7137449123ef65cd; 0xb5c0fbcfec4d3b2f; 0xe9b5dba58189dbbc;
    0x3956c25bf348b538; 0x59f111f1b605d019; 0x923f82a4af194f9b; 0xab1c5ed5da6d8118;
    0xd807aa98a3030242; 0x12835b0145706fbe; 0x243185be4ee4b28c; 0x550c7dc3d5ffb4e2;
    0x72be5d74f27b896f; 0x80deb1fe3b1696b1; 0x9bdc06a725c71235; 0xc19bf174cf692694;
    0xe49b69c19ef14ad2; 0xefbe4786384f25e3; 0x0fc19dc68b8cd5b5; 0x240ca1cc77ac9c65;
    0x2de92c6f592b0275; 0x4a7484aa6ea6e483; 0x5cb0a9dcbd41fbd4; 0x76f988da831153b5;
    0x983e5152ee66dfab; 0xa831c66d2db43210; 0xb00327c898fb213f; 0xbf597fc7beef0ee4;
    0xc6e00bf33da88fc2; 0xd5a79147930aa725; 0x06ca6351e003826f; 0x142929670a0e6e70;
    0x27b70a8546d22ffc; 0x2e1b21385c26c926; 0x4d2c6dfc5ac42aed; 0x53380d139d95b3df;
    0x650a73548baf63de; 0x766a0abb3c77b2a8; 0x81c2c92e47edaee6; 0x92722c851482353b;
    0xa2bfe8a14cf10364; 0xa81a664bbc423001; 0xc24b8b70d0f89791; 0xc76c51a30654be30;
    0xd192e819d6ef5218; 0xd69906245565a910; 0xf40e35855771202a; 0x106aa07032bbd1b8;
    0x19a4c116b8d2d0c8; 0x1e376c085141ab53; 0x2748774cdf8eeb99; 0x34b0bcb5e19b48a8;
    0x391c0cb3c5c95a63; 0x4ed8aa4ae3418acb; 0x5b9cca4f7763e373; 0x682e6ff3d6b2b8a3;
    0x748f82ee5defb2fc; 0x78a5636f43172f60; 0x84c87814a1f0ab72; 0x8cc702081a6439ec;
    0x90befffa23631e28; 0xa4506cebde82bde9; 0xbef9a3f7b2c67915; 0xc67178f2e372532b;
    0xca273eceea26619c; 0xd186b8c721c0c207; 0xeada7dd6cde0eb1e; 0xf57d4f7fee6ed178;
    0x06f067aa72176fba; 0x0a637dc5a2c898a6; 0x113f9804bef90dae; 0x1b710b35131c471b;
    0x28db77f523047d84; 0x32caab7b40c72493; 0x3c9ebe0a15c9bebc; 0x431d67c49c100d4c;
    0x4cc5d4becb3e42b6; 0x597f299cfc657e2a; 0x5fcb6fab3ad6faec; 0x6c44198c4a475817 ].

Definition H0 : list Z :=
  [ 0x6a09e667f3bcc908; 0xbb67ae8584caa73b; 0x3c6ef372fe94f82b; 0xa54ff53a5f1d36f1;
    0x510e527fade682d1; 0x9b05688c2b3e6c1f; 0x1f83d9abfb41bd6b; 0x5be0cd19137e2179 ].

(** Big-endian bytes of a number, [n] of them. *)
Fixpoint be_bytes (n : nat) (x : Z) : list Z :=
  match n with
  | O => []
  | S n' => be_bytes n' (x / 256) ++ [x mod 256]
  end.

Definition be_word (bs : list Z) : Z :=
  fold_left (fun acc b => acc * 256 + b) bs 0.

(** Section 5.1.2: a 1 bit, zeros up to 112 modulo 128 bytes, then the bit
    length on 128 bits. *)
Definition pad (msg : list Z) : list Z :=
  let len := Z.of_nat (List.length msg) in
  let zeros := Z.to_nat ((111 - len) mod 128) in
  msg ++ [0x80] ++ repeat 0 zeros ++ be_bytes 16 (8 * len).

(** Cut a list into consecutive pieces of [n] elements; [fuel] bounds the
    number of pieces. *)
Fixpoint chunks {A : Type} (n : nat) (fuel : nat) (l : list A) : list (list A) :=
  match fuel with
  | O => []
  | S fuel' =>
      match l with
      | [] => []
      | _ => firstn n l :: chunks n fuel' (skipn n l)
      end
  end.

(** Section 6.4.2 step 1: the message schedule, most recent word first. *)
Fixpoint extend (n : nat) (rev_w : list Z) : list Z :=
  match n with
  | O => rev_w
  | S n' =>
      let at_ i := nth i rev_w 0 in
      let wt := add64 (add64 (add64 (sig1 (at_ 1%nat)) (at_ 6%nat)) (sig0 (at_ 14%nat)))
                      (at_ 15%nat) in
      extend n' (wt :: rev_w)
  end.

Definition schedule (block : list Z) : list Z :=
  rev (extend 64 (rev (map be_word (chunks 8 16 block)))).

Record regs : Type := mkRegs { ra : Z; rb : Z; rc : Z; rd : Z; re : Z; rf : Z; rg : Z; rh : Z }.

(** Section 6.4.2 step 3: one round. *)
Definition round (s : regs) (kw : Z * Z) : regs :=
  let t1 := add64 (add64 (add64 (add64 (rh s) (Sum1 (re s))) (Ch (re s) (rf s) (rg s)))
                         (fst kw)) (snd kw) in
  let t2 := add64 (Sum0 (ra s)) (Maj (ra s) (rb s) (rc s)) in
  mkRegs (add64 t1 t2) (ra s) (rb s) (rc s) (add64 (rd s) t1) (re s) (rf s) (rg s).

Definition compress (h : regs) (block : list Z) : regs :=
  let s := fold_left round (combine K (schedule block)) h in
  mkRegs (add64 (ra h) (ra s)) (add64 (rb h) (rb s)) (add64 (rc h) (rc s))
         (add64 (rd h) (rd s)) (add64 (re h) (re s)) (add64 (rf h) (rf s))
         (add64 (rg h) (rg s)) (add64 (rh h) (rh s)).

Definition init : regs :=
  mkRegs (nth 0 H0 0) (nth 1 H0 0) (nth 2 H0 0) (nth 3 H0 0)
         (nth 4 H0 0) (nth 5 H0 0) (nth 6 H0 0) (nth 7 H0 0).

(** The 64 bytes of the digest of a list of bytes. *)
Definition digest (msg : list Z) : list Z :=
  let padded := pad msg in
  let h := fold_left compress (chunks 128 (List.length padded) padded) init in
  flat_map (be_bytes 8) [ra h; rb h; rc h; rd h; re h; rf h; rg h; rh h].

End Sha512.

(* ================================================================== *)
(** ** [TextEncoder], hexadecimal printing and [sha512Hex] *)

Module Crypto.

(** [new TextEncoder().encode(s)]: UTF-8 of the code units below U+0100. *)
Definition encode (s : string) : list Z :=
  flat_map (fun c => let n := Z.of_N (N_of_ascii c) in
                     if n <? 128 then [n] else [192 + n / 64; 128 + n mod 64])
           (list_ascii_of_string s).

Definition hex_digit (d : Z) : string := substring (Z.to_nat d) 1 "0123456789abcdef".

(** [b.toString(16)] for a byte *)
Definition toString16 (b : Z) : string :=
  if b <? 16 then hex_digit b else hex_digit (b / 16) ++ hex_digit (b mod 16).

(** [s.padStart(2, "0")] *)
Definition padStart2 (s : string) : string :=
  match String.length s with
  | O => "00"
  | S O => "0" ++ s
  | _ => s
  end.

(** [sha512Hex]: the loop appends two lowercase digits per digest byte. *)
Definition sha512Hex (input : string) : string :=
  fold_left (fun out b => out ++ padStart2 (toString16 b))
            (Sha512.digest (encode input)) "".

End Crypto.

(* ================================================================== *)
(** ** [Date]: time values, the UTC calendar, [setUTCMonth], [toISOString] *)

Module JsDate.

Definition msPerDay : Z := 86400000.

Definition Day (t : Z) : Z := t / msPerDay.
Definition TimeWithinDay (t : Z) : Z := t mod msPerDay.

Definition leap (y : Z) : bool :=
  ((y mod 4 =? 0) && negb (y mod 100 =? 0)) || (y mod 400 =? 0).

Definition DaysInYear (y : Z) : Z := if leap y then 366 else 365.

Definition DayFromYear (y : Z) : Z :=
  365 * (y - 1970) + (y - 1969) / 4 - (y - 1901) / 100 + (y - 1601) / 400.

(** The year of a day number: the largest [y] with [DayFromYear y <= d].
    The mean year of 146097/400 days gives an estimate that is off by at
    most one. *)
Definition YearFromDay (d : Z) : Z :=
  let y0 := 1970 + (400 * d) / 146097 in
  if DayFromYear (y0 + 1) <=? d then y0 + 1
  else if DayFromYear y0 <=? d then y0
  else y0 - 1.

Definition YearFromTime (t : Z) : Z := YearFromDay (Day t).

Definition DayWithinYear (t : Z) : Z := Day t - DayFromYear (YearFromTime t).

(** Day within the year on which month [m] (0 = January) starts. *)
Definition month_start (lp : bool) (m : Z) : Z :=
  let l := if lp then 1 else 0 in
  match m with
  | 0 => 0
  | 1 => 31
  | 2 => 59 + l
  | 3 => 90 + l
  | 4 => 120 + l
  | 5 => 151 + l
  | 6 => 181 + l
  | 7 => 212 + l
  | 8 => 243 + l
  | 9 => 273 + l
  | 10 => 304 + l
  | 11 => 334 + l
  | _ => 365 + l
  end.

Fixpoint month_of (lp : bool) (d : Z) (fuel : nat) (m : Z) : Z :=
  match fuel with
  | O => m
  | S fuel' => if d <? month_start lp (m + 1) then m else month_of lp d fuel' (m + 1)
  end.

Definition MonthFromTime (t : Z) : Z :=
  month_of (leap (YearFromTime t)) (DayWithinYear t) 11 0.

Definition DateFromTime (t : Z) : Z :=
  DayWithinYear t - month_start (leap (YearFromTime t)) (MonthFromTime t) + 1.

Definition HourFromTime (t : Z) : Z := (TimeWithinDay t / 3600000) mod 24.
Definition MinFromTime (t : Z) : Z := (TimeWithinDay t / 60000) mod 60.
Definition SecFromTime (t : Z) : Z := (TimeWithinDay t / 1000) mod 60.
Definition msFromTime (t : Z) : Z := t mod 1000.

(** [MakeDay(year, month, date)]: months beyond 0..11 carry into the year,
    a date beyond the month's length runs on into the next month. *)
Definition MakeDay (year month date : Z) : Z :=
  let ym := year + month / 12 in
  let mn := month mod 12 in
  DayFromYear ym + month_start (leap ym) mn + date - 1.

Definition MakeDate (day time : Z) : Z := day * msPerDay + time.

(** Number of days of month [m] (0 = January). *)
Definition month_length (lp : bool) (m : Z) : Z := month_start lp (m + 1) - month_start lp m.

(** [d.getUTCMonth()] *)
Definition getUTCMonth (t : Z) : Z := MonthFromTime t.

(** [d.setUTCMonth(month)]: the new time value of [d]. *)
Definition setUTCMonth (t month : Z) : Z :=
  MakeDate (MakeDay (YearFromTime t) month (DateFromTime t)) (TimeWithinDay t).

(** [n] printed on [width] decimal digits. *)
Fixpoint digits (width : nat) (n : Z) : string :=
  match width with
  | O => ""
  | S width' => digits width' (n / 10) ++ Crypto.hex_digit (n mod 10)
  end.

Definition year_text (y : Z) : string :=
  if (0 <=? y) && (y <=? 9999) then digits 4 y
  else if 0 <=? y then "+" ++ digits 6 y
  else "-" ++ digits 6 (- y).

(** [d.toISOString()] *)
Definition toISOString (t : Z) : string :=
  year_text (YearFromTime t) ++ "-" ++ digits 2 (MonthFromTime t + 1) ++ "-"
    ++ digits 2 (DateFromTime t) ++ "T" ++ digits 2 (HourFromTime t) ++ ":"
    ++ digits 2 (MinFromTime t) ++ ":" ++ digits 2 (SecFromTime t) ++ "."
    ++ digits 3 (msFromTime t) ++ "Z".

End JsDate.

(* ================================================================== *)
(** ** The hosted table store, as the handlers see it through the client *)

Module Db.

(** A uuid column. *)
Definition uuid : Type := N.

(** The [error] member of a query result: an object with a [message].
    The client reports it as a plain object; [instance_of_Error] tells
    the ones that are instances of [Error] apart. *)
Record error : Type := mkError { message : string; instance_of_Error : bool }.

(** [throw error], seen from a [catch]. *)
Definition thrown (e : error) : Js.exn :=
  if instance_of_Error e then Js.Error (message e) else Js.Thrown "[object Object]".

Module Secret.
Record row : Type := mk
  { provider : string; name : string;
    ciphertext : option string; iv : option string; updated_at : option string }.
End Secret.

Module Order.
Record row : Type := mk
  { id : uuid;
    midtrans_order_id : option string;
    user_id : option uuid;
    subscription_years : option Z;
    status : string;
    payment_env : option string;
    midtrans_transaction_status : option string;
    midtrans_fraud_status : option string;
    midtrans_payment_type : option string;
    midtrans_transaction_id : option string }.
End Order.

Module Pricing.
Record row : Type := mk { id : bool; default_package_id : option uuid }.
End Pricing.

Module UserPackage.
Record row : Type := mk
  { user_id : uuid; package_id : uuid; duration_months : Z;
    started_at : string; activated_at : string; expires_at : string;
    status : string }.
End UserPackage.

Module Profile.
Record row : Type := mk
  { id : uuid; account_status : string; payment_active : bool; updated_at : string }.
End Profile.

Module Role.
Record row : Type := mk { user_id : string; role : option string }.
End Role.

Record store : Type := mkStore
  { integration_secrets : list Secret.row;
    orders : list Order.row;
    domain_pricing_settings : list Pricing.row;
    user_packages : list UserPackage.row;
    profiles : list Profile.row;
    user_roles : list Role.row }.

Definition multiple_rows : error :=
  mkError "JSON object requested, multiple (or no) rows returned" false.

(** [.maybeSingle()] on the rows a filter selected: [data] is [null] for no
    row, the row for one, and the query fails for several.  [fault] is the
    failure, if any, of the request itself. *)
Definition maybeSingle {A : Type} (fault : option error) (rows : list A)
  : error + option A :=
  match fault with
  | Some e => inl e
  | None =>
      match rows with
      | [] => inr None
      | [r] => inr (Some r)
      | _ :: _ :: _ => inl multiple_rows
      end
  end.

Definition opt_eqb (x : option string) (s : string) : bool :=
  match x with Some v => (v =? s)%string | None => false end.

(** [.from("integration_secrets").eq("provider", p).eq("name", n)] *)
Definition secrets_where (st : store) (p n : string) : list Secret.row :=
  filter (fun r => (Secret.provider r =? p)%string && (Secret.name r =? n)%string)
         (integration_secrets st).

(** [.from("orders").eq("midtrans_order_id", oid)] *)
Definition orders_where (st : store) (oid : string) : list Order.row :=
  filter (fun r => opt_eqb (Order.midtrans_order_id r) oid) (orders st).

(** [.from("domain_pricing_settings").eq("id", true)] *)
Definition pricing_where (st : store) : list Pricing.row :=
  filter (fun r => Pricing.id r) (domain_pricing_settings st).

(** [.from("user_roles").eq("user_id", u)] *)
Definition roles_where (st : store) (u : string) : list Role.row :=
  filter (fun r => (Role.user_id r =? u)%string) (user_roles st).

Definition with_orders (st : store) (l : list Order.row) : store :=
  mkStore (integration_secrets st) l (domain_pricing_settings st)
          (user_packages st) (profiles st) (user_roles st).

Definition with_user_packages (st : store) (l : list UserPackage.row) : store :=
  mkStore (integration_secrets st) (orders st) (domain_pricing_settings st)
          l (profiles st) (user_roles st).

Definition with_profiles (st : store) (l : list Profile.row) : store :=
  mkStore (integration_secrets st) (orders st) (domain_pricing_settings st)
          (user_packages st) l (user_roles st).

Definition with_secrets (st : store) (l : list Secret.row) : store :=
  mkStore l (orders st) (domain_pricing_settings st)
          (user_packages st) (profiles st) (user_roles st).

(** [.update(...).eq("id", k)]: every row the filter selects gets [f]. *)
Definition update_where {A : Type} (sel : A -> bool) (f : A -> A) (rows : list A) : list A :=
  map (fun r => if sel r then f r else r) rows.

(** [.insert(row)] *)
Definition insert {A : Type} (r : A) (rows : list A) : list A := rows ++ [r].

End Db.

(* ================================================================== *)
(** ** Responses *)

Module Http.

Inductive content : Type :=
| Text (s : string)          (**r [new Response("ok", ...)] *)
| Json (v : Js.jsval).       (**r [new Response(JSON.stringify(v), ...)] *)

Record response : Type := mkResponse { status : Z; body : content }.

Definition text (s : string) : response := mkResponse 200 (Text s).
Definition json (code : Z) (v : Js.jsval) : response := mkResponse code (Json v).

(** [{ error: m }] *)
Definition error_obj (m : string) : Js.jsval := Js.JObj [("error", Js.JStr m)].

(** [{ ok: true }] *)
Definition ok_obj : Js.jsval := Js.JObj [("ok", Js.JBool true)].

(** [e instanceof Error ? e.message : String(e)] *)
Definition catch_message (e : Js.exn) : string :=
  match e with
  | Js.Error m => m
  | Js.Thrown s => s
  end.

(** [Deno.env.get(k)] used as a condition *)
Definition configured (v : option string) : bool :=
  match v with Some s => Js.truthy s | None => false end.

End Http.

(* ================================================================== *)
(** ** supabase/functions/midtrans-webhook/index.ts *)

Module Webhook.

Inductive Env : Type := sandbox | production.

Definition Env_text (e : Env) : string :=
  match e with sandbox => "sandbox" | production => "production" end.

(** The queries whose [error] the handler inspects. *)
Inductive site : Type :=
| ServerKeyQuery (env : Env)
| OrderQuery
| PricingQuery.

(** What a run of the handler finds around it. *)
Record world : Type := mkWorld
  { SUPABASE_URL : option string;
    SUPABASE_SERVICE_ROLE_KEY : option string;
    store : Db.store;
    fault : site -> option Db.error;   (**r failure of a query, if any *)
    clock : Z                          (**r time value of [new Date()] *) }.

Record request : Type := mkRequest
  { method : string;
    json : Js.result Js.jsval          (**r outcome of [req.json()] *) }.

Definition key_name (env : Env) : string :=
  match env with
  | sandbox => "server_key_sandbox"
  | production => "server_key_production"
  end.

Definition getPlainServerKey (w : world) (env : Env) : Js.result string :=
  let name := key_name env in
  match Db.maybeSingle (fault w (ServerKeyQuery env))
                       (Db.secrets_where (store w) "midtrans" name) with
  | inl error => inl (Db.thrown error)
  | inr data =>
      let iv := match data with
                | Some r => match Db.Secret.iv r with Some s => s | None => "" end
                | None => ""
                end in
      let key := if (iv =? "plain")%string
                 then match data with
                      | Some r => match Db.Secret.ciphertext r with Some s => s | None => "" end
                      | None => ""
                      end
                 else "" in
      if negb (Js.truthy (Js.trim key)) then inl (Js.Error ("Missing " ++ name))
      else inr (Js.trim key)
  end.

Record params : Type := mkParams
  { signature_key : string;
    order_id : string;
    status_code : string;
    gross_amount : string;
    server_key : string }.

Definition verifySignature (p : params) : bool :=
  let expected := Crypto.sha512Hex
                    (order_id p ++ status_code p ++ gross_amount p ++ server_key p) in
  (expected =? signature_key p)%string.

Definition addMonthsIso (date : Z) (months : Z) : string :=
  let d := date in
  let d := JsDate.setUTCMonth d (JsDate.getUTCMonth d + months) in
  JsDate.toISOString d.

(** [getPlainServerKey(admin, env).catch(() => "")] *)
Definition key_or_empty (w : world) (env : Env) : string :=
  match getPlainServerKey w env with
  | inl _ => ""
  | inr k => k
  end.

(** Lines 82-95: [Some env] when the signature verifies, production first. *)
Definition verified_env (w : world) (sig oid sc ga : string) : option Env :=
  let prodKey := key_or_empty w production in
  let sandKey := key_or_empty w sandbox in
  let isProd := if Js.truthy prodKey
                then verifySignature (mkParams sig oid sc ga prodKey) else false in
  let isSandbox := if negb isProd && Js.truthy sandKey
                   then verifySignature (mkParams sig oid sc ga sandKey) else false in
  if negb isProd && negb isSandbox then None
  else Some (if isProd then production else sandbox).

Definition is_paid (transaction_status : option string) : bool :=
  Db.opt_eqb transaction_status "settlement" || Db.opt_eqb transaction_status "capture".

Definition is_failed (transaction_status : option string) : bool :=
  Db.opt_eqb transaction_status "deny" || Db.opt_eqb transaction_status "cancel"
  || Db.opt_eqb transaction_status "expire".

(** [paid ? "paid" : failed ? "failed" : "pending"] *)
Definition order_status (transaction_status : option string) : string :=
  if is_paid transaction_status then "paid"
  else if is_failed transaction_status then "failed" else "pending".

(** The object passed to [.update] on [orders], applied to a row. *)
Definition order_update (env : Env) (body : Js.jsval) (r : Db.Order.row) : Db.Order.row :=
  let transaction_status := Js.or_null (Js.field body "transaction_status") in
  let fraud_status := Js.or_null (Js.field body "fraud_status") in
  let payment_type := Js.or_null (Js.field body "payment_type") in
  let transaction_id := Js.or_null (Js.field body "transaction_id") in
  Db.Order.mk (Db.Order.id r) (Db.Order.midtrans_order_id r) (Db.Order.user_id r)
              (Db.Order.subscription_years r)
              (order_status transaction_status)
              (Some (Env_text env))
              transaction_status fraud_status payment_type transaction_id.

(** The row passed to [.insert] on [user_packages]. *)
Definition entitlement (userId packageId : Db.uuid) (years now : Z) : Db.UserPackage.row :=
  let durationMonths := years * 12 in
  Db.UserPackage.mk userId packageId durationMonths
                    (JsDate.toISOString now) (JsDate.toISOString now)
                    (addMonthsIso now durationMonths) "active".

(** The object passed to [.update] on [profiles], applied to a row. *)
Definition profile_update (now : Z) (r : Db.Profile.row) : Db.Profile.row :=
  Db.Profile.mk (Db.Profile.id r) "active" true (JsDate.toISOString now).

(** [paid && userId && years > 0]: the user to activate, if any. *)
Definition activation_user (paid : bool) (userId : option Db.uuid) (years : Z)
  : option Db.uuid :=
  if paid then
    match userId with
    | Some u => if 0 <? years then Some u else None
    | None => None
    end
  else None.

(** [(pricingRow as any)?.default_package_id ?? null] *)
Definition default_package (pricingRow : option Db.Pricing.row) : option Db.uuid :=
  match pricingRow with
  | Some r => Db.Pricing.default_package_id r
  | None => None
  end.

(** Lines 131-161, after the order row has been updated. *)
Definition activate (w : world) (st : Db.store) (order : Db.Order.row) (paid : bool)
  : Js.result Http.response * Db.store :=
  let userId := Db.Order.user_id order in
  let years := match Db.Order.subscription_years order with Some y => y | None => 0 end in
  match activation_user paid userId years with
  | Some userId =>
      match Db.maybeSingle (fault w PricingQuery) (Db.pricing_where st) with
      | inl pricingErr => (inl (Db.thrown pricingErr), st)
      | inr pricingRow =>
          match default_package pricingRow with
          | Some packageId =>
              let now := clock w in
              let st := Db.with_user_packages st
                          (Db.insert (entitlement userId packageId years now)
                                     (Db.user_packages st)) in
              let st := Db.with_profiles st
                          (Db.update_where (fun r => N.eqb (Db.Profile.id r) userId)
                                           (profile_update now) (Db.profiles st)) in
              (inr (Http.json 200 Http.ok_obj), st)
          | None => (inr (Http.json 200 Http.ok_obj), st)
          end
      end
  | None => (inr (Http.json 200 Http.ok_obj), st)
  end.

(** The body of the [try] block: the response or the value thrown, and the
    store as the run leaves it. *)
Definition try_block (w : world) (req : request) : Js.result Http.response * Db.store :=
  let st := store w in
  if negb (Http.configured (SUPABASE_URL w))
     || negb (Http.configured (SUPABASE_SERVICE_ROLE_KEY w)) then
    (inr (Http.json 500
            (Http.error_obj "Missing SUPABASE_URL / SUPABASE_SERVICE_ROLE_KEY")), st)
  else
    match json req with
    | inl e => (inl e, st)
    | inr body =>
        let order_id := Js.field body "order_id" in
        let status_code := Js.field body "status_code" in
        let gross_amount := Js.field body "gross_amount" in
        let signature_key := Js.field body "signature_key" in
        if negb (Js.truthy order_id) || negb (Js.truthy status_code)
           || negb (Js.truthy gross_amount) || negb (Js.truthy signature_key) then
          (inr (Http.json 400 (Http.error_obj "Invalid payload")), st)
        else
          match verified_env w signature_key order_id status_code gross_amount with
          | None => (inr (Http.json 401 (Http.error_obj "Invalid signature")), st)
          | Some env =>
              match Db.maybeSingle (fault w OrderQuery) (Db.orders_where st order_id) with
              | inl orderErr => (inl (Db.thrown orderErr), st)
              | inr None =>
                  (inr (Http.json 200
                          (Js.JObj [("ok", Js.JBool true); ("ignored", Js.JBool true)])), st)
              | inr (Some order) =>
                  let transaction_status :=
                    Js.or_null (Js.field body "transaction_status") in
                  let paid := is_paid transaction_status in
                  let st := Db.with_orders st
                              (Db.update_where
                                 (fun r => N.eqb (Db.Order.id r) (Db.Order.id order))
                                 (order_update env body) (Db.orders st)) in
                  activate w st order paid
              end
          end
    end.

(** [Deno.serve(async (req) => ...)]: the response and the store after the run. *)
Definition handler (w : world) (req : request) : Http.response * Db.store :=
  if (method req =? "OPTIONS")%string then (Http.text "ok", store w)
  else
    match try_block w req with
    | (inr response, st) => (response, st)
    | (inl e, st) => (Http.json 500 (Http.error_obj (Http.catch_message e)), st)
    end.

End Webhook.

(* ================================================================== *)
(** ** Edge function super-admin-xendit-secret *)

Module XenditSecret.

(** The queries of this handler; each one's [error] is inspected. *)
Inductive site : Type :=
| RoleQuery
| SecretQuery
| SecretUpsert
| SecretDelete.

(** [{ data: claimsData, error: claimsErr }] of [auth.getClaims]. *)
Inductive claims : Type :=
| ClaimsError                       (**r [claimsErr] is set *)
| Claims (sub : option string).     (**r [claimsData?.claims?.sub] *)

Record world : Type := mkWorld
  { SUPABASE_URL : option string;
    SUPABASE_ANON_KEY : option string;
    SUPABASE_SERVICE_ROLE_KEY : option string;
    store : Db.store;
    fault : site -> option Db.error;
    getClaims : string -> Js.result claims }.

Record request : Type := mkRequest
  { method : string;
    Authorization : option string;     (**r [req.headers.get("Authorization")] *)
    json : Js.result Js.jsval }.

Inductive validation : Type :=
| Valid (apiKey : string)            (**r [{ ok: true, apiKey }] *)
| Invalid (error : string).          (**r [{ ok: false, error }] *)

Definition validateXenditSecretKey (input : option Js.jsval) : validation :=
  let apiKey := Js.trim (Js.String_or_empty input) in
  if negb (Js.truthy apiKey) then Invalid "api_key is required"
  else if Js.has_white_space apiKey || (Js.length apiKey <? 8) || (Js.length apiKey >? 256)
  then Invalid "Invalid api_key format"
  else if negb (Js.startsWith apiKey "xnd_")
  then Invalid "Invalid Xendit key. Use a key that starts with 'xnd_'"
  else if Js.startsWith apiKey "xnd_public_"
  then Invalid "Invalid Xendit key for server-side usage. Please paste the Xendit *Secret* API Key (xnd_development_... / xnd_production_...), not the public key."
  else Valid apiKey.

Inductive authz : Type :=
| Authorized (userId : string)               (**r [{ ok: true, userId }] *)
| Refused (status : Z) (error : string).     (**r [{ ok: false, status, error }] *)

Definition requireSuperAdmin (w : world) (userId : string) : authz :=
  match Db.maybeSingle (fault w RoleQuery) (Db.roles_where (store w) userId) with
  | inl roleErr => Refused 500 (Db.message roleErr)
  | inr roleRow =>
      let role := match roleRow with Some r => Db.Role.role r | None => None end in
      if negb (Db.opt_eqb role "super_admin") then Refused 403 "Forbidden"
      else Authorized userId
  end.

(** [authHeader.startsWith("Bearer ") ? authHeader.slice(7) : null] *)
Definition bearer (authHeader : string) : option string :=
  if Js.startsWith authHeader "Bearer "
  then Some (substring 7 (String.length authHeader - 7) authHeader)
  else None.

Definition is_action (action : option Js.jsval) (name : string) : bool :=
  match action with
  | Some (Js.JStr s) => (s =? name)%string
  | _ => false
  end.

(** [.upsert({provider, name, ciphertext, iv}, { onConflict: "provider,name" })] *)
Definition upsert_secret (p n key : string) (rows : list Db.Secret.row) : list Db.Secret.row :=
  let hit := fun r => (Db.Secret.provider r =? p)%string && (Db.Secret.name r =? n)%string in
  if existsb hit rows
  then Db.update_where hit
         (fun r => Db.Secret.mk p n (Some key) (Some "plain") (Db.Secret.updated_at r)) rows
  else Db.insert (Db.Secret.mk p n (Some key) (Some "plain") None) rows.

(** [.delete().eq("provider", p).eq("name", n)] *)
Definition delete_secret (p n : string) (rows : list Db.Secret.row) : list Db.Secret.row :=
  filter (fun r => negb ((Db.Secret.provider r =? p)%string && (Db.Secret.name r =? n)%string))
         rows.

(** Lines 101-158: the actions, once the caller is authorised. *)
Definition dispatch (w : world) (req : request) : Js.result Http.response * Db.store :=
  let st := store w in
  match json req with
  | inl e => (inl e, st)
  | inr Js.JNull =>
      (inl (Js.Error "Cannot read properties of null (reading 'action')"), st)
  | inr body =>
      let action := Js.get body "action" in
      if is_action action "get" then
        match Db.maybeSingle (fault w SecretQuery)
                             (Db.secrets_where st "xendit" "api_key") with
        | inl error => (inl (Db.thrown error), st)
        | inr data =>
            (inr (Http.json 200
                    (Js.JObj
                       [("configured", Js.JBool (match data with Some _ => true | None => false end));
                        ("updated_at",
                         match data with
                         | Some r => Js.JStr (match Db.Secret.updated_at r with
                                              | Some s => s
                                              | None => "null"
                                              end)
                         | None => Js.JNull
                         end)])), st)
        end
      else if is_action action "set" then
        match validateXenditSecretKey (Js.get body "api_key") with
        | Invalid error => (inr (Http.json 400 (Http.error_obj error)), st)
        | Valid apiKey =>
            match fault w SecretUpsert with
            | Some error => (inl (Db.thrown error), st)
            | None =>
                (inr (Http.json 200 Http.ok_obj),
                 Db.with_secrets st
                   (upsert_secret "xendit" "api_key" apiKey (Db.integration_secrets st)))
            end
        end
      else if is_action action "clear" then
        match fault w SecretDelete with
        | Some error => (inl (Db.thrown error), st)
        | None =>
            (inr (Http.json 200 Http.ok_obj),
             Db.with_secrets st
               (delete_secret "xendit" "api_key" (Db.integration_secrets st)))
        end
      else (inr (Http.json 400 (Http.error_obj "Unknown action")), st)
  end.

Definition unauthorized : Http.response := Http.json 401 (Http.error_obj "Unauthorized").

(** Lines 70-99: the caller's user id, or the response that ends the run. *)
Definition authorize (w : world) (req : request) : Js.result (Http.response + string) :=
  let authHeader := match Authorization req with Some h => h | None => "" end in
  match bearer authHeader with
  | None => inr (inl unauthorized)
  | Some token =>
      if negb (Js.truthy token) then inr (inl unauthorized)
      else
        match getClaims w token with
        | inl e => inl e
        | inr ClaimsError => inr (inl unauthorized)
        | inr (Claims None) => inr (inl unauthorized)
        | inr (Claims (Some sub)) =>
            if negb (Js.truthy sub) then inr (inl unauthorized)
            else
              match requireSuperAdmin w sub with
              | Refused status error => inr (inl (Http.json status (Http.error_obj error)))
              | Authorized userId => inr (inr userId)
              end
        end
  end.

Definition try_block (w : world) (req : request) : Js.result Http.response * Db.store :=
  let st := store w in
  if negb (Http.configured (SUPABASE_URL w))
     || negb (Http.configured (SUPABASE_ANON_KEY w))
     || negb (Http.configured (SUPABASE_SERVICE_ROLE_KEY w)) then
    (inr (Http.json 500
            (Http.error_obj
               "Missing SUPABASE_URL / SUPABASE_ANON_KEY / SUPABASE_SERVICE_ROLE_KEY")), st)
  else
    match authorize w req with
    | inl e => (inl e, st)
    | inr (inl response) => (inr response, st)
    | inr (inr _) => dispatch w req
    end.

Definition handler (w : world) (req : request) : Http.response * Db.store :=
  if (method req =? "OPTIONS")%string then (Http.text "ok", store w)
  else
    match try_block w req with
    | (inr response, st) => (response, st)
    | (inl e, st) => (Http.json 500 (Http.error_obj (Http.catch_message e)), st)
    end.

End XenditSecret.

(* ================================================================== *)
(** ** src/hooks/useDomainSuggestions.ts *)

Module useDomainSuggestions.

Record DomainSuggestionItem : Type := mkItem
  { domain : string;
    status : Js.jsval;
    price_usd : option Z;
    currency : option string }.

Record State : Type := mkState
  { loading : bool; error : option string; items : list DomainSuggestionItem }.

(** [{ loading: false, error: null, items: [] }] *)
Definition idle : State := mkState false None [].

(** A timer of [window]: its handle (a positive integer), its delay and
    the query its callback captured. *)
Record timeout : Type := mkTimeout { handle : positive; delay : Z; q : string }.

(** The dependency array [[debounceMs, enabled, query]]. *)
Record deps : Type := mkDeps { debounceMs : Z; enabled : bool; query : string }.

(** One mounted use of the hook, with the part of [window] it touches. *)
Record hook : Type := mkHook
  { state : State;                    (**r [useState] *)
    timer : option positive;          (**r [timer.current], [None] for [null] *)
    cleanup : bool;                   (**r the last effect returned its cleanup *)
    last : deps;                      (**r dependencies of the last effect *)
    pending : list timeout;           (**r timers set and neither fired nor cleared *)
    next : positive;                  (**r the handle [setTimeout] returns next *)
    invoked : list string             (**r queries sent to [domainr-check] *) }.

(** [window.clearTimeout(id)] *)
Definition clearTimeout (id : positive) (ts : list timeout) : list timeout :=
  filter (fun t => negb (Pos.eqb (handle t) id)) ts.

(** [if (timer.current) window.clearTimeout(timer.current)] *)
Definition clear_current (h : hook) : list timeout :=
  match timer h with
  | Some id => clearTimeout id (pending h)
  | None => pending h
  end.

(** The function passed to [useEffect], run with dependencies [d]. *)
Definition effect (d : deps) (h : hook) : hook :=
  if negb (enabled d) then
    mkHook (state h) (timer h) false d (pending h) (next h) (invoked h)
  else
    let q := Js.trim (query d) in
    if negb (Js.truthy q) then
      mkHook idle (timer h) false d (pending h) (next h) (invoked h)
    else
      let cleared := clear_current h in
      let id := next h in
      mkHook (state h) (Some id) true d
             (cleared ++ [mkTimeout id (debounceMs d) q]) (Pos.succ id) (invoked h).

(** The function the effect returned, when it returned one. *)
Definition run_cleanup (h : hook) : hook :=
  if cleanup h then
    mkHook (state h) (timer h) false (last h) (clear_current h) (next h) (invoked h)
  else h.

Definition deps_eqb (a b : deps) : bool :=
  (debounceMs a =? debounceMs b) && Bool.eqb (enabled a) (enabled b)
  && (query a =? query b)%string.

(** First render. *)
Definition mount (first : positive) (d : deps) : hook :=
  effect d (mkHook idle None false d [] first []).

(** What the remote function answered: [{ data, error }]. *)
Inductive answer : Type :=
| Failed (message : option string)
| Data (data : Js.jsval).

Definition js_truthy (v : Js.jsval) : bool :=
  match v with
  | Js.JNull => false
  | Js.JBool b => b
  | Js.JNum z => negb (z =? 0)
  | Js.JStr s => Js.truthy s
  | Js.JArr _ | Js.JObj _ => true
  end.

Definition to_item (it : Js.jsval) : DomainSuggestionItem :=
  mkItem (Js.String_or_empty (Js.get it "domain"))
         (match Js.get it "status" with
          | None | Some Js.JNull => Js.JStr "unknown"
          | Some v => v
          end)
         (match Js.get it "price_usd" with Some (Js.JNum z) => Some z | _ => None end)
         (match Js.get it "currency" with
          | Some v => if js_truthy v then Some (Js.to_String v) else None
          | None => None
          end).

(** The state set once the remote call has settled. *)
Definition settled (a : answer) : State :=
  match a with
  | Failed (Some m) => mkState false (Some m) []
  | Failed None => mkState false (Some "Failed to fetch domain suggestions") []
  | Data data =>
      let items := match Js.get data "items" with
                   | Some (Js.JArr l) => l
                   | _ => []
                   end in
      mkState false None (map to_item items)
  end.

Inductive event : Type :=
| Render (d : deps)        (**r a render; the effect runs if a dependency changed *)
| Unmount                  (**r the component goes away *)
| Fire (id : positive)     (**r the timer [id] elapses *)
| Settle (a : answer).     (**r a remote call settles *)

Definition step (h : hook) (e : event) : hook :=
  match e with
  | Render d =>
      if deps_eqb d (last h) then h else effect d (run_cleanup h)
  | Unmount => run_cleanup h
  | Fire id =>
      match find (fun t => Pos.eqb (handle t) id) (pending h) with
      | Some t =>
          mkHook (mkState true None (items (state h))) (timer h) (cleanup h) (last h)
                 (clearTimeout id (pending h)) (next h) (invoked h ++ [q t])
      | None => h
      end
  | Settle a =>
      mkHook (settled a) (timer h) (cleanup h) (last h) (pending h) (next h) (invoked h)
  end.

(** The hook after a mount and a sequence of events. *)
Definition run (first : positive) (d : deps) (es : list event) : hook :=
  fold_left step es (mount first d).

End useDomainSuggestions.

(* ================================================================== *)
(** ** src/components/order/OrderWebsitePackagesCards.tsx *)

Module Packages.

(** [c.toLowerCase()] for a code unit below U+0100: the letters A-Z and
    U+00C0..U+00DE (the multiplication sign apart) move up by 32. *)
Definition lower_char (c : ascii) : ascii :=
  let n := Z.of_N (N_of_ascii c) in
  if ((65 <=? n) && (n <=? 90)) || ((192 <=? n) && (n <=? 222) && negb (n =? 215))
  then ascii_of_N (Z.to_N (n + 32))
  else c.

(** [s.toLowerCase()] *)
Fixpoint toLowerCase (s : string) : string :=
  match s with
  | EmptyString => EmptyString
  | String c s' => String (lower_char c) (toLowerCase s')
  end.

Record PackageRow : Type := mkPackage
  { id : string;
    name : string;
    type : string;
    description : option string;
    price : option Z;
    features : option Js.jsval;
    is_recommended : option bool }.

Definition TARGET_NAMES : list string :=
  ["Website Only"; "Website + Content Growth"; "Website + Full Digital Marketing"].

Definition normalizeName (name : string) : string := toLowerCase (Js.trim name).

(** [features.map(...).filter(Boolean).slice(0, 3)], or [[]] when
    [features] is not an array. *)
Definition getFeatureSnippet (features : option Js.jsval) : list string :=
  match features with
  | Some (Js.JArr items) =>
      firstn 3
        (filter Js.truthy
           (map (fun x => match x with Js.JStr s => Js.trim s | _ => "" end) items))
  | _ => []
  end.

Definition resolveTargetName (name : string) : option string :=
  let n := normalizeName name in
  find (fun t => (normalizeName t =? n)%string) TARGET_NAMES.

(** A number that may be infinite, as [targetRank] and the comparator of
    the sort produce it. *)
Inductive number : Type :=
| Num (z : Z)
| PosInfinity
| NegInfinity
| NaN.

(** [a - b] *)
Definition minus (a b : number) : number :=
  match a, b with
  | Num x, Num y => Num (x - y)
  | NaN, _ | _, NaN => NaN
  | PosInfinity, PosInfinity | NegInfinity, NegInfinity => NaN
  | PosInfinity, _ | _, NegInfinity => PosInfinity
  | NegInfinity, _ | _, PosInfinity => NegInfinity
  end.

(** [l.indexOf(x)] *)
Fixpoint indexOf (x : string) (l : list string) : Z :=
  match l with
  | [] => -1
  | y :: l' =>
      if (y =? x)%string then 0
      else let i := indexOf x l' in if i <? 0 then -1 else i + 1
  end.

Definition targetRank (name : string) : number :=
  match resolveTargetName name with
  | None => PosInfinity
  | Some tn => Num (indexOf tn TARGET_NAMES)
  end.

(** A comparator's verdict [v > 0]: the first argument goes after the
    second. *)
Definition after (v : number) : bool :=
  match v with
  | Num z => 0 <? z
  | PosInfinity => true
  | NegInfinity | NaN => false
  end.

(** [l.sort(cmp)].  The sort of ECMAScript is stable, so for a comparator
    that orders its arguments consistently the result is the one insertion
    gives: an element moves behind those that must come before it, and
    stays in front of its equals that followed it. *)
Fixpoint insert {A : Type} (cmp : A -> A -> number) (x : A) (l : list A) : list A :=
  match l with
  | [] => [x]
  | y :: l' => if after (cmp x y) then y :: insert cmp x l' else x :: l
  end.

Definition sort {A : Type} (cmp : A -> A -> number) (l : list A) : list A :=
  fold_right (insert cmp) [] l.

(** Lines 174-178: the packages shown, from the rows the query returned. *)
Definition shown (data : option (list PackageRow)) : list PackageRow :=
  let base := match data with Some rows => rows | None => [] end in
  sort (fun a b => minus (targetRank (name a)) (targetRank (name b)))
       (filter (fun p => match resolveTargetName (name p) with
                         | Some _ => true
                         | None => false
                         end) base).

(** The state of [OrderWebsitePackagesCards] and the flag of its effect. *)
Record cards : Type := mkCards
  { loading : bool; packages : list PackageRow; isMounted : bool }.

(** First render and start of the effect: [setLoading(true)]. *)
Definition mounted : cards := mkCards true [] true.

Inductive event : Type :=
| Answered (data : option (list PackageRow))   (**r the query resolves with [res.data] *)
| Rejected                                     (**r the query throws *)
| Unmounted.                                   (**r the effect's cleanup runs *)

Definition step (c : cards) (e : event) : cards :=
  match e with
  | Answered data =>
      if negb (isMounted c) then c
      else mkCards false (shown data) (isMounted c)
  | Rejected =>
      if isMounted c then mkCards false [] (isMounted c) else c
  | Unmounted => mkCards (loading c) (packages c) false
  end.

End Packages.

(* ================================================================== *)
(** * Vocabulary of the properties *)

(** ** The Midtrans webhook *)

Module WebhookSpec.
Import Webhook.

(** The request is served by the [try] block and its body parses to [body]. *)
Definition serves (w : world) (req : request) (body : Js.jsval) : Prop :=
  method req <> "OPTIONS"
  /\ Http.configured (SUPABASE_URL w) = true
  /\ Http.configured (SUPABASE_SERVICE_ROLE_KEY w) = true
  /\ json req = inr body.

(** The four signed fields are present: the request passes line 74. *)
Definition complete (body : Js.jsval) : Prop :=
  Js.field body "order_id" <> "" /\ Js.field body "status_code" <> ""
  /\ Js.field body "gross_amount" <> "" /\ Js.field body "signature_key" <> "".

(** [key] is the plain secret stored for [env]: the one row of
    [integration_secrets] for provider midtrans and that name has
    [iv = 'plain'], and [key] is its trimmed, non-empty [ciphertext]. *)
Definition stored_key (w : world) (env : Env) (key : string) : Prop :=
  fault w (ServerKeyQuery env) = None
  /\ exists r c,
       Db.secrets_where (store w) "midtrans" (key_name env) = [r]
       /\ Db.Secret.iv r = Some "plain"
       /\ Db.Secret.ciphertext r = Some c
       /\ key = Js.trim c /\ key <> "".

(** The digest of the signed fields of [body] under [key] is the
    signature the payload carries. *)
Definition signs (key : string) (body : Js.jsval) : Prop :=
  Crypto.sha512Hex (Js.field body "order_id" ++ Js.field body "status_code"
                    ++ Js.field body "gross_amount" ++ key)
  = Js.field body "signature_key".

(** The order query of line 103. *)
Definition order_lookup (w : world) (body : Js.jsval) : Db.error + option Db.Order.row :=
  Db.maybeSingle (fault w OrderQuery) (Db.orders_where (store w) (Js.field body "order_id")).

(** The settings query of line 135. *)
Definition pricing_lookup (w : world) : Db.error + option Db.Pricing.row :=
  Db.maybeSingle (fault w PricingQuery) (Db.pricing_where (store w)).

(** [transaction_status] as line 97 computes it. *)
Definition status_of (body : Js.jsval) : option string :=
  Js.or_null (Js.field body "transaction_status").

(** The [orders] rows after the update of line 119. *)
Definition updated_orders (w : world) (env : Env) (body : Js.jsval) (order : Db.Order.row)
  : list Db.Order.row :=
  Db.update_where (fun r => N.eqb (Db.Order.id r) (Db.Order.id order))
                  (order_update env body) (Db.orders (store w)).

(** The environment the handler settles on for [body]. *)
Definition env_of (w : world) (body : Js.jsval) : option Env :=
  verified_env w (Js.field body "signature_key") (Js.field body "order_id")
               (Js.field body "status_code") (Js.field body "gross_amount").

(** How far a run gets: the parsed body, the environment and the order
    row, when the run reaches the update of line 119. *)
Definition reach (w : world) (req : request) : option (Js.jsval * Env * Db.Order.row) :=
  if (method req =? "OPTIONS")%string then None
  else if negb (Http.configured (SUPABASE_URL w))
          || negb (Http.configured (SUPABASE_SERVICE_ROLE_KEY w)) then None
  else
    match json req with
    | inl _ => None
    | inr body =>
        if negb (Js.truthy (Js.field body "order_id"))
           || negb (Js.truthy (Js.field body "status_code"))
           || negb (Js.truthy (Js.field body "gross_amount"))
           || negb (Js.truthy (Js.field body "signature_key")) then None
        else
          match env_of w body, order_lookup w body with
          | Some env, inr (Some order) => Some (body, env, order)
          | _, _ => None
          end
    end.

(** The run grants [userId] the package [packageId] for [years] years:
    the notification is verified and selects an order, its status maps to
    'paid', the order has that user and that positive number of years, and
    the settings row carries that default package. *)
Definition activation (w : world) (req : request) (userId packageId : Db.uuid) (years : Z)
  : Prop :=
  exists body env order pricingRow,
    serves w req body /\ complete body /\ env_of w body = Some env
    /\ order_lookup w body = inr (Some order)
    /\ order_status (status_of body) = "paid"
    /\ Db.Order.user_id order = Some userId
    /\ Db.Order.subscription_years order = Some years /\ 0 < years
    /\ pricing_lookup w = inr (Some pricingRow)
    /\ Db.Pricing.default_package_id pricingRow = Some packageId.

(** The same deployment a moment later: the store a first run left, the
    clock at [now']. *)
Definition afterwards (w : world) (req : request) (now' : Z) : world :=
  mkWorld (SUPABASE_URL w) (SUPABASE_SERVICE_ROLE_KEY w) (snd (handler w req))
          (fault w) now'.

(** Where a [throw] of the run is. *)
Inductive origin : Type :=
| InBody                    (**r [req.json()] rejects *)
| InServerKey (env : Env)   (**r inside [getPlainServerKey(admin, env)] *)
| InOrderQuery              (**r [throw orderErr] *)
| InPricingQuery.           (**r [throw pricingErr] *)

(** [raised w req o e]: the run of the handler executes the [throw] at [o],
    and [e] is the value thrown. *)
Inductive raised (w : world) (req : request) : origin -> Js.exn -> Prop :=
| raised_body e :
    method req <> "OPTIONS" ->
    Http.configured (SUPABASE_URL w) = true ->
    Http.configured (SUPABASE_SERVICE_ROLE_KEY w) = true ->
    json req = inl e ->
    raised w req InBody e
| raised_key body env e :
    serves w req body -> complete body ->
    getPlainServerKey w env = inl e ->
    raised w req (InServerKey env) e
| raised_order body env orderErr :
    serves w req body -> complete body -> env_of w body = Some env ->
    order_lookup w body = inl orderErr ->
    raised w req InOrderQuery (Db.thrown orderErr)
| raised_pricing body env order userId pricingErr :
    serves w req body -> complete body -> env_of w body = Some env ->
    order_lookup w body = inr (Some order) ->
    activation_user (is_paid (status_of body)) (Db.Order.user_id order)
                    (match Db.Order.subscription_years order with
                     | Some y => y
                     | None => 0
                     end) = Some userId ->
    pricing_lookup w = inl pricingErr ->
    raised w req InPricingQuery (Db.thrown pricingErr).

(** *** A deployment and a notification to run the handler on *)

Definition shop : Db.store :=
  Db.mkStore
    [Db.Secret.mk "midtrans" "server_key_sandbox" (Some "SB-Mid-server-test ")
                  (Some "plain") None]
    [Db.Order.mk 1%N (Some "ORDER-1001") (Some 7%N) (Some 1) "pending"
                 None None None None None;
     Db.Order.mk 2%N (Some "ORDER-1002") None (Some 2) "pending"
                 None None None None None]
    [Db.Pricing.mk true (Some 9%N)]
    []
    [Db.Profile.mk 7%N "pending" false "2025-01-01T00:00:00.000Z"]
    [].

(** 2025-11-02T15:00:00.000Z *)
Definition noon : Z := 1762095600000.

Definition deployment (st : Db.store) : world :=
  mkWorld (Some "https://shop.supabase.co") (Some "service-role") st (fun _ => None) noon.

(** The signature is the SHA-512 of
    ["ORDER-1001" ++ "200" ++ "25000.00" ++ "SB-Mid-server-test"]. *)
Definition settlement : Js.jsval :=
  Js.JObj
    [("order_id", Js.JStr "ORDER-1001");
     ("status_code", Js.JStr "200");
     ("gross_amount", Js.JStr "25000.00");
     ("signature_key",
      Js.JStr "45d8643682f962cd23a2ca1957a7fc01bfbddc150e1c9e47645dff96382c4584dba1a1bed9f045a9146f54772476aa7931f6e49599db661eb09514df26f8e29a");
     ("transaction_status", Js.JStr "settlement");
     ("payment_type", Js.JStr "bank_transfer")].

(** The same notification for an order nobody placed; the signature is
    the SHA-512 of ["ORDER-9999" ++ "200" ++ "25000.00" ++ "SB-Mid-server-test"]. *)
Definition stray : Js.jsval :=
  Js.JObj
    [("order_id", Js.JStr "ORDER-9999");
     ("status_code", Js.JStr "200");
     ("gross_amount", Js.JStr "25000.00");
     ("signature_key", Js.JStr "29a5cacdc0a6d1ed48dc516a16c9922e93986d66b07e2380b4653bf249ae8f7e691bb33b45fd32c6e6c908f3448d58d2fe4158c27ef670ac3c94a2f8ce86dc1b");
     ("transaction_status", Js.JStr "settlement")].

Definition post (body : Js.jsval) : request := mkRequest "POST" (inr body).

End WebhookSpec.

Module XenditSpec.
Import XenditSecret.

(** The request is served by the [try] block of a configured deployment. *)
Definition served (w : world) (req : request) : Prop :=
  method req <> "OPTIONS"
  /\ Http.configured (SUPABASE_URL w) = true
  /\ Http.configured (SUPABASE_ANON_KEY w) = true
  /\ Http.configured (SUPABASE_SERVICE_ROLE_KEY w) = true.

(** The request presents a Bearer token whose claims resolve to the user
    id [sub]. *)
Definition presents (w : world) (req : request) (sub : string) : Prop :=
  exists authHeader token,
    Authorization req = Some authHeader
    /\ bearer authHeader = Some token /\ token <> ""
    /\ getClaims w token = inr (Claims (Some sub)) /\ sub <> "".

(** The one [user_roles] row of [sub] says 'super_admin'. *)
Definition super_admin (w : world) (sub : string) : Prop :=
  fault w RoleQuery = None
  /\ exists r, Db.roles_where (store w) sub = [r] /\ Db.Role.role r = Some "super_admin".

(** The query of [requireSuperAdmin]. *)
Definition role_lookup (w : world) (sub : string) : Db.error + option Db.Role.row :=
  Db.maybeSingle (fault w RoleQuery) (Db.roles_where (store w) sub).

Definition granted (w : world) (req : request) : Prop :=
  exists sub, presents w req sub /\ super_admin w sub.

(** The same surroundings with other rows in [integration_secrets]. *)
Definition with_rows (w : world) (rows : list Db.Secret.row) : world :=
  mkWorld (SUPABASE_URL w) (SUPABASE_ANON_KEY w) (SUPABASE_SERVICE_ROLE_KEY w)
          (Db.with_secrets (store w) rows) (fault w) (getClaims w).

(** The rows of [integration_secrets] that hold the Xendit key. *)
Definition xendit_rows (st : Db.store) : list Db.Secret.row :=
  Db.secrets_where st "xendit" "api_key".

(** *** An installation to run the handler on *)

Definition office : Db.store :=
  Db.mkStore [] [] [] [] []
             [Db.Role.mk "admin-1" (Some "super_admin"); Db.Role.mk "user-2" (Some "user")].

Definition sessions (token : string) : Js.result claims :=
  if (token =? "tok-admin")%string then inr (Claims (Some "admin-1"))
  else if (token =? "tok-user")%string then inr (Claims (Some "user-2"))
  else inr ClaimsError.

Definition installation (faults : site -> option Db.error) : world :=
  mkWorld (Some "https://shop.supabase.co") (Some "anon") (Some "service-role")
          office faults sessions.

Definition healthy : site -> option Db.error := fun _ => None.

(** The role query cannot reach the database. *)
Definition outage (s : site) : option Db.error :=
  match s with
  | RoleQuery => Some (Db.mkError "TypeError: error sending request" false)
  | _ => None
  end.

Definition set_key (token key : string) : request :=
  mkRequest "POST" (Some ("Bearer " ++ token))
            (inr (Js.JObj [("action", Js.JStr "set"); ("api_key", Js.JStr key)])).

End XenditSpec.

Module SuggestSpec.
Import useDomainSuggestions.

(** At most one timer is pending; it is the one [timer.current] holds, and
    the effect's cleanup is registered while it is pending. *)
Definition tidy (h : hook) : Prop :=
  (List.length (pending h) <= 1)%nat
  /\ forall t, In t (pending h) -> timer h = Some (handle t) /\ cleanup h = true.

(** *** A session to run the hook on *)

Definition typing (text : string) : deps := mkDeps 450 true text.

Definition found : answer :=
  Data (Js.JObj
          [("items",
            Js.JArr [Js.JObj [("domain", Js.JStr "kopi.id");
                              ("status", Js.JStr "available")]])]).

(** The user types a name, the timer elapses, the answer arrives. *)
Definition searched : hook := run 1%positive (typing "kopi") [Fire 1%positive; Settle found].

End SuggestSpec.


(** ** Vocabulary of the further properties *)

Module MoreSpec.

(** A string [trim] leaves alone: no white space at either end. *)
Definition trimmed (s : string) : Prop := Js.trim s = s.

(** A lowercase hexadecimal digit. *)
Definition hex_lower (c : ascii) : bool :=
  let n := Z.of_N (N_of_ascii c) in
  ((48 <=? n) && (n <=? 57)) || ((97 <=? n) && (n <=? 102)).

Fixpoint all_chars (p : ascii -> bool) (s : string) : bool :=
  match s with
  | EmptyString => true
  | String c s' => p c && all_chars p s'
  end.

(** The shape of a SHA-512 digest in text: 128 lowercase hexadecimal digits. *)
Definition digest_text (s : string) : Prop :=
  String.length s = 128%nat /\ all_chars hex_lower s = true.

(** The two characters [toString(16).padStart(2, "0")] gives for a byte
    are lowercase hexadecimal digits. *)
Definition two_digits (b : Z) : bool :=
  match Crypto.padStart2 (Crypto.toString16 b) with
  | String c1 (String c2 EmptyString) => hex_lower c1 && hex_lower c2
  | _ => false
  end.

End MoreSpec.

Module PackagesSpec.
Import Packages.

(** The package's name is one of the target names, up to case and
    surrounding white space. *)
Definition listed (p : PackageRow) : bool :=
  match resolveTargetName (name p) with
  | Some _ => true
  | None => false
  end.

(** The place of a listed package: the index of its target name. *)
Definition place (p : PackageRow) : Z :=
  match targetRank (name p) with
  | Num z => z
  | _ => 3
  end.

(** The comparator of the sort. *)
Definition by_rank (a b : PackageRow) : number :=
  minus (targetRank (name a)) (targetRank (name b)).

(** The cards on display are listed packages in the order of
    [TARGET_NAMES], and none is on display while loading. *)
Definition orderly (c : cards) : Prop :=
  Forall (fun p => listed p = true) (packages c)
  /\ StronglySorted (fun a b => place a <= place b) (packages c)
  /\ (loading c = true -> packages c = []).

Definition pkg (i n : string) : PackageRow := mkPackage i n "website" None None None None.

(** Rows as the table may return them. *)
Definition catalogue : list PackageRow :=
  [pkg "p4" "Website + Full Digital Marketing";
   pkg "p1" "  website only ";
   pkg "p9" "Hosting";
   pkg "p2" "WEBSITE + CONTENT GROWTH";
   pkg "p5" "Website Only"].

End PackagesSpec.

Module WebhookMoreSpec.
Import Webhook WebhookSpec.

(** The settlement of order ORDER-1001 with its signature in capitals. *)
Definition uppercase : Js.jsval :=
  Js.JObj
    [("order_id", Js.JStr "ORDER-1001");
     ("status_code", Js.JStr "200");
     ("gross_amount", Js.JStr "25000.00");
     ("signature_key",
      Js.JStr "45D8643682F962CD23A2CA1957A7FC01BFBDDC150E1C9E47645DFF96382C4584DBA1A1BED9F045A9146F54772476AA7931F6E49599DB661EB09514DF26F8E29A");
     ("transaction_status", Js.JStr "settlement")].

(** The columns of an order the handler never writes. *)
Definition order_key (r : Db.Order.row)
  : Db.uuid * option string * option Db.uuid * option Z :=
  (Db.Order.id r, Db.Order.midtrans_order_id r, Db.Order.user_id r,
   Db.Order.subscription_years r).

(** The settings query fails. *)
Definition settings_down (s : site) : option Db.error :=
  match s with
  | PricingQuery => Some (Db.mkError "connection closed" false)
  | _ => None
  end.

Definition broken : world :=
  mkWorld (Some "https://shop.supabase.co") (Some "service-role") shop settings_down noon.

End WebhookMoreSpec.

Module XenditMoreSpec.
Import XenditSecret XenditSpec.

(** The columns of a secret row that say which secret it is and when it
    was written, without the secret itself. *)
Definition label (r : Db.Secret.row) : string * string * option string :=
  (Db.Secret.provider r, Db.Secret.name r, Db.Secret.updated_at r).

(** The row holds the Xendit key. *)
Definition is_xendit (r : Db.Secret.row) : bool :=
  ((Db.Secret.provider r =? "xendit") && (Db.Secret.name r =? "api_key"))%string.

(** The columns of a secret row that the handler writes. *)
Definition content (r : Db.Secret.row)
  : string * string * option string * option string :=
  (Db.Secret.provider r, Db.Secret.name r, Db.Secret.ciphertext r, Db.Secret.iv r).

(** The same surroundings once [req] has been handled. *)
Definition later (w : world) (req : request) : world :=
  mkWorld (SUPABASE_URL w) (SUPABASE_ANON_KEY w) (SUPABASE_SERVICE_ROLE_KEY w)
          (snd (handler w req)) (fault w) (getClaims w).

(** The body of the request parses to an object whose [action] is [a]. *)
Definition asks (req : request) (a : string) (body : Js.jsval) : Prop :=
  json req = inr body /\ Js.get body "action" = Some (Js.JStr a).

(** [req] is a request for action [a] that reaches [dispatch]. *)
Definition accepted (w : world) (req : request) (a : string) (body : Js.jsval) : Prop :=
  served w req /\ granted w req /\ asks req a body.

(** [{ configured, updated_at }] *)
Definition report (configured : bool) (updated_at : Js.jsval) : Http.response :=
  Http.json 200 (Js.JObj [("configured", Js.JBool configured); ("updated_at", updated_at)]).

Definition ask (token a : string) : request :=
  mkRequest "POST" (Some ("Bearer " ++ token)) (inr (Js.JObj [("action", Js.JStr a)])).

End XenditMoreSpec.

Module SuggestMoreSpec.
Import useDomainSuggestions SuggestSpec MoreSpec.

(** [q] is the trimmed, non-empty query of an enabled render among [ds]. *)
Definition typed (ds : deps -> Prop) (q : string) : Prop :=
  q <> "" /\ trimmed q
  /\ exists d, ds d /\ enabled d = true /\ q = Js.trim (query d).

(** Every query a pending timer holds, and every query sent, was typed. *)
Definition sourced (ds : deps -> Prop) (h : hook) : Prop :=
  (forall t, In t (pending h) -> typed ds (q t))
  /\ (forall x, In x (invoked h) -> typed ds x).

(** The renders of a session: the first one and those among the events. *)
Definition renders (d : deps) (es : list event) (d' : deps) : Prop :=
  d' = d \/ In (Render d') es.

Definition is_render (e : event) : bool :=
  match e with Render _ => true | _ => false end.

(** An error is shown without suggestions and without the loading flag. *)
Definition coherent (s : State) : Prop :=
  error s <> None -> items s = [] /\ loading s = false.

End SuggestMoreSpec.

(* ================================================================== *)
(** * Properties *)

(** ** Strings *)

Module JsFacts.

Lemma truthy_true (s : string) : Js.truthy s = true <-> s <> "".
Proof.
  unfold Js.truthy. rewrite negb_true_iff. apply String.eqb_neq.
Qed.

Lemma truthy_false (s : string) : Js.truthy s = false <-> s = "".
Proof.
  unfold Js.truthy. rewrite negb_false_iff. apply String.eqb_eq.
Qed.

Lemma or_null_some (s t : string) : Js.or_null s = Some t <-> s = t /\ s <> "".
Proof.
  unfold Js.or_null. destruct (Js.truthy s) eqn:E.
  - apply truthy_true in E. split.
    + intros [= ->]. now split.
    + intros [-> _]. reflexivity.
  - apply truthy_false in E. split; [discriminate | intros [_ H]; contradiction].
Qed.

Lemma opt_eqb_true (x : option string) (s : string) :
  Db.opt_eqb x s = true <-> x = Some s.
Proof.
  destruct x as [v|]; simpl.
  - rewrite String.eqb_eq. split; [intros -> | intros [= ->]]; reflexivity.
  - split; discriminate.
Qed.

Example trim_both_ends : Js.trim (String "009" " a b  ") = "a b".
Proof. reflexivity. Qed.

Example field_of_number :
  Js.field (Js.JObj [("status_code", Js.JNum 200)]) "status_code" = "200".
Proof. reflexivity. Qed.

Example field_missing : Js.field Js.JNull "order_id" = "".
Proof. reflexivity. Qed.

(** The test vector of FIPS 180-4 for SHA-512, through [sha512Hex]. *)
Example sha512Hex_abc :
  Crypto.sha512Hex "abc"
  = "ddaf35a193617abacc417349ae20413112e6fa4e89a97ea20a9eeee64b55d39a2192992a274fc1a836ba3c23a3feebbd454d4423643ce80e2a9ac94fa54ca49f".
Proof. vm_compute. reflexivity. Qed.

Example sha512Hex_empty :
  Crypto.sha512Hex ""
  = "cf83e1357eefb8bdf1542850d66d8007d620e4050b5715dc83f4a921d36ce9ce47d0d13c5d85f2b0ff8318d2877eec2f63b931bd47417a81a538327af927da3e".
Proof. vm_compute. reflexivity. Qed.

End JsFacts.

(** ** The UTC calendar *)

Module JsDateFacts.
Import JsDate.

(** Case analysis on a month number known to lie in 0..11. *)
Ltac by_month m :=
  let C := fresh "C" in
  assert (C : m = 0 \/ m = 1 \/ m = 2 \/ m = 3 \/ m = 4 \/ m = 5 \/ m = 6 \/ m = 7
              \/ m = 8 \/ m = 9 \/ m = 10 \/ m = 11) by lia;
  repeat (destruct C as [C|C]; [subst m|]); [..|subst m].

Lemma DayFromYear_succ (y : Z) : DayFromYear (y + 1) = DayFromYear y + DaysInYear y.
Proof.
  unfold DayFromYear, DaysInYear, leap.
  destruct (Z.eqb_spec (y mod 4) 0), (Z.eqb_spec (y mod 100) 0), (Z.eqb_spec (y mod 400) 0);
    cbn [negb andb orb]; Z.to_euclidean_division_equations; lia.
Qed.

Lemma DayFromYear_mono (a b : Z) : a <= b -> DayFromYear a <= DayFromYear b.
Proof.
  intros H. unfold DayFromYear. Z.to_euclidean_division_equations. lia.
Qed.

(** [YearFromDay] is the year of ECMA-262: the largest one that starts on
    or before the day. *)
Lemma YearFromDay_spec (d : Z) :
  DayFromYear (YearFromDay d) <= d < DayFromYear (YearFromDay d + 1).
Proof.
  unfold YearFromDay.
  set (y0 := 1970 + 400 * d / 146097).
  assert (H0 : DayFromYear (y0 - 1) <= d < DayFromYear (y0 + 2)).
  { unfold y0, DayFromYear. Z.to_euclidean_division_equations. lia. }
  destruct (Z.leb_spec (DayFromYear (y0 + 1)) d).
  - replace (y0 + 1 + 1) with (y0 + 2) by lia. lia.
  - destruct (Z.leb_spec (DayFromYear y0) d).
    + lia.
    + replace (y0 - 1 + 1) with y0 by lia. lia.
Qed.

Lemma YearFromDay_unique (d y : Z) :
  DayFromYear y <= d < DayFromYear (y + 1) -> YearFromDay d = y.
Proof.
  intros H. pose proof (YearFromDay_spec d) as S.
  destruct (Z.lt_trichotomy (YearFromDay d) y) as [L|[E|G]]; [|exact E|].
  - pose proof (DayFromYear_mono (YearFromDay d + 1) y). lia.
  - pose proof (DayFromYear_mono (y + 1) (YearFromDay d)). lia.
Qed.

Lemma month_of_spec (lp : bool) (d : Z) :
  0 <= d < month_start lp 12 ->
  let m := month_of lp d 11 0 in
  0 <= m <= 11 /\ month_start lp m <= d < month_start lp (m + 1).
Proof.
  intros H. cbn [month_of Z.add Pos.add Pos.succ].
  repeat match goal with
         | |- context [if ?c then _ else _] =>
             let E := fresh "E" in destruct c eqn:E; [cbn; destruct lp; cbn in *; lia|]
         end.
  cbn; destruct lp; cbn in *; lia.
Qed.

Lemma month_of_unique (lp : bool) (d m : Z) :
  0 <= m <= 11 -> month_start lp m <= d < month_start lp (m + 1) ->
  month_of lp d 11 0 = m.
Proof.
  intros Hm H.
  assert (Hd : 0 <= d < month_start lp 12).
  { destruct lp; by_month m; cbn in *; lia. }
  pose proof (month_of_spec lp d Hd) as [Hr S]. cbn zeta in *.
  set (r := month_of lp d 11 0) in *. clearbody r.
  destruct lp; by_month m; by_month r; cbn in *; lia.
Qed.

Lemma month_start_12 (y : Z) : month_start (leap y) 12 = DaysInYear y.
Proof. unfold DaysInYear. now destruct (leap y). Qed.

Lemma month_start_bounds (lp : bool) (m : Z) :
  0 <= m <= 11 -> 0 <= month_start lp m /\ month_start lp (m + 1) <= month_start lp 12.
Proof.
  intros Hm. destruct lp; by_month m; cbn; lia.
Qed.

Lemma time_bounds (t : Z) : 0 <= TimeWithinDay t < msPerDay.
Proof. unfold TimeWithinDay, msPerDay. apply Z.mod_pos_bound. lia. Qed.

Lemma time_split (t : Z) : t = MakeDate (Day t) (TimeWithinDay t).
Proof.
  unfold MakeDate, Day, TimeWithinDay, msPerDay.
  pose proof (Z.div_mod t 86400000). lia.
Qed.

(** The calendar fields of a time value. *)
Lemma fields_of_time (t : Z) :
  let Y := YearFromTime t in
  let M := MonthFromTime t in
  let D := DateFromTime t in
  0 <= M <= 11 /\ 1 <= D <= month_length (leap Y) M
  /\ Day t = DayFromYear Y + month_start (leap Y) M + D - 1.
Proof.
  cbn zeta.
  pose proof (YearFromDay_spec (Day t)) as S.
  change (YearFromDay (Day t)) with (YearFromTime t) in S.
  rewrite DayFromYear_succ, <- month_start_12 in S.
  assert (Hd : 0 <= DayWithinYear t < month_start (leap (YearFromTime t)) 12)
    by (unfold DayWithinYear; lia).
  pose proof (month_of_spec _ _ Hd) as [Hm Hs]. cbn zeta in Hm, Hs.
  change (month_of (leap (YearFromTime t)) (DayWithinYear t) 11 0)
    with (MonthFromTime t) in Hm, Hs.
  unfold DateFromTime, month_length.
  split; [exact Hm|]. split; [lia|]. unfold DayWithinYear. lia.
Qed.

(** The time value made of calendar fields has those fields. *)
Lemma time_of_fields (y m dt tm : Z) :
  0 <= m <= 11 -> 1 <= dt <= month_length (leap y) m -> 0 <= tm < msPerDay ->
  let t := MakeDate (MakeDay y m dt) tm in
  YearFromTime t = y /\ MonthFromTime t = m /\ DateFromTime t = dt
  /\ TimeWithinDay t = tm.
Proof.
  intros Hm Hdt Htm t.
  assert (Hday : MakeDay y m dt = DayFromYear y + month_start (leap y) m + dt - 1).
  { unfold MakeDay. rewrite Z.div_small, Z.mod_small by lia.
    now replace (y + 0) with y by lia. }
  assert (HD : Day t = MakeDay y m dt).
  { unfold t, Day, MakeDate. unfold msPerDay in *.
    rewrite Z.div_add_l, Z.div_small by lia. lia. }
  assert (HT : TimeWithinDay t = tm).
  { unfold t, TimeWithinDay, MakeDate. unfold msPerDay in *.
    rewrite Z.add_comm, Z.mod_add, Z.mod_small by lia. reflexivity. }
  pose proof (month_start_bounds (leap y) m Hm) as [B0 B1].
  unfold month_length in Hdt.
  assert (HY : YearFromTime t = y).
  { unfold YearFromTime. apply YearFromDay_unique.
    rewrite DayFromYear_succ, <- month_start_12, HD, Hday. lia. }
  assert (HW : DayWithinYear t = month_start (leap y) m + dt - 1).
  { unfold DayWithinYear. rewrite HY, HD, Hday. lia. }
  assert (HM : MonthFromTime t = m).
  { unfold MonthFromTime. rewrite HY, HW. apply month_of_unique; lia. }
  split; [exact HY|]. split; [exact HM|]. split; [|exact HT].
  unfold DateFromTime. rewrite HY, HM, HW. lia.
Qed.

(** Setting the UTC month to its own value plus [k * 12] gives the same
    day of the same month, at the same time of day, [k] years later; the
    29th of February becomes the 1st of March when that year is not a
    leap year. *)
Theorem setUTCMonth_years (t k : Z) :
  let t' := setUTCMonth t (getUTCMonth t + k * 12) in
  YearFromTime t' = YearFromTime t + k
  /\ TimeWithinDay t' = TimeWithinDay t
  /\ ((MonthFromTime t' = MonthFromTime t /\ DateFromTime t' = DateFromTime t)
      \/ (MonthFromTime t = 1 /\ DateFromTime t = 29 /\ leap (YearFromTime t + k) = false
          /\ MonthFromTime t' = 2 /\ DateFromTime t' = 1)).
Proof.
  intros t'.
  pose proof (fields_of_time t) as (Hm & Hd & _). cbn zeta in Hm, Hd.
  pose proof (time_bounds t) as Ht.
  set (Y := YearFromTime t) in *. set (M := MonthFromTime t) in *.
  set (D := DateFromTime t) in *.
  assert (E : t' = MakeDate (DayFromYear (Y + k) + month_start (leap (Y + k)) M + D - 1)
                            (TimeWithinDay t)).
  { unfold t', setUTCMonth, getUTCMonth, MakeDay. fold Y M D.
    rewrite Z.div_add, Z.mod_add by lia.
    now rewrite Z.div_small, Z.mod_small, Z.add_0_l by lia. }
  destruct (Z.le_gt_cases D (month_length (leap (Y + k)) M)) as [L|G].
  - assert (E' : t' = MakeDate (MakeDay (Y + k) M D) (TimeWithinDay t)).
    { rewrite E. unfold MakeDay. rewrite Z.div_small, Z.mod_small by lia.
      now replace (Y + k + 0) with (Y + k) by lia. }
    destruct (time_of_fields (Y + k) M D (TimeWithinDay t) Hm (conj (proj1 Hd) L) Ht)
      as (H1 & H2 & H3 & H4).
    rewrite <- E' in H1, H2, H3, H4. split; [exact H1|]. split; [exact H4|]. now left.
  - assert (C : M = 1 /\ D = 29 /\ leap (Y + k) = false).
    { unfold month_length in *. clearbody M D.
      destruct (leap Y), (leap (Y + k)); by_month M; cbn in *; lia. }
    destruct C as (HM & HD & HL).
    assert (E' : t' = MakeDate (MakeDay (Y + k) 2 1) (TimeWithinDay t)).
    { rewrite E, HM, HD, HL. unfold MakeDay, MakeDate.
      change (2 / 12) with 0. change (2 mod 12) with 2.
      rewrite Z.add_0_r, HL. cbn [month_start]. lia. }
    assert (Hlen : 1 <= 1 <= month_length (leap (Y + k)) 2).
    { rewrite HL. cbn. lia. }
    destruct (time_of_fields (Y + k) 2 1 (TimeWithinDay t) ltac:(lia) Hlen Ht)
      as (H1 & H2 & H3 & H4).
    rewrite <- E' in H1, H2, H3, H4. split; [exact H1|]. split; [exact H4|].
    right. now repeat split.
Qed.

Example epoch : toISOString 0 = "1970-01-01T00:00:00.000Z".
Proof. vm_compute. reflexivity. Qed.

Example leap_day_plus_one_year :
  toISOString 1709201472345 = "2024-02-29T10:11:12.345Z"
  /\ toISOString (setUTCMonth 1709201472345 (getUTCMonth 1709201472345 + 12))
     = "2025-03-01T10:11:12.345Z".
Proof. vm_compute. split; reflexivity. Qed.

End JsDateFacts.

(** ** The Midtrans webhook *)

Module WebhookFacts.
Import Webhook WebhookSpec.

Lemma getPlainServerKey_inr (w : world) (env : Env) (key : string) :
  getPlainServerKey w env = inr key <-> stored_key w env key.
Proof.
  unfold getPlainServerKey, stored_key, Db.maybeSingle.
  destruct (fault w (ServerKeyQuery env)) as [e|].
  { split; [discriminate | intros [H _]; discriminate]. }
  destruct (Db.secrets_where (store w) "midtrans" (key_name env)) as [|r [|r' l]].
  - simpl. split; [discriminate | intros [_ (r & c & H & _)]; discriminate].
  - destruct (Db.Secret.iv r) as [i|] eqn:Ei.
    + destruct (String.eqb_spec i "plain") as [->|Hne].
      * destruct (Db.Secret.ciphertext r) as [c|] eqn:Ec.
        -- destruct (Js.truthy (Js.trim c)) eqn:T; simpl.
           ++ apply JsFacts.truthy_true in T. split.
              ** intros [= <-]. split; [reflexivity|]. exists r, c. now rewrite Ei, Ec.
              ** intros [_ (r0 & c0 & [= <-] & _ & Hc & -> & _)].
                 rewrite Ec in Hc. now injection Hc as ->.
           ++ apply JsFacts.truthy_false in T. split; [discriminate|].
              intros [_ (r0 & c0 & [= <-] & _ & Hc & -> & Hk)].
              rewrite Ec in Hc. injection Hc as ->. contradiction.
        -- simpl. split; [discriminate|].
           intros [_ (r0 & c0 & [= <-] & _ & Hc & _)]. rewrite Ec in Hc. discriminate.
      * simpl. split; [discriminate|].
        intros [_ (r0 & c0 & [= <-] & Hi & _)]. rewrite Ei in Hi. congruence.
    + simpl. split; [discriminate|].
      intros [_ (r0 & c0 & [= <-] & Hi & _)]. rewrite Ei in Hi. discriminate.
  - split; [discriminate | intros [_ (r0 & c0 & H & _)]; discriminate].
Qed.

(** The key the handler works with is the stored one, or empty. *)
Lemma key_or_empty_cases (w : world) (env : Env) :
  (exists key, stored_key w env key /\ key_or_empty w env = key /\ Js.truthy key = true)
  \/ ((forall key, ~ stored_key w env key) /\ key_or_empty w env = "").
Proof.
  unfold key_or_empty. destruct (getPlainServerKey w env) as [e|k] eqn:E.
  - right. split; [|reflexivity]. intros key H.
    apply getPlainServerKey_inr in H. congruence.
  - left. exists k. apply getPlainServerKey_inr in E. split; [assumption|].
    split; [reflexivity|]. apply JsFacts.truthy_true.
    destruct E as [_ (r & c & _ & _ & _ & _ & H)]. exact H.
Qed.

Lemma stored_key_unique (w : world) (env : Env) (k1 k2 : string) :
  stored_key w env k1 -> stored_key w env k2 -> k1 = k2.
Proof.
  intros H1 H2. apply getPlainServerKey_inr in H1, H2. congruence.
Qed.

Lemma verifySignature_true (sig oid sc ga key : string) :
  verifySignature (mkParams sig oid sc ga key) = true
  <-> Crypto.sha512Hex (oid ++ sc ++ ga ++ key) = sig.
Proof.
  unfold verifySignature. cbn [order_id status_code gross_amount server_key signature_key].
  apply String.eqb_eq.
Qed.

Lemma verified_env_eq (w : world) (sig oid sc ga : string) :
  verified_env w sig oid sc ga =
  if Js.truthy (key_or_empty w production)
     && verifySignature (mkParams sig oid sc ga (key_or_empty w production))
  then Some production
  else if Js.truthy (key_or_empty w sandbox)
          && verifySignature (mkParams sig oid sc ga (key_or_empty w sandbox))
       then Some sandbox
       else None.
Proof.
  unfold verified_env.
  destruct (Js.truthy (key_or_empty w production));
    destruct (verifySignature (mkParams sig oid sc ga (key_or_empty w production)));
    destruct (Js.truthy (key_or_empty w sandbox));
    destruct (verifySignature (mkParams sig oid sc ga (key_or_empty w sandbox)));
    reflexivity.
Qed.

(** Whether the key stored for [env], if any, signs [body]. *)
Lemma key_check (w : world) (env : Env) (body : Js.jsval) :
  Js.truthy (key_or_empty w env)
  && verifySignature (mkParams (Js.field body "signature_key") (Js.field body "order_id")
                               (Js.field body "status_code") (Js.field body "gross_amount")
                               (key_or_empty w env)) = true
  <-> exists key, stored_key w env key /\ signs key body.
Proof.
  unfold signs.
  destruct (key_or_empty_cases w env) as [(k & Hk & -> & ->)|[Hno ->]].
  - rewrite andb_true_l, verifySignature_true. split.
    + intros H. now exists k.
    + intros (k' & Hk' & Hs). now rewrite (stored_key_unique _ _ _ _ Hk Hk').
  - cbn [Js.truthy String.eqb negb andb]. split; [discriminate|].
    intros (k' & Hk' & _). now apply Hno in Hk'.
Qed.

Lemma env_of_production (w : world) (body : Js.jsval) :
  env_of w body = Some production
  <-> exists key, stored_key w production key /\ signs key body.
Proof.
  rewrite <- key_check. unfold env_of. rewrite verified_env_eq.
  destruct (Js.truthy (key_or_empty w production) && _).
  - split; reflexivity.
  - split; [|discriminate].
    destruct (Js.truthy (key_or_empty w sandbox) && _); discriminate.
Qed.

Lemma env_of_sandbox (w : world) (body : Js.jsval) :
  env_of w body = Some sandbox
  <-> (~ exists key, stored_key w production key /\ signs key body)
      /\ exists key, stored_key w sandbox key /\ signs key body.
Proof.
  rewrite <- !key_check. unfold env_of. rewrite verified_env_eq.
  destruct (Js.truthy (key_or_empty w production) && _).
  - split; [discriminate | intros [H _]; now elim H].
  - destruct (Js.truthy (key_or_empty w sandbox) && _).
    + split; [intros _; split; [discriminate | reflexivity] | reflexivity].
    + split; [discriminate | intros [_ H]; discriminate].
Qed.

Lemma env_of_none (w : world) (body : Js.jsval) :
  env_of w body = None
  <-> forall env key, stored_key w env key -> ~ signs key body.
Proof.
  split.
  - intros H env key Hk Hs.
    assert (Hp : ~ exists key, stored_key w production key /\ signs key body).
    { intros Hp. apply env_of_production in Hp. congruence. }
    destruct env.
    + assert (Hsb : env_of w body = Some sandbox).
      { apply env_of_sandbox. split; [assumption|]. now exists key. }
      congruence.
    + apply Hp. now exists key.
  - intros H. destruct (env_of w body) as [[|]|] eqn:E; [| |reflexivity].
    + apply env_of_sandbox in E. destruct E as [_ (k & Hk & Hs)]. now elim (H _ _ Hk).
    + apply env_of_production in E. destruct E as (k & Hk & Hs). now elim (H _ _ Hk).
Qed.

(** *** The shape of a run *)

Lemma complete_truthy (body : Js.jsval) :
  negb (Js.truthy (Js.field body "order_id")) || negb (Js.truthy (Js.field body "status_code"))
  || negb (Js.truthy (Js.field body "gross_amount"))
  || negb (Js.truthy (Js.field body "signature_key")) = false
  <-> complete body.
Proof.
  unfold complete. rewrite !orb_false_iff, !negb_false_iff, !JsFacts.truthy_true. tauto.
Qed.

(** A request the [try] block serves, with its parsed body. *)
Section Served.

Variables (w : world) (req : request) (body : Js.jsval).
Hypothesis Hserves : serves w req body.

Lemma try_block_incomplete :
  ~ complete body ->
  try_block w req = (inr (Http.json 400 (Http.error_obj "Invalid payload")), store w).
Proof.
  destruct Hserves as (_ & Hu & Hk & Hj). intros Hc.
  unfold try_block. rewrite Hu, Hk, Hj. cbn [negb orb].
  destruct (negb (Js.truthy (Js.field body "order_id")) || _ || _ || _) eqn:E.
  - reflexivity.
  - apply complete_truthy in E. contradiction.
Qed.

Lemma try_block_complete :
  complete body ->
  try_block w req =
  match env_of w body with
  | None => (inr (Http.json 401 (Http.error_obj "Invalid signature")), store w)
  | Some env =>
      match order_lookup w body with
      | inl orderErr => (inl (Db.thrown orderErr), store w)
      | inr None =>
          (inr (Http.json 200 (Js.JObj [("ok", Js.JBool true); ("ignored", Js.JBool true)])),
           store w)
      | inr (Some order) =>
          activate w (Db.with_orders (store w) (updated_orders w env body order))
                   order (is_paid (status_of body))
      end
  end.
Proof.
  destruct Hserves as (_ & Hu & Hk & Hj). intros Hc.
  unfold try_block. rewrite Hu, Hk, Hj. cbn [negb orb].
  apply complete_truthy in Hc. rewrite Hc. reflexivity.
Qed.

Lemma handler_served :
  handler w req =
  match try_block w req with
  | (inr response, st) => (response, st)
  | (inl e, st) => (Http.json 500 (Http.error_obj (Http.catch_message e)), st)
  end.
Proof.
  destruct Hserves as (Hm & _). unfold handler. apply String.eqb_neq in Hm. now rewrite Hm.
Qed.

End Served.

(** The activation step answers 200 or throws, and leaves [orders],
    [integration_secrets] and [domain_pricing_settings] alone. *)
Lemma activate_response (w : world) (st : Db.store) (order : Db.Order.row) (paid : bool) :
  fst (activate w st order paid) = inr (Http.json 200 Http.ok_obj)
  \/ exists e, fst (activate w st order paid) = inl e.
Proof.
  unfold activate. destruct (activation_user _ _ _); [|now left].
  destruct (Db.maybeSingle _ _) as [e|row]; [right; now eexists|].
  destruct (default_package row); now left.
Qed.

Lemma activate_orders (w : world) (st : Db.store) (order : Db.Order.row) (paid : bool) :
  Db.orders (snd (activate w st order paid)) = Db.orders st
  /\ Db.integration_secrets (snd (activate w st order paid)) = Db.integration_secrets st
  /\ Db.domain_pricing_settings (snd (activate w st order paid))
     = Db.domain_pricing_settings st.
Proof.
  unfold activate. destruct (activation_user _ _ _); [|now repeat split].
  destruct (Db.maybeSingle _ _) as [e|row]; [now repeat split|].
  destruct (default_package row); now repeat split.
Qed.

Lemma order_lookup_in (w : world) (body : Js.jsval) (order : Db.Order.row) :
  order_lookup w body = inr (Some order) ->
  fault w OrderQuery = None
  /\ Db.orders_where (store w) (Js.field body "order_id") = [order]
  /\ In order (Db.orders (store w))
  /\ Db.Order.midtrans_order_id order = Some (Js.field body "order_id").
Proof.
  unfold order_lookup, Db.maybeSingle. destruct (fault w OrderQuery); [discriminate|].
  destruct (Db.orders_where _ _) as [|r [|r' l]] eqn:E; try discriminate.
  intros [= ->]. split; [reflexivity|]. split; [reflexivity|].
  assert (H : In order (Db.orders_where (store w) (Js.field body "order_id"))).
  { rewrite E. now left. }
  unfold Db.orders_where in H. apply filter_In in H. destruct H as [H1 H2].
  split; [assumption|]. now apply JsFacts.opt_eqb_true.
Qed.

Lemma order_status_paid (ts : option string) :
  order_status ts = "paid" <-> ts = Some "settlement" \/ ts = Some "capture".
Proof.
  unfold order_status, is_paid.
  rewrite <- !JsFacts.opt_eqb_true, <- orb_true_iff.
  destruct (Db.opt_eqb ts "settlement" || Db.opt_eqb ts "capture").
  - split; reflexivity.
  - destruct (is_failed ts); split; discriminate.
Qed.

Lemma paid_not_failed (ts : option string) : is_paid ts = true -> is_failed ts = false.
Proof.
  unfold is_paid, is_failed. rewrite orb_true_iff, !JsFacts.opt_eqb_true.
  intros [->| ->]; reflexivity.
Qed.

Lemma order_status_failed (ts : option string) :
  order_status ts = "failed"
  <-> ts = Some "deny" \/ ts = Some "cancel" \/ ts = Some "expire".
Proof.
  unfold order_status.
  destruct (is_paid ts) eqn:P.
  - apply paid_not_failed in P. revert P. unfold is_failed.
    rewrite <- !JsFacts.opt_eqb_true, <- !orb_true_iff, orb_assoc.
    intros ->. split; discriminate.
  - unfold is_failed. rewrite <- !JsFacts.opt_eqb_true, <- !orb_true_iff, orb_assoc.
    destruct (Db.opt_eqb ts "deny" || Db.opt_eqb ts "cancel" || Db.opt_eqb ts "expire");
      split; (reflexivity || discriminate).
Qed.

Lemma order_status_pending (ts : option string) :
  order_status ts = "pending"
  <-> ~ (ts = Some "settlement" \/ ts = Some "capture"
         \/ ts = Some "deny" \/ ts = Some "cancel" \/ ts = Some "expire").
Proof.
  unfold order_status, is_paid, is_failed.
  rewrite <- !JsFacts.opt_eqb_true, <- !orb_true_iff.
  destruct (Db.opt_eqb ts "settlement"), (Db.opt_eqb ts "capture"),
    (Db.opt_eqb ts "deny"), (Db.opt_eqb ts "cancel"), (Db.opt_eqb ts "expire");
    cbn; split; try discriminate; try reflexivity; intros H; try (now elim H).
Qed.

Lemma served_status (w : world) (req : request) (body : Js.jsval) (env : Env) :
  serves w req body -> complete body -> env_of w body = Some env ->
  Http.status (fst (handler w req)) = 200 \/ Http.status (fst (handler w req)) = 500.
Proof.
  intros Hs Hc He. rewrite (handler_served _ _ _ Hs), (try_block_complete _ _ _ Hs Hc), He.
  destruct (order_lookup w body) as [e|[order|]]; [now right| |now left].
  destruct (activate_response w (Db.with_orders (store w) (updated_orders w env body order))
              order (is_paid (status_of body))) as [H|[e H]];
    destruct (activate _ _ _ _) as [r st]; cbn in H; subst r; [now left|now right].
Qed.

(** [reach] follows the handler. *)
Lemma reach_some (w : world) (req : request) (body : Js.jsval) (env : Env)
    (order : Db.Order.row) :
  reach w req = Some (body, env, order)
  <-> serves w req body /\ complete body /\ env_of w body = Some env
      /\ order_lookup w body = inr (Some order).
Proof.
  unfold reach, serves. destruct (String.eqb_spec (method req) "OPTIONS") as [Hm|Hm].
  { split; [discriminate | intros ((H & _) & _); contradiction]. }
  destruct (Http.configured (SUPABASE_URL w)); cbn [negb orb];
    [|split; [discriminate | intros ((_ & H & _) & _); discriminate]].
  destruct (Http.configured (SUPABASE_SERVICE_ROLE_KEY w)); cbn [negb orb];
    [|split; [discriminate | intros ((_ & _ & H & _) & _); discriminate]].
  destruct (json req) as [e|b]; [split; [discriminate | intros ((_ & _ & _ & H) & _); discriminate]|].
  destruct (negb (Js.truthy (Js.field b "order_id")) || _ || _ || _) eqn:C.
  - split; [discriminate|]. intros ((_ & _ & _ & [= ->]) & Hc & _).
    apply complete_truthy in Hc. congruence.
  - apply complete_truthy in C.
    destruct (env_of w b) as [env0|] eqn:E.
    + destruct (order_lookup w b) as [err|[o|]] eqn:O.
      * split; [discriminate | intros ((_ & _ & _ & [= ->]) & _ & _ & Hq); congruence].
      * split.
        -- intros [= -> -> ->].
           split; [repeat split; (assumption || reflexivity)|]. now split.
        -- intros ((_ & _ & _ & [= ->]) & _ & He & Ho). congruence.
      * split; [discriminate | intros ((_ & _ & _ & [= ->]) & _ & _ & Hq); congruence].
    + split; [discriminate | intros ((_ & _ & _ & [= ->]) & _ & Hq & _); congruence].
Qed.

Lemma reach_none (w : world) (req : request) :
  reach w req = None -> snd (handler w req) = store w.
Proof.
  unfold reach, handler, try_block.
  destruct (method req =? "OPTIONS")%string; [reflexivity|].
  destruct (negb (Http.configured (SUPABASE_URL w)) || _); [reflexivity|].
  destruct (json req) as [e|b]; [reflexivity|].
  destruct (negb (Js.truthy (Js.field b "order_id")) || _ || _ || _); [reflexivity|].
  fold (env_of w b). fold (order_lookup w b).
  destruct (env_of w b); [|reflexivity].
  destruct (order_lookup w b) as [err|[o|]]; [reflexivity|discriminate|reflexivity].
Qed.

Lemma handler_reach (w : world) (req : request) (body : Js.jsval) (env : Env)
    (order : Db.Order.row) :
  reach w req = Some (body, env, order) ->
  snd (handler w req)
  = snd (activate w (Db.with_orders (store w) (updated_orders w env body order))
                  order (is_paid (status_of body))).
Proof.
  intros H. apply reach_some in H. destruct H as (Hs & Hc & He & Ho).
  rewrite (handler_served _ _ _ Hs), (try_block_complete _ _ _ Hs Hc), He, Ho.
  destruct (activate _ _ _ _) as [[e|r] st]; reflexivity.
Qed.

(** The two outcomes of the activation step. *)
Lemma activate_cases (w : world) (st : Db.store) (order : Db.Order.row) (paid : bool) :
  (exists u p y row,
      paid = true /\ Db.Order.user_id order = Some u
      /\ Db.Order.subscription_years order = Some y /\ 0 < y
      /\ Db.maybeSingle (fault w PricingQuery) (Db.pricing_where st) = inr (Some row)
      /\ Db.Pricing.default_package_id row = Some p
      /\ activate w st order paid
         = (inr (Http.json 200 Http.ok_obj),
            Db.with_profiles
              (Db.with_user_packages st
                 (Db.insert (entitlement u p y (clock w)) (Db.user_packages st)))
              (Db.update_where (fun r => N.eqb (Db.Profile.id r) u)
                               (profile_update (clock w)) (Db.profiles st))))
  \/ (snd (activate w st order paid) = st
      /\ ~ exists u p y row,
            paid = true /\ Db.Order.user_id order = Some u
            /\ Db.Order.subscription_years order = Some y /\ 0 < y
            /\ Db.maybeSingle (fault w PricingQuery) (Db.pricing_where st) = inr (Some row)
            /\ Db.Pricing.default_package_id row = Some p).
Proof.
  unfold activate, activation_user.
  destruct paid; [|right; split; [reflexivity | intros (u & p & y & row & H & _); discriminate]].
  destruct (Db.Order.user_id order) as [u|];
    [|right; split; [reflexivity | intros (u & p & y & row & _ & H & _); discriminate]].
  destruct (Db.Order.subscription_years order) as [y|];
    [|right; split; [reflexivity | intros (u' & p & y & row & _ & _ & Hq & _); discriminate]].
  destruct (Z.ltb_spec 0 y) as [Hy|Hy];
    [|right; split; [reflexivity | intros (u' & p & y' & row & _ & _ & [= <-] & Hq & _); lia]].
  destruct (Db.maybeSingle _ _) as [err|row] eqn:Q;
    [right; split; [reflexivity | intros (u' & p & y' & row & _ & _ & _ & _ & Hq & _); discriminate]|].
  unfold default_package.
  destruct row as [row|];
    [|right; split; [reflexivity | intros (u' & p & y' & row & _ & _ & _ & _ & Hq & _); discriminate]].
  destruct (Db.Pricing.default_package_id row) as [p|] eqn:P.
  - left. exists u, p, y, row. now repeat split.
  - right. split; [reflexivity|].
    intros (u' & p & y' & row' & _ & _ & _ & _ & [= <-] & H). congruence.
Qed.

(** *** Signature check *)


Lemma shop_serves (st : Db.store) (body : Js.jsval) : serves (deployment st) (post body) body.
Proof. repeat split. discriminate. Defined.

Lemma settlement_complete : complete settlement.
Proof. repeat split; discriminate. Defined.


(** *** Order status *)


Lemma shop_env : env_of (deployment shop) settlement = Some sandbox.
Proof. vm_compute. reflexivity. Defined.

Lemma shop_order :
  order_lookup (deployment shop) settlement
  = inr (Some (Db.Order.mk 1%N (Some "ORDER-1001") (Some 7%N) (Some 1) "pending"
                           None None None None None)).
Proof. vm_compute. reflexivity. Defined.


(** *** Unknown orders *)

(** C7.  A verified notification whose order_id selects no stored order is
    answered 200 with [{ok: true, ignored: true}], and the store is left
    as it was: no row of any table is inserted or updated. *)
Theorem C7_unknown_order_ignored (w : world) (req : request) (body : Js.jsval) (env : Env) :
  serves w req body -> complete body -> env_of w body = Some env ->
  fault w OrderQuery = None ->
  Db.orders_where (store w) (Js.field body "order_id") = [] ->
  handler w req
  = (Http.json 200 (Js.JObj [("ok", Js.JBool true); ("ignored", Js.JBool true)]), store w).
Proof.
  intros Hs Hc He Hf Hn.
  rewrite (handler_served _ _ _ Hs), (try_block_complete _ _ _ Hs Hc), He.
  unfold order_lookup. now rewrite Hf, Hn.
Qed.

(** *** Subscription activation *)

Lemma paid_iff (ts : option string) : order_status ts = "paid" <-> is_paid ts = true.
Proof.
  unfold order_status. destruct (is_paid ts).
  - split; reflexivity.
  - destruct (is_failed ts); split; discriminate.
Qed.

(** What a granting run does to the store, and what it answers. *)
Lemma activation_run (w : world) (req : request) (u p : Db.uuid) (y : Z) :
  activation w req u p y ->
  exists rows,
    handler w req
    = (Http.json 200 Http.ok_obj,
       Db.mkStore (Db.integration_secrets (store w)) rows
                  (Db.domain_pricing_settings (store w))
                  (Db.insert (entitlement u p y (clock w)) (Db.user_packages (store w)))
                  (Db.update_where (fun r => N.eqb (Db.Profile.id r) u)
                                   (profile_update (clock w)) (Db.profiles (store w)))
                  (Db.user_roles (store w))).
Proof.
  intros (body & env & order & row & Hs & Hc & He & Ho & Hp & Hu & Hy & Hpos & Hq & Hd).
  exists (updated_orders w env body order).
  rewrite (handler_served _ _ _ Hs), (try_block_complete _ _ _ Hs Hc), He, Ho.
  apply paid_iff in Hp.
  destruct (activate_cases w (Db.with_orders (store w) (updated_orders w env body order))
              order (is_paid (status_of body)))
    as [(u' & p' & y' & row' & _ & Hu' & Hy' & _ & Hq' & Hd' & ->)|[_ Hn]].
  - change (Db.maybeSingle _ _) with (pricing_lookup w) in Hq'.
    assert (u' = u) as -> by congruence. assert (y' = y) as -> by congruence.
    assert (p' = p) as -> by congruence. reflexivity.
  - elim Hn. exists u, p, y, row. now repeat split.
Qed.

Lemma no_activation_run (w : world) (req : request) :
  (forall u p y, ~ activation w req u p y) ->
  Db.user_packages (snd (handler w req)) = Db.user_packages (store w)
  /\ Db.profiles (snd (handler w req)) = Db.profiles (store w).
Proof.
  intros Hn. destruct (reach w req) as [[[body env] order]|] eqn:R.
  - rewrite (handler_reach _ _ _ _ _ R). apply reach_some in R.
    destruct R as (Hs & Hc & He & Ho).
    destruct (activate_cases w (Db.with_orders (store w) (updated_orders w env body order))
                order (is_paid (status_of body)))
      as [(u & p & y & row & Hp & Hu & Hy & Hpos & Hq & Hd & _)|[-> _]].
    + elim (Hn u p y). exists body, env, order, row.
      apply paid_iff in Hp. repeat (split; [assumption|]). exact Hd.
    + now split.
  - rewrite (reach_none _ _ R). now split.
Qed.


Lemma shop_activation : activation (deployment shop) (post settlement) 7%N 9%N 1.
Proof.
  exists settlement, sandbox,
    (Db.Order.mk 1%N (Some "ORDER-1001") (Some 7%N) (Some 1) "pending"
                 None None None None None),
    (Db.Pricing.mk true (Some 9%N)).
  split; [apply shop_serves|]. split; [apply settlement_complete|].
  split; [apply shop_env|]. split; [apply shop_order|].
  repeat split.
Defined.


(** *** Entitlement dates *)



Example shop_expiry :
  addMonthsIso noon (1 * 12) = "2026-11-02T15:00:00.000Z".
Proof. vm_compute. reflexivity. Qed.

Lemma C7_unknown_order_ignored_witness :
  handler (deployment shop) (post stray)
  = (Http.json 200 (Js.JObj [("ok", Js.JBool true); ("ignored", Js.JBool true)]), shop).
Proof.
  apply (C7_unknown_order_ignored (deployment shop) (post stray) stray sandbox
           (shop_serves shop stray)).
  - repeat split; discriminate.
  - vm_compute. reflexivity.
  - reflexivity.
  - reflexivity.
Defined.

(** *** Running the same notification again *)

Lemma update_where_filter {A : Type} (keep sel : A -> bool) (f : A -> A) (l : list A) :
  (forall r, keep (f r) = keep r) ->
  filter keep (Db.update_where sel f l) = Db.update_where sel f (filter keep l).
Proof.
  intros Hk. unfold Db.update_where. induction l as [|r l IH]; [reflexivity|].
  cbn [map filter]. destruct (sel r) eqn:S.
  - rewrite Hk. destruct (keep r); cbn [map]; rewrite ?S, IH; reflexivity.
  - destruct (keep r); cbn [map]; rewrite ?S, IH; reflexivity.
Qed.

Lemma update_where_twice {A : Type} (sel : A -> bool) (f : A -> A) (l : list A) :
  (forall r, sel (f r) = sel r) -> (forall r, f (f r) = f r) ->
  Db.update_where sel f (Db.update_where sel f l) = Db.update_where sel f l.
Proof.
  intros Hs Hf. unfold Db.update_where. rewrite map_map. apply map_ext. intros r.
  destruct (sel r) eqn:S.
  - now rewrite Hs, S, Hf.
  - now rewrite S.
Qed.

(** The signature check reads the store through [integration_secrets] only. *)
Lemma env_of_secrets (w w' : world) (body : Js.jsval) :
  fault w' = fault w ->
  Db.integration_secrets (store w') = Db.integration_secrets (store w) ->
  env_of w' body = env_of w body.
Proof.
  intros Hf Hs.
  unfold env_of, verified_env, key_or_empty, getPlainServerKey, Db.secrets_where.
  now rewrite Hf, Hs.
Qed.

Lemma run_keeps (w : world) (req : request) :
  Db.integration_secrets (snd (handler w req)) = Db.integration_secrets (store w)
  /\ Db.domain_pricing_settings (snd (handler w req)) = Db.domain_pricing_settings (store w)
  /\ Db.orders (snd (handler w req))
     = match reach w req with
       | Some (body, env, order) => updated_orders w env body order
       | None => Db.orders (store w)
       end.
Proof.
  destruct (reach w req) as [[[body env] order]|] eqn:R.
  - rewrite (handler_reach _ _ _ _ _ R).
    destruct (activate_orders w (Db.with_orders (store w) (updated_orders w env body order))
                order (is_paid (status_of body))) as (-> & -> & ->).
    now repeat split.
  - rewrite (reach_none _ _ R). now repeat split.
Qed.

(** A second run reaches the same order, as the first run left it. *)
Lemma reach_afterwards (w : world) (req : request) (now' : Z) :
  reach (afterwards w req now') req
  = match reach w req with
    | Some (body, env, order) => Some (body, env, order_update env body order)
    | None => None
    end.
Proof.
  destruct (run_keeps w req) as (Hsec & _ & Hord).
  destruct (reach w req) as [[[body env] order]|] eqn:R.
  - apply reach_some in R. destruct R as (Hs & Hc & He & Ho).
    apply reach_some. split; [exact Hs|]. split; [exact Hc|]. split.
    + rewrite <- He. now apply env_of_secrets.
    + apply order_lookup_in in Ho. destruct Ho as (Hf & Hw & _ & Hm).
      unfold order_lookup, afterwards. cbn [fault store]. rewrite Hf.
      unfold Db.orders_where. rewrite Hord. unfold updated_orders.
      rewrite update_where_filter by reflexivity.
      unfold Db.orders_where in Hw. rewrite Hw.
      cbn. now rewrite N.eqb_refl.
  - unfold afterwards. rewrite (reach_none _ _ R). destruct w. exact R.
Qed.




(** *** Rejections and errors *)




End WebhookFacts.

(** ** The Xendit secret endpoint *)

Module XenditFacts.
Import XenditSecret XenditSpec.

Lemma requireSuperAdmin_authorized (w : world) (sub : string) (u : string) :
  requireSuperAdmin w sub = Authorized u <-> u = sub /\ super_admin w sub.
Proof.
  unfold requireSuperAdmin, super_admin, Db.maybeSingle.
  destruct (fault w RoleQuery) as [e|].
  { split; [discriminate | intros [_ [H _]]; discriminate]. }
  destruct (Db.roles_where (store w) sub) as [|r [|r' l]].
  - cbn. split; [discriminate | intros [_ [_ (r & H & _)]]; discriminate].
  - destruct (Db.opt_eqb (Db.Role.role r) "super_admin") eqn:E; cbn [negb].
    + apply JsFacts.opt_eqb_true in E. split.
      * intros [= <-]. split; [reflexivity|]. split; [reflexivity|]. now exists r.
      * intros [-> _]. reflexivity.
    + split; [discriminate|]. intros [_ [_ (r0 & [= <-] & H)]].
      apply JsFacts.opt_eqb_true in H. congruence.
  - split; [discriminate | intros [_ [_ (r0 & H & _)]]; discriminate].
Qed.

(** Before [dispatch], the run does not look at [integration_secrets]. *)
Lemma authorize_secrets (w : world) (rows : list Db.Secret.row) (req : request) :
  authorize (with_rows w rows) req = authorize w req.
Proof. reflexivity. Qed.

Lemma authorize_granted (w : world) (req : request) (u : string) :
  authorize w req = inr (inr u) <-> presents w req u /\ super_admin w u.
Proof.
  unfold authorize, presents. split.
  - intros H. destruct (Authorization req) as [h|].
    + destruct (bearer h) as [token|] eqn:B; [|discriminate].
      destruct (Js.truthy token) eqn:T; [|discriminate]. cbn [negb] in H.
      destruct (getClaims w token) as [e|[|[sub|]]] eqn:G; try discriminate.
      destruct (Js.truthy sub) eqn:S; [|discriminate]. cbn [negb] in H.
      destruct (requireSuperAdmin w sub) as [u'|] eqn:R; [|discriminate].
      injection H as ->. apply requireSuperAdmin_authorized in R. destruct R as [-> R].
      split; [|exact R]. exists h, token. apply JsFacts.truthy_true in T, S. tauto.
    + discriminate.
  - intros [(h & token & -> & -> & T & -> & S) R].
    apply JsFacts.truthy_true in T, S. rewrite T, S. cbn [negb].
    now rewrite (proj2 (requireSuperAdmin_authorized w u u) (conj eq_refl R)).
Qed.

(** Either the caller is granted and the run is [dispatch], or the run
    stops before it: the store is untouched and the answer does not depend
    on [integration_secrets]. *)
Lemma try_block_authorized (w : world) (req : request) :
  (served w req -> granted w req -> try_block w req = dispatch w req)
  /\ (~ granted w req ->
      snd (try_block w req) = store w
      /\ forall rows, fst (try_block (with_rows w rows) req) = fst (try_block w req)).
Proof.
  split.
  - intros (_ & C1 & C2 & C3) (sub & H). apply authorize_granted in H.
    unfold try_block. now rewrite C1, C2, C3, H.
  - intros Hn. split.
    + unfold try_block. destruct (negb (Http.configured (SUPABASE_URL w)) || _ || _);
        [reflexivity|].
      destruct (authorize w req) as [e|[r|u]] eqn:A; [reflexivity|reflexivity|].
      elim Hn. exists u. now apply authorize_granted.
    + intros rows. unfold try_block. rewrite authorize_secrets.
      change (SUPABASE_URL (with_rows w rows)) with (SUPABASE_URL w).
      change (SUPABASE_ANON_KEY (with_rows w rows)) with (SUPABASE_ANON_KEY w).
      change (SUPABASE_SERVICE_ROLE_KEY (with_rows w rows))
        with (SUPABASE_SERVICE_ROLE_KEY w).
      destruct (negb (Http.configured (SUPABASE_URL w)) || _ || _); [reflexivity|].
      destruct (authorize w req) as [e|[r|u]] eqn:A; [reflexivity|reflexivity|].
      elim Hn. exists u. now apply authorize_granted.
Qed.

Lemma xendit_handler_served (w : world) (req : request) :
  method req <> "OPTIONS" ->
  handler w req =
  match try_block w req with
  | (inr response, st) => (response, st)
  | (inl e, st) => (Http.json 500 (Http.error_obj (Http.catch_message e)), st)
  end.
Proof.
  intros Hm. unfold handler. apply String.eqb_neq in Hm. now rewrite Hm.
Qed.

(** *** Key validation *)

Lemma upsert_secret_rows (key : string) (rows : list Db.Secret.row) :
  let hit := fun r => ((Db.Secret.provider r =? "xendit")
                       && (Db.Secret.name r =? "api_key"))%string in
  let rows' := upsert_secret "xendit" "api_key" key rows in
  filter hit rows' <> []
  /\ forall r, In r (filter hit rows') ->
               Db.Secret.ciphertext r = Some key /\ Db.Secret.iv r = Some "plain".
Proof.
  intros hit rows'. unfold rows', upsert_secret. fold hit.
  destruct (existsb hit rows) eqn:E.
  - split.
    + apply existsb_exists in E. destruct E as (r & Hin & Hr).
      intros Hnil.
      assert (H : In (Db.Secret.mk "xendit" "api_key" (Some key) (Some "plain")
                                   (Db.Secret.updated_at r))
                     (filter hit (Db.update_where hit
                        (fun r => Db.Secret.mk "xendit" "api_key" (Some key) (Some "plain")
                                               (Db.Secret.updated_at r)) rows))).
      { apply filter_In. split; [|reflexivity].
        unfold Db.update_where. apply in_map_iff. exists r. now rewrite Hr. }
      rewrite Hnil in H. exact H.
    + intros r Hr. apply filter_In in Hr. destruct Hr as [Hin Hhit].
      unfold Db.update_where in Hin. apply in_map_iff in Hin.
      destruct Hin as (r0 & <- & _).
      destruct (hit r0) eqn:H0; [now split | congruence].
  - unfold Db.insert. rewrite filter_app. cbn [filter].
    assert (Hnone : filter hit rows = []).
    { induction rows as [|r l IH]; [reflexivity|]. cbn in E |- *.
      apply orb_false_iff in E. destruct E as [-> E]. now apply IH. }
    rewrite Hnone. cbn. split; [discriminate|].
    intros r [<-|[]]. now split.
Qed.

(** C9.  [validateXenditSecretKey] accepts a string exactly when its
    trimmed text is non-empty, holds no white space, has between 8 and 256
    characters, starts with 'xnd_' and does not start with 'xnd_public_';
    the accepted key is the trimmed input, and it is what a granted 'set'
    request leaves in the ciphertext of the xendit api_key row (with
    [iv = 'plain']); a rejection carries a non-empty error message. *)
Theorem C9_validateXenditSecretKey (input : string) :
  let key := Js.trim input in
  let verdict := validateXenditSecretKey (Some (Js.JStr input)) in
  ((exists k, verdict = Valid k)
   <-> key <> "" /\ Js.has_white_space key = false
       /\ 8 <= Js.length key <= 256
       /\ Js.startsWith key "xnd_" = true /\ Js.startsWith key "xnd_public_" = false)
  /\ (forall k, verdict = Valid k -> k = key)
  /\ (forall msg, verdict = Invalid msg -> msg <> "")
  /\ (forall w req body,
        served w req -> granted w req -> json req = inr body ->
        Js.get body "action" = Some (Js.JStr "set") ->
        Js.get body "api_key" = Some (Js.JStr input) ->
        fault w SecretUpsert = None ->
        (exists k, verdict = Valid k) ->
        xendit_rows (snd (handler w req)) <> []
        /\ forall r, In r (xendit_rows (snd (handler w req))) ->
                     Db.Secret.ciphertext r = Some key /\ Db.Secret.iv r = Some "plain").
Proof.
  intros key verdict.
  assert (V : verdict =
              if negb (Js.truthy key) then Invalid "api_key is required"
              else if Js.has_white_space key || (Js.length key <? 8) || (Js.length key >? 256)
              then Invalid "Invalid api_key format"
              else if negb (Js.startsWith key "xnd_")
              then Invalid "Invalid Xendit key. Use a key that starts with 'xnd_'"
              else if Js.startsWith key "xnd_public_"
              then Invalid "Invalid Xendit key for server-side usage. Please paste the Xendit *Secret* API Key (xnd_development_... / xnd_production_...), not the public key."
              else Valid key) by reflexivity.
  assert (Hvalid : forall k, verdict = Valid k -> k = key).
  { intros k. rewrite V.
    destruct (negb (Js.truthy key)); [discriminate|].
    destruct (Js.has_white_space key || _ || _); [discriminate|].
    destruct (negb (Js.startsWith key "xnd_")); [discriminate|].
    destruct (Js.startsWith key "xnd_public_"); [discriminate|]. now intros [= <-]. }
  split; [|split; [exact Hvalid|split]].
  - rewrite V. rewrite <- JsFacts.truthy_true.
    destruct (Js.truthy key); cbn [negb];
      [|split; [intros [k H]; discriminate | intros [H _]; discriminate]].
    destruct (Js.has_white_space key); cbn [orb];
      [split; [intros [k H]; discriminate | intros (_ & H & _); discriminate]|].
    destruct (Z.ltb_spec (Js.length key) 8) as [L|L]; cbn [orb];
      [split; [intros [k H]; discriminate | intros (_ & _ & H & _); lia]|].
    rewrite Z.gtb_ltb.
    destruct (Z.ltb_spec 256 (Js.length key)) as [G|G];
      [split; [intros [k H]; discriminate | intros (_ & _ & H & _); lia]|].
    destruct (Js.startsWith key "xnd_"); cbn [negb];
      [|split; [intros [k H]; discriminate | intros (_ & _ & _ & H & _); discriminate]].
    destruct (Js.startsWith key "xnd_public_");
      [split; [intros [k H]; discriminate | intros (_ & _ & _ & _ & H); discriminate]|].
    split; [intros _; repeat split; (reflexivity || lia) | intros _; now exists key].
  - intros msg. rewrite V.
    destruct (negb (Js.truthy key)); [intros [= <-]; discriminate|].
    destruct (Js.has_white_space key || _ || _); [intros [= <-]; discriminate|].
    destruct (negb (Js.startsWith key "xnd_")); [intros [= <-]; discriminate|].
    destruct (Js.startsWith key "xnd_public_"); [intros [= <-]; discriminate|discriminate].
  - intros w req body Hs Hg Hj Ha Hk Hf [k Hv].
    pose proof (Hvalid k Hv) as ->.
    rewrite (xendit_handler_served _ _ (proj1 Hs)), (proj1 (try_block_authorized w req) Hs Hg).
    unfold dispatch. rewrite Hj.
    destruct body; try discriminate Ha.
    rewrite Ha, Hk. cbn [is_action String.eqb Ascii.eqb Bool.eqb].
    fold verdict. rewrite Hv, Hf. cbn [snd].
    exact (upsert_secret_rows key (Db.integration_secrets (store w))).
Qed.

Lemma office_serves (faults : site -> option Db.error) (req : request) :
  method req <> "OPTIONS" -> served (installation faults) req.
Proof. intros H. now repeat split. Defined.

Lemma admin_granted (key : string) : granted (installation healthy) (set_key "tok-admin" key).
Proof.
  exists "admin-1". split.
  - exists "Bearer tok-admin", "tok-admin". repeat split; discriminate.
  - split; [reflexivity|]. now exists (Db.Role.mk "admin-1" (Some "super_admin")).
Defined.

Lemma C9_validateXenditSecretKey_witness :
  let req := set_key "tok-admin" " xnd_development_abc123 " in
  xendit_rows (snd (handler (installation healthy) req)) <> []
  /\ forall r, In r (xendit_rows (snd (handler (installation healthy) req))) ->
               Db.Secret.ciphertext r = Some "xnd_development_abc123"
               /\ Db.Secret.iv r = Some "plain".
Proof.
  intros req.
  apply (proj2 (proj2 (proj2 (C9_validateXenditSecretKey " xnd_development_abc123 ")))
           (installation healthy) req
           (Js.JObj [("action", Js.JStr "set");
                     ("api_key", Js.JStr " xnd_development_abc123 ")])).
  - apply office_serves. discriminate.
  - apply admin_granted.
  - reflexivity.
  - reflexivity.
  - reflexivity.
  - reflexivity.
  - now exists "xnd_development_abc123".
Defined.

(** *** Authorization in front of the secret *)

Lemma authorize_cases (w : world) (req : request) :
  (authorize w req = inr (inl unauthorized) /\ forall sub, ~ presents w req sub)
  \/ (exists e, authorize w req = inl e /\ forall sub, ~ presents w req sub)
  \/ (exists sub,
        presents w req sub
        /\ authorize w req
           = match requireSuperAdmin w sub with
             | Refused status error => inr (inl (Http.json status (Http.error_obj error)))
             | Authorized userId => inr (inr userId)
             end).
Proof.
  unfold authorize, presents.
  destruct (Authorization req) as [h|].
  - destruct (bearer h) as [token|] eqn:B.
    + destruct (Js.truthy token) eqn:T; cbn [negb].
      * destruct (getClaims w token) as [e|[|[sub|]]] eqn:G.
        -- right; left. exists e. split; [reflexivity|].
           intros sub (h' & t' & [= <-] & Hb & _ & Hg & _). congruence.
        -- left. split; [reflexivity|].
           intros sub (h' & t' & [= <-] & Hb & _ & Hg & _). congruence.
        -- destruct (Js.truthy sub) eqn:S; cbn [negb].
           ++ right; right. exists sub. split; [|reflexivity].
              exists h, token. apply JsFacts.truthy_true in T, S. tauto.
           ++ left. split; [reflexivity|]. apply JsFacts.truthy_false in S.
              intros sub' (h' & t' & [= <-] & Hb & _ & Hg & Hne). congruence.
        -- left. split; [reflexivity|].
           intros sub (h' & t' & [= <-] & Hb & _ & Hg & _). congruence.
      * left. split; [reflexivity|]. apply JsFacts.truthy_false in T.
        intros sub (h' & t' & [= <-] & Hb & Hne & _). congruence.
    + left. split; [reflexivity|].
      intros sub (h' & t' & [= <-] & Hb & _). congruence.
  - left. split; [reflexivity|]. intros sub (h' & t' & Hh & _). discriminate.
Qed.

Lemma requireSuperAdmin_cases (w : world) (sub : string) :
  match role_lookup w sub with
  | inl roleErr => requireSuperAdmin w sub = Refused 500 (Db.message roleErr)
  | inr _ => requireSuperAdmin w sub = Refused 403 "Forbidden" \/ super_admin w sub
  end.
Proof.
  unfold role_lookup.
  destruct (Db.maybeSingle _ _) as [e|row] eqn:Q.
  - unfold requireSuperAdmin. now rewrite Q.
  - destruct (requireSuperAdmin w sub) as [u|code msg] eqn:R.
    + right. now apply requireSuperAdmin_authorized in R.
    + left. unfold requireSuperAdmin in R. rewrite Q in R.
      destruct (negb _); [now symmetry | discriminate].
Qed.

(** C10 (amended).  A request that does not present a Bearer token whose
    claims resolve to a user id with a 'super_admin' role row leaves the
    store as it was, and its answer does not depend on the rows of
    [integration_secrets]: the handler reads or changes them only for a
    granted request.  Such a request, when it is served by the [try]
    block, is answered 401 (no valid token), 403 (the role query
    succeeded, the role is not super_admin), or 500: with the query's
    message when the role query fails, with the caught message when the
    claims call throws. *)
Theorem C10_authorization (w : world) (req : request) :
  ~ granted w req ->
  snd (handler w req) = store w
  /\ (forall rows, fst (handler (with_rows w rows) req) = fst (handler w req))
  /\ (served w req ->
      ((forall sub, ~ presents w req sub)
       /\ (fst (handler w req) = unauthorized
           \/ exists e, authorize w req = inl e
                        /\ fst (handler w req)
                           = Http.json 500 (Http.error_obj (Http.catch_message e))))
      \/ (exists sub,
            presents w req sub
            /\ match role_lookup w sub with
               | inl roleErr =>
                   fst (handler w req) = Http.json 500 (Http.error_obj (Db.message roleErr))
               | inr _ =>
                   fst (handler w req) = Http.json 403 (Http.error_obj "Forbidden")
               end)).
Proof.
  intros Hn. destruct (proj2 (try_block_authorized w req) Hn) as [Hst Hrows].
  split; [|split].
  - unfold handler. destruct (method req =? "OPTIONS")%string; [reflexivity|].
    destruct (try_block w req) as [[e|r] st]; exact Hst.
  - intros rows. unfold handler.
    destruct (method req =? "OPTIONS")%string; [reflexivity|].
    specialize (Hrows rows).
    destruct (try_block (with_rows w rows) req) as [[e|r] st];
      destruct (try_block w req) as [[e'|r'] st'];
      cbn [fst] in Hrows |- *; congruence.
  - intros (Hm & C1 & C2 & C3). rewrite (xendit_handler_served _ _ Hm).
    unfold try_block. rewrite C1, C2, C3. cbn [negb orb].
    destruct (authorize_cases w req) as [[A Hp]|[(e & A & Hp)|(sub & Hp & A)]].
    + left. split; [exact Hp|]. left. now rewrite A.
    + left. split; [exact Hp|]. right. exists e. split; [exact A|]. now rewrite A.
    + right. exists sub. split; [exact Hp|]. rewrite A.
      pose proof (requireSuperAdmin_cases w sub) as R.
      destruct (role_lookup w sub) as [err|row].
      * now rewrite R.
      * destruct R as [R|R]; [now rewrite R|]. elim Hn. now exists sub.
Qed.

Lemma user_not_granted (faults : site -> option Db.error) (key : string) :
  ~ granted (installation faults) (set_key "tok-user" key).
Proof.
  intros (sub & (h & t & [= <-] & [= <-] & _ & Hg & _) & _ & (r & Hr & Hrole)).
  injection Hg as <-. injection Hr as <-. discriminate Hrole.
Defined.

Lemma C10_authorization_witness :
  snd (handler (installation healthy) (set_key "tok-user" "xnd_development_abc123")) = office.
Proof.
  exact (proj1 (C10_authorization (installation healthy) (set_key "tok-user" "xnd_development_abc123")
                  (user_not_granted healthy "xnd_development_abc123"))).
Defined.

Lemma C10_counterexample :
  ~ granted (installation outage) (set_key "tok-user" "xnd_development_abc123")
  /\ fst (handler (installation outage) (set_key "tok-user" "xnd_development_abc123"))
     = Http.json 500 (Http.error_obj "TypeError: error sending request").
Proof.
  split; [apply user_not_granted | reflexivity].
Qed.

End XenditFacts.

(** ** The domain-suggestion hook *)

Module SuggestFacts.
Import useDomainSuggestions SuggestSpec.

Lemma clearTimeout_incl (id : positive) (ts : list timeout) (t : timeout) :
  In t (clearTimeout id ts) -> In t ts.
Proof. unfold clearTimeout. intros H. now apply filter_In in H. Qed.

Lemma clearTimeout_length (id : positive) (ts : list timeout) :
  (List.length (clearTimeout id ts) <= List.length ts)%nat.
Proof. apply filter_length_le. Qed.

Lemma clearTimeout_all (id : positive) (ts : list timeout) :
  (forall t, In t ts -> handle t = id) -> clearTimeout id ts = [].
Proof.
  unfold clearTimeout. induction ts as [|t l IH]; intros H; [reflexivity|].
  cbn [filter]. rewrite (H t (or_introl eq_refl)), Pos.eqb_refl. cbn [negb].
  apply IH. intros t' Hin. apply H. now right.
Qed.

(** Clearing [timer.current] leaves no timer pending. *)
Lemma tidy_clear (h : hook) : tidy h -> clear_current h = [].
Proof.
  intros [_ Ht]. unfold clear_current. destruct (timer h) as [id|] eqn:T.
  - apply clearTimeout_all. intros t Hin. destruct (Ht t Hin) as [H _]. congruence.
  - destruct (pending h) as [|t l]; [reflexivity|].
    destruct (Ht t (or_introl eq_refl)) as [H _]. discriminate.
Qed.

Lemma run_cleanup_pending (h : hook) : tidy h -> pending (run_cleanup h) = [].
Proof.
  intros Ht. unfold run_cleanup. destruct (cleanup h) eqn:C.
  - cbn [pending]. now apply tidy_clear.
  - destruct Ht as [_ Ht]. destruct (pending h) as [|t l]; [reflexivity|].
    destruct (Ht t (or_introl eq_refl)) as [_ H]. congruence.
Qed.

Lemma nil_tidy (h : hook) : pending h = [] -> tidy h.
Proof.
  intros P. unfold tidy. rewrite P. split; [cbn; lia | intros t []].
Qed.

(** What the effect leaves pending. *)
Lemma effect_pending (d : deps) (h : hook) :
  tidy h ->
  pending (effect d h)
  = if enabled d && Js.truthy (Js.trim (query d))
    then [mkTimeout (next h) (debounceMs d) (Js.trim (query d))]
    else pending h.
Proof.
  intros Ht. unfold effect. destruct (enabled d); cbn [negb andb]; [|reflexivity].
  destruct (Js.truthy (Js.trim (query d))); cbn [negb]; [|reflexivity].
  cbn [pending]. now rewrite (tidy_clear h Ht).
Qed.

Lemma effect_tidy (d : deps) (h : hook) :
  pending h = [] -> tidy (effect d h).
Proof.
  intros Hp. pose proof (effect_pending d h (nil_tidy h Hp)) as E. rewrite Hp in E.
  unfold tidy. rewrite E. unfold effect.
  destruct (enabled d); cbn [negb andb]; [|split; [cbn; lia | intros t []]].
  destruct (Js.truthy (Js.trim (query d))); cbn [negb];
    [|split; [cbn; lia | intros t []]].
  split; [cbn; lia|]. intros t0 [E0|[]]. subst t0. now split.
Qed.

Lemma step_tidy (h : hook) (e : event) : tidy h -> tidy (step h e).
Proof.
  intros Ht. destruct e as [d| |id|a]; cbn [step].
  - destruct (deps_eqb d (last h)); [exact Ht|].
    apply effect_tidy. now apply run_cleanup_pending.
  - apply nil_tidy. now apply run_cleanup_pending.
  - destruct (find _ _) as [fired|]; [|exact Ht].
    destruct Ht as [Hl Ht]. split; cbn [pending timer cleanup].
    + pose proof (clearTimeout_length id (pending h)). lia.
    + intros t' Hin. apply clearTimeout_incl in Hin. now apply Ht.
  - exact Ht.
Qed.

Lemma run_tidy (first : positive) (d : deps) (es : list event) : tidy (run first d es).
Proof.
  unfold run.
  assert (H0 : tidy (mount first d)) by (unfold mount; now apply effect_tidy).
  revert H0. generalize (mount first d). induction es as [|e es IH]; intros h Ht.
  - exact Ht.
  - cbn [fold_left]. apply IH. now apply step_tidy.
Qed.

(** The effect on an empty query, while enabled. *)
Lemma effect_empty (d : deps) (h : hook) :
  enabled d = true -> Js.trim (query d) = "" ->
  state (effect d h) = idle /\ pending (effect d h) = pending h
  /\ invoked (effect d h) = invoked h.
Proof.
  intros He Hq. unfold effect. rewrite He, Hq. now repeat split.
Qed.

(** C8 (amended).  In every state a mounted hook can reach, at most one
    debounce timer is pending.  An effect that schedules a fetch leaves
    exactly its new timer pending: the timer stored before is cleared
    first.  The cleanup, which runs on unmount and before the effect
    whenever query, enabled or debounceMs changed, leaves no timer
    pending.  While the hook is enabled, a query that is empty after
    trimming resets the state to [{loading: false, error: null, items: []}]
    and neither schedules a timer nor calls the remote function.  While it
    is disabled, the effect returns at once: nothing is scheduled or
    called, and the state stays as it was, whatever the query. *)
Theorem C8_single_timer (first : positive) (d : deps) (es : list event) :
  let h := run first d es in
  (List.length (pending h) <= 1)%nat
  /\ (forall d', deps_eqb d' (last h) = false ->
                 enabled d' = true -> Js.trim (query d') <> "" ->
                 pending (step h (Render d'))
                 = [mkTimeout (next h) (debounceMs d') (Js.trim (query d'))])
  /\ pending (run_cleanup h) = []
  /\ pending (step h Unmount) = []
  /\ (forall d', deps_eqb d' (last h) = false ->
                 enabled d' = true -> Js.trim (query d') = "" ->
                 let h' := step h (Render d') in
                 state h' = idle /\ pending h' = [] /\ invoked h' = invoked h)
  /\ (enabled d = true -> Js.trim (query d) = "" ->
      state (mount first d) = idle /\ pending (mount first d) = []
      /\ invoked (mount first d) = [])
  /\ (forall d', deps_eqb d' (last h) = false -> enabled d' = false ->
                 let h' := step h (Render d') in
                 state h' = state h /\ pending h' = [] /\ invoked h' = invoked h).
Proof.
  intros h. pose proof (run_tidy first d es) as Ht. fold h in Ht.
  pose proof (run_cleanup_pending h Ht) as Hc.
  split; [exact (proj1 Ht)|].
  split; [|split; [exact Hc|split; [exact Hc|split; [|split]]]].
  - intros d' Hd He Hq. cbn [step]. rewrite Hd.
    rewrite (effect_pending d' _ (nil_tidy _ Hc)), He.
    apply JsFacts.truthy_true in Hq. rewrite Hq. cbn [andb].
    unfold run_cleanup. now destruct (cleanup h).
  - intros d' Hd He Hq h'. unfold h'. cbn [step]. rewrite Hd.
    destruct (effect_empty d' (run_cleanup h) He Hq) as (-> & -> & ->).
    split; [reflexivity|]. split; [exact Hc|].
    unfold run_cleanup. now destruct (cleanup h).
  - intros He Hq. unfold mount. now apply effect_empty.
  - intros d' Hd He h'. unfold h'. cbn [step]. rewrite Hd.
    unfold effect. rewrite He. cbn [negb state pending invoked].
    split; [|split; [exact Hc|]]; unfold run_cleanup; now destruct (cleanup h).
Qed.

Lemma C8_single_timer_witness :
  let h' := step searched (Render (typing "  ")) in
  state h' = idle /\ pending h' = [] /\ invoked h' = invoked searched.
Proof.
  apply (proj1 (proj2 (proj2 (proj2 (proj2
           (C8_single_timer 1%positive (typing "kopi") [Fire 1%positive; Settle found])))))
           (typing "  ")); reflexivity.
Defined.

Lemma C8_counterexample :
  Js.trim (query (mkDeps 450 false "")) = ""
  /\ deps_eqb (mkDeps 450 false "") (last searched) = false
  /\ state (step searched (Render (mkDeps 450 false ""))) <> idle.
Proof.
  split; [reflexivity|]. split; [reflexivity|]. discriminate.
Qed.

End SuggestFacts.

(** * Further properties *)

(** ** [trim] and lower case *)

Module TextFacts.
Import MoreSpec.

Lemma trimStart_head (s : string) :
  match Js.trimStart s with
  | EmptyString => True
  | String c _ => Js.is_white_space c = false
  end.
Proof.
  induction s as [|c s IH]; cbn; [exact I|].
  destruct (Js.is_white_space c) eqn:E; [exact IH | exact E].
Qed.

Lemma trimStart_fixed (s : string) :
  match s with
  | EmptyString => True
  | String c _ => Js.is_white_space c = false
  end -> Js.trimStart s = s.
Proof.
  destruct s as [|c s]; cbn; [reflexivity|]. now intros ->.
Qed.

Lemma trimEnd_head (c : ascii) (s : string) :
  Js.is_white_space c = false -> exists t, Js.trimEnd (String c s) = String c t.
Proof.
  intros E. cbn. destruct (Js.trimEnd s) as [|d t].
  - rewrite E. now exists "".
  - now exists (String d t).
Qed.

Lemma trimEnd_idem (s : string) : Js.trimEnd (Js.trimEnd s) = Js.trimEnd s.
Proof.
  induction s as [|c s IH]; [reflexivity|].
  cbn. destruct (Js.trimEnd s) as [|d t] eqn:E.
  - destruct (Js.is_white_space c) eqn:W; [reflexivity|]. cbn. now rewrite W.
  - cbn [Js.trimEnd]. cbn [Js.trimEnd] in IH. rewrite IH. reflexivity.
Qed.

(** [trim] is idempotent: its result has no white space at either end. *)
Lemma trim_trimmed (s : string) : trimmed (Js.trim s).
Proof.
  unfold trimmed, Js.trim.
  pose proof (trimStart_head s) as H.
  destruct (Js.trimStart s) as [|c t] eqn:E; [reflexivity|].
  destruct (trimEnd_head c t H) as [u Hu].
  rewrite (trimStart_fixed (Js.trimEnd (String c t))).
  - apply trimEnd_idem.
  - now rewrite Hu.
Qed.

Lemma lower_white_space (c : ascii) :
  Js.is_white_space (Packages.lower_char c) = Js.is_white_space c.
Proof.
  destruct c as [[] [] [] [] [] [] [] []]; reflexivity.
Qed.

Lemma lower_char_idem (c : ascii) :
  Packages.lower_char (Packages.lower_char c) = Packages.lower_char c.
Proof.
  destruct c as [[] [] [] [] [] [] [] []]; reflexivity.
Qed.

Lemma toLowerCase_idem (s : string) :
  Packages.toLowerCase (Packages.toLowerCase s) = Packages.toLowerCase s.
Proof.
  induction s as [|c s IH]; cbn; [reflexivity|]. now rewrite lower_char_idem, IH.
Qed.

Lemma trimStart_lower (s : string) :
  Js.trimStart (Packages.toLowerCase s) = Packages.toLowerCase (Js.trimStart s).
Proof.
  induction s as [|c s IH]; cbn; [reflexivity|].
  rewrite lower_white_space. now destruct (Js.is_white_space c).
Qed.

Lemma trimEnd_lower (s : string) :
  Js.trimEnd (Packages.toLowerCase s) = Packages.toLowerCase (Js.trimEnd s).
Proof.
  induction s as [|c s IH]; cbn; [reflexivity|].
  rewrite IH, lower_white_space.
  destruct (Js.trimEnd s) as [|d t]; cbn; [|reflexivity].
  now destruct (Js.is_white_space c).
Qed.

Lemma trim_lower (s : string) :
  Js.trim (Packages.toLowerCase s) = Packages.toLowerCase (Js.trim s).
Proof.
  unfold Js.trim. now rewrite trimStart_lower, trimEnd_lower.
Qed.

End TextFacts.

(** ** The package cards *)

Module PackagesFacts.
Import Packages PackagesSpec MoreSpec.

Lemma normalizeName_idem (s : string) : normalizeName (normalizeName s) = normalizeName s.
Proof.
  unfold normalizeName.
  rewrite TextFacts.trim_lower, (TextFacts.trim_trimmed s).
  apply TextFacts.toLowerCase_idem.
Qed.

Lemma resolve_sound (s t : string) :
  resolveTargetName s = Some t -> In t TARGET_NAMES /\ normalizeName t = normalizeName s.
Proof.
  unfold resolveTargetName. intros H. apply find_some in H. destruct H as [Hin He].
  split; [exact Hin|]. now apply String.eqb_eq.
Qed.

Lemma resolve_complete (s t : string) :
  In t TARGET_NAMES -> normalizeName t = normalizeName s -> resolveTargetName s = Some t.
Proof.
  intros Hin He. unfold resolveTargetName. rewrite <- He.
  destruct Hin as [<-|[<-|[<-|[]]]]; vm_compute; reflexivity.
Qed.

(** X1.  [resolveTargetName] answers with one of the three target names,
    the one whose normalised text is the normalised text of its argument:
    matching ignores case and surrounding white space (normalising twice
    changes nothing), every target name resolves to itself, and any other
    name gives null. *)
Theorem resolveTargetName_spec (s : string) :
  normalizeName (normalizeName s) = normalizeName s
  /\ resolveTargetName (normalizeName s) = resolveTargetName s
  /\ (forall t, resolveTargetName s = Some t
                <-> In t TARGET_NAMES /\ normalizeName t = normalizeName s)
  /\ (forall t, In t TARGET_NAMES -> resolveTargetName t = Some t).
Proof.
  split; [apply normalizeName_idem|]. split; [|split].
  - unfold resolveTargetName. now rewrite normalizeName_idem.
  - intros t. split; [apply resolve_sound | intros [H1 H2]; now apply resolve_complete].
  - intros t Hin. now apply resolve_complete.
Qed.

Lemma resolveTargetName_spec_witness :
  resolveTargetName "  website ONLY " = Some "Website Only".
Proof.
  apply (proj2 (proj1 (proj2 (proj2 (resolveTargetName_spec "  website ONLY ")))
                  "Website Only")).
  split; [now left|]. vm_compute. reflexivity.
Defined.

Lemma rank_of_resolved (s t : string) :
  resolveTargetName s = Some t ->
  targetRank s = Num (indexOf t TARGET_NAMES)
  /\ 0 <= indexOf t TARGET_NAMES <= 2
  /\ nth (Z.to_nat (indexOf t TARGET_NAMES)) TARGET_NAMES "" = t.
Proof.
  intros R. unfold targetRank. rewrite R. split; [reflexivity|].
  apply resolve_sound in R. destruct R as [Hin _].
  destruct Hin as [<-|[<-|[<-|[]]]]; vm_compute; repeat split; discriminate.
Qed.

(** X2.  [targetRank] is the position (0, 1 or 2) of the resolved target
    name in [TARGET_NAMES], and +Infinity exactly for a name that does not
    resolve; it is never NaN, negative or -Infinity. *)
Theorem targetRank_spec (s : string) :
  (forall t, resolveTargetName s = Some t ->
             exists i, targetRank s = Num i /\ 0 <= i <= 2
                       /\ nth (Z.to_nat i) TARGET_NAMES "" = t)
  /\ (resolveTargetName s = None <-> targetRank s = PosInfinity)
  /\ targetRank s <> NaN /\ targetRank s <> NegInfinity
  /\ (forall i, targetRank s = Num i -> 0 <= i <= 2).
Proof.
  destruct (resolveTargetName s) as [t|] eqn:R.
  - destruct (rank_of_resolved s t R) as (E & Hi & Hn). rewrite E.
    split; [|split; [|split; [|split]]].
    + intros t' [= <-]. exists (indexOf t TARGET_NAMES). now split.
    + split; discriminate.
    + discriminate.
    + discriminate.
    + intros i [= <-]. exact Hi.
  - unfold targetRank. rewrite R.
    split; [discriminate|]. split; [now split|]. repeat split; discriminate.
Qed.

Lemma targetRank_spec_witness :
  exists i, targetRank "  WEBSITE + content growth " = Num i /\ 0 <= i <= 2
            /\ nth (Z.to_nat i) TARGET_NAMES "" = "Website + Content Growth".
Proof.
  apply (proj1 (targetRank_spec "  WEBSITE + content growth ")).
  vm_compute. reflexivity.
Defined.

Lemma listed_place (p : PackageRow) :
  listed p = true -> targetRank (name p) = Num (place p).
Proof.
  unfold listed, place. intros H.
  destruct (resolveTargetName (name p)) as [t|] eqn:R; [|discriminate].
  destruct (rank_of_resolved (name p) t R) as (-> & _). reflexivity.
Qed.

Lemma after_by_rank (a b : PackageRow) :
  listed a = true -> listed b = true -> after (by_rank a b) = (place b <? place a).
Proof.
  intros Ha Hb. unfold by_rank. rewrite (listed_place a Ha), (listed_place b Hb).
  cbn [minus after].
  destruct (Z.ltb_spec 0 (place a - place b)), (Z.ltb_spec (place b) (place a));
    (reflexivity || lia).
Qed.

Lemma insert_perm (x : PackageRow) (l : list PackageRow) :
  Permutation (insert by_rank x l) (x :: l).
Proof.
  induction l as [|y l IH]; cbn; [reflexivity|].
  destruct (after (by_rank x y)); [|reflexivity].
  rewrite IH. apply perm_swap.
Qed.

Lemma sort_perm (l : list PackageRow) : Permutation (sort by_rank l) l.
Proof.
  induction l as [|x l IH]; cbn; [reflexivity|].
  unfold sort in IH. rewrite insert_perm. now constructor.
Qed.

Lemma sort_listed (l : list PackageRow) :
  Forall (fun p => listed p = true) l -> Forall (fun p => listed p = true) (sort by_rank l).
Proof.
  intros H. apply Forall_forall. intros p Hp.
  apply (Permutation_in _ (sort_perm l)) in Hp.
  now apply (proj1 (Forall_forall _ _) H).
Qed.

Lemma insert_sorted (x : PackageRow) (l : list PackageRow) :
  listed x = true -> Forall (fun p => listed p = true) l ->
  StronglySorted (fun a b => place a <= place b) l ->
  StronglySorted (fun a b => place a <= place b) (insert by_rank x l).
Proof.
  intros Hx Hl Hs. induction Hs as [|y l Hs IH Hy]; cbn.
  - repeat constructor.
  - inversion Hl as [|? ? Hly Hl']; subst.
    rewrite (after_by_rank x y Hx Hly).
    destruct (Z.ltb_spec (place y) (place x)) as [L|L].
    + constructor; [now apply IH|].
      apply Forall_forall. intros p Hp.
      apply (Permutation_in _ (insert_perm x l)) in Hp. destruct Hp as [<-|Hp]; [lia|].
      now apply (proj1 (Forall_forall _ _) Hy).
    + constructor; [now constructor|].
      constructor; [exact L|].
      apply Forall_forall. intros p Hp.
      pose proof (proj1 (Forall_forall _ _) Hy p Hp) as Hyp. cbn beta in Hyp. lia.
Qed.

Lemma sort_sorted (l : list PackageRow) :
  Forall (fun p => listed p = true) l ->
  StronglySorted (fun a b => place a <= place b) (sort by_rank l).
Proof.
  induction l as [|x l IH]; intros H; cbn; [constructor|].
  inversion H; subst. apply insert_sorted; [assumption|now apply sort_listed|now apply IH].
Qed.

Lemma insert_stable (r : Z) (x : PackageRow) (l : list PackageRow) :
  listed x = true -> Forall (fun p => listed p = true) l ->
  StronglySorted (fun a b => place a <= place b) l ->
  filter (fun p => place p =? r) (insert by_rank x l)
  = filter (fun p => place p =? r) (x :: l).
Proof.
  intros Hx Hl Hs. induction Hs as [|y l Hs IH Hy]; [reflexivity|].
  inversion Hl as [|? ? Hly Hl']; subst. cbn [insert].
  rewrite (after_by_rank x y Hx Hly).
  destruct (Z.ltb_spec (place y) (place x)) as [L|L]; [|reflexivity].
  cbn [filter]. rewrite (IH Hl'). cbn [filter].
  destruct (Z.eqb_spec (place x) r), (Z.eqb_spec (place y) r); (reflexivity || lia).
Qed.

Lemma sort_stable (r : Z) (l : list PackageRow) :
  Forall (fun p => listed p = true) l ->
  filter (fun p => place p =? r) (sort by_rank l) = filter (fun p => place p =? r) l.
Proof.
  induction l as [|x l IH]; intros H; [reflexivity|].
  inversion H; subst. cbn [sort fold_right]. fold (sort by_rank l).
  rewrite insert_stable; [|assumption|now apply sort_listed|now apply sort_sorted].
  cbn [filter]. now rewrite IH.
Qed.

(** X3.  The cards shown are exactly the returned rows whose name resolves
    to a target name, each as often as it was returned; they stand in the
    order of [TARGET_NAMES], and rows of the same target keep the order
    the query returned them in.  A null [res.data] shows nothing. *)
Theorem shown_spec (rows : list PackageRow) :
  Permutation (shown (Some rows)) (filter listed rows)
  /\ StronglySorted (fun a b => place a <= place b) (shown (Some rows))
  /\ (forall r, filter (fun p => place p =? r) (shown (Some rows))
                = filter (fun p => place p =? r) (filter listed rows))
  /\ shown None = [].
Proof.
  assert (H : Forall (fun p => listed p = true) (filter listed rows)).
  { apply Forall_forall. intros p Hp. now apply filter_In in Hp. }
  change (shown (Some rows)) with (sort by_rank (filter listed rows)).
  split; [apply sort_perm|]. split; [now apply sort_sorted|].
  split; [intros r; now apply sort_stable | reflexivity].
Qed.

Example shown_catalogue :
  map id (shown (Some catalogue)) = ["p1"; "p5"; "p2"; "p4"].
Proof. vm_compute. reflexivity. Qed.

Lemma in_firstn {A : Type} (n : nat) (l : list A) (x : A) : In x (firstn n l) -> In x l.
Proof.
  intros H. rewrite <- (firstn_skipn n l). apply in_or_app. now left.
Qed.

(** X4.  [getFeatureSnippet] gives at most three entries; each is the
    trimmed text of a string element of [features], non-empty and without
    white space at either end.  Anything that is not an array gives none. *)
Theorem getFeatureSnippet_spec (features : option Js.jsval) :
  (List.length (getFeatureSnippet features) <= 3)%nat
  /\ (forall s, In s (getFeatureSnippet features) ->
                s <> "" /\ trimmed s
                /\ exists items x, features = Some (Js.JArr items)
                                   /\ In (Js.JStr x) items /\ s = Js.trim x)
  /\ ((forall items, features <> Some (Js.JArr items)) -> getFeatureSnippet features = []).
Proof.
  split; [|split].
  - destruct features as [[| | | |items|]|]; cbn [getFeatureSnippet List.length]; try lia.
    apply firstn_le_length.
  - intros s Hs. destruct features as [[| | | |items|]|]; try (now destruct Hs).
    cbn [getFeatureSnippet] in Hs. apply in_firstn in Hs.
    apply filter_In in Hs. destruct Hs as [Hin Ht].
    apply JsFacts.truthy_true in Ht. split; [exact Ht|].
    apply in_map_iff in Hin. destruct Hin as (v & Hv & Hin).
    destruct v; try (subst s; now elim Ht).
    subst s. split; [apply TextFacts.trim_trimmed|]. now exists items, s0.
  - intros H. destruct features as [[| | | |items|]|]; try reflexivity. now elim (H items).
Qed.

Lemma getFeatureSnippet_spec_witness :
  let features := Some (Js.JArr [Js.JStr " SSL "; Js.JNum 1; Js.JStr "  "; Js.JStr "CMS"]) in
  "SSL" <> "" /\ trimmed "SSL"
  /\ exists items x, features = Some (Js.JArr items)
                     /\ In (Js.JStr x) items /\ "SSL" = Js.trim x.
Proof.
  cbn zeta.
  apply (proj1 (proj2 (getFeatureSnippet_spec
                         (Some (Js.JArr [Js.JStr " SSL "; Js.JNum 1; Js.JStr "  ";
                                         Js.JStr "CMS"]))))).
  vm_compute. now left.
Defined.

Lemma unmounted_stays (c : cards) (es : list event) :
  isMounted c = false -> fold_left step es c = c.
Proof.
  revert c. induction es as [|e es IH]; intros c H; [reflexivity|].
  cbn [fold_left].
  assert (E : step c e = c).
  { destruct e; cbn; rewrite ?H; cbn; try reflexivity. destruct c; cbn in *. now subst. }
  rewrite E. now apply IH.
Qed.

Lemma shown_listed (data : option (list PackageRow)) :
  Forall (fun p => listed p = true) (shown data)
  /\ StronglySorted (fun a b => place a <= place b) (shown data).
Proof.
  destruct data as [rows|]; [|split; constructor].
  assert (H : Forall (fun p => listed p = true) (filter listed rows)).
  { apply Forall_forall. intros p Hp. now apply filter_In in Hp. }
  change (shown (Some rows)) with (sort by_rank (filter listed rows)).
  split; [now apply sort_listed|now apply sort_sorted].
Qed.

Lemma step_orderly (c : cards) (e : event) :
  orderly c -> orderly (step c e).
Proof.
  intros (Hl & Hs & Hn). destruct e as [data| |]; cbn [step].
  - destruct (negb (isMounted c)); [now repeat split|].
    destruct (shown_listed data) as [H1 H2]. split; [exact H1|]. split; [exact H2|].
    discriminate.
  - destruct (isMounted c); [|now repeat split].
    split; [constructor|]. split; [constructor|]. discriminate.
  - now repeat split.
Qed.

(** X5.  Whatever the query answers and whenever the component goes
    away, the cards on display are listed packages in the order of
    [TARGET_NAMES], and none is on display while [loading] is set.  Once
    the cleanup has run, whatever arrives later changes neither [loading]
    nor [packages]. *)
Theorem cards_orderly (es : list event) :
  let c := fold_left step es mounted in
  Forall (fun p => listed p = true) (packages c)
  /\ StronglySorted (fun a b => place a <= place b) (packages c)
  /\ (loading c = true -> packages c = [])
  /\ forall es', fold_left step es' (step c Unmounted) = step c Unmounted.
Proof.
  cbn zeta.
  assert (H : orderly (fold_left step es mounted)).
  { assert (H0 : orderly mounted) by (split; [constructor|split; [constructor|reflexivity]]).
    revert H0. generalize mounted. induction es as [|e es IH]; intros c H; [exact H|].
    cbn [fold_left]. apply IH. now apply step_orderly. }
  destruct H as (Hl & Hs & Hn). split; [exact Hl|]. split; [exact Hs|]. split; [exact Hn|].
  intros es'. now apply unmounted_stays.
Qed.

Lemma cards_orderly_witness :
  packages (fold_left step [] mounted) = [].
Proof.
  exact (proj1 (proj2 (proj2 (cards_orderly []))) eq_refl).
Defined.

End PackagesFacts.

(** ** More on the Midtrans webhook *)

Module WebhookMore.
Import Webhook WebhookSpec MoreSpec WebhookMoreSpec.

(** *** The text of a digest *)

Lemma be_bytes_spec (n : nat) (x : Z) :
  List.length (Sha512.be_bytes n x) = n
  /\ Forall (fun b => 0 <= b < 256) (Sha512.be_bytes n x).
Proof.
  revert x. induction n as [|n IH]; intros x; cbn [Sha512.be_bytes].
  - split; [reflexivity | constructor].
  - destruct (IH (x / 256)) as [L F]. split.
    + rewrite length_app, L. cbn. lia.
    + apply Forall_app. split; [exact F|]. constructor; [|constructor].
      apply Z.mod_pos_bound. lia.
Qed.

Lemma digest_bytes (msg : list Z) :
  List.length (Sha512.digest msg) = 64%nat
  /\ Forall (fun b => 0 <= b < 256) (Sha512.digest msg).
Proof.
  unfold Sha512.digest. cbv zeta.
  generalize (fold_left Sha512.compress
                (Sha512.chunks 128 (List.length (Sha512.pad msg)) (Sha512.pad msg))
                Sha512.init).
  intros h. cbn [flat_map]. split.
  - rewrite !length_app. rewrite !(proj1 (be_bytes_spec 8 _)). reflexivity.
  - repeat (apply Forall_app; split; [apply (proj2 (be_bytes_spec 8 _))|]). constructor.
Qed.

Lemma byte_two_digits (b : Z) : 0 <= b < 256 -> two_digits b = true.
Proof.
  intros H.
  assert (A : forallb two_digits (map Z.of_nat (seq 0 256)) = true)
    by (vm_compute; reflexivity).
  rewrite forallb_forall in A. apply A. apply in_map_iff.
  exists (Z.to_nat b). split; [lia|]. apply in_seq. lia.
Qed.

Lemma all_chars_app (p : ascii -> bool) (s t : string) :
  all_chars p (s ++ t) = all_chars p s && all_chars p t.
Proof.
  induction s as [|c s IH]; cbn; [reflexivity|]. now rewrite IH, andb_assoc.
Qed.

Lemma length_app_string (s t : string) :
  String.length (s ++ t) = (String.length s + String.length t)%nat.
Proof.
  induction s as [|c s IH]; cbn; [reflexivity|]. now rewrite IH.
Qed.

Lemma hex_fold (bytes : list Z) (acc : string) :
  Forall (fun b => 0 <= b < 256) bytes ->
  let out := fold_left (fun out b => out ++ Crypto.padStart2 (Crypto.toString16 b)) bytes acc in
  String.length out = (String.length acc + 2 * List.length bytes)%nat
  /\ all_chars hex_lower out = all_chars hex_lower acc.
Proof.
  intros F. revert acc. induction F as [|b bytes Hb F IH]; intros acc; cbn zeta.
  - cbn. split; [lia | reflexivity].
  - cbn [fold_left]. destruct (IH (acc ++ Crypto.padStart2 (Crypto.toString16 b))) as [L A].
    cbn zeta in L, A. rewrite L, A, length_app_string, all_chars_app.
    pose proof (byte_two_digits b Hb) as T. unfold two_digits in T.
    destruct (Crypto.padStart2 (Crypto.toString16 b)) as [|c1 [|c2 [|]]]; try discriminate.
    apply andb_true_iff in T. destruct T as [T1 T2].
    cbn [String.length List.length all_chars]. rewrite T1, T2. cbn [andb].
    rewrite andb_true_r. split; [lia | reflexivity].
Qed.

Lemma sha512Hex_text (input : string) : digest_text (Crypto.sha512Hex input).
Proof.
  unfold digest_text, Crypto.sha512Hex.
  destruct (digest_bytes (Crypto.encode input)) as [L F].
  destruct (hex_fold _ "" F) as [HL HA]. cbn zeta in HL, HA.
  rewrite HL, HA, L. split; reflexivity.
Qed.

(** X6.  [sha512Hex] always returns 128 lowercase hexadecimal digits, so
    [verifySignature] can only accept a [signature_key] of that shape. *)
Theorem sha512Hex_shape (input : string) (p : params) :
  digest_text (Crypto.sha512Hex input)
  /\ (verifySignature p = true -> digest_text (signature_key p)).
Proof.
  split; [apply sha512Hex_text|].
  unfold verifySignature. cbn zeta. intros H. apply String.eqb_eq in H.
  rewrite <- H. apply sha512Hex_text.
Qed.

Lemma sha512Hex_shape_witness :
  digest_text
    "45d8643682f962cd23a2ca1957a7fc01bfbddc150e1c9e47645dff96382c4584dba1a1bed9f045a9146f54772476aa7931f6e49599db661eb09514df26f8e29a".
Proof.
  apply (proj2 (sha512Hex_shape ""
                  (mkParams "45d8643682f962cd23a2ca1957a7fc01bfbddc150e1c9e47645dff96382c4584dba1a1bed9f045a9146f54772476aa7931f6e49599db661eb09514df26f8e29a"
                            "ORDER-1001" "200" "25000.00" "SB-Mid-server-test"))).
  vm_compute. reflexivity.
Defined.

(** X7.  A served notification with its four fields present whose
    signature_key is not made of 128 lowercase hexadecimal digits is
    answered 401 and changes nothing, whatever keys are stored. *)
Theorem malformed_signature_rejected (w : world) (req : request) (body : Js.jsval) :
  serves w req body -> complete body ->
  ~ digest_text (Js.field body "signature_key") ->
  handler w req = (Http.json 401 (Http.error_obj "Invalid signature"), store w).
Proof.
  intros Hs Hc Hn.
  assert (E : env_of w body = None).
  { apply WebhookFacts.env_of_none. intros env key _ Hsg. apply Hn.
    unfold signs in Hsg. rewrite <- Hsg. apply sha512Hex_text. }
  now rewrite (WebhookFacts.handler_served _ _ _ Hs),
    (WebhookFacts.try_block_complete _ _ _ Hs Hc), E.
Qed.

Lemma malformed_signature_rejected_witness :
  handler (deployment shop) (post uppercase)
  = (Http.json 401 (Http.error_obj "Invalid signature"), shop).
Proof.
  apply (malformed_signature_rejected (deployment shop) (post uppercase) uppercase).
  - apply WebhookFacts.shop_serves.
  - repeat split; discriminate.
  - intros [_ H]. vm_compute in H. discriminate H.
Defined.

(** *** What a run may change *)

Lemma update_where_keys {A B : Type} (key : A -> B) (sel : A -> bool) (f : A -> A)
    (l : list A) :
  (forall r, key (f r) = key r) -> map key (Db.update_where sel f l) = map key l.
Proof.
  intros H. unfold Db.update_where. rewrite map_map. apply map_ext.
  intros r. destruct (sel r); [apply H | reflexivity].
Qed.

Lemma activate_frame (w : world) (st : Db.store) (order : Db.Order.row) (paid : bool) :
  let st' := snd (activate w st order paid) in
  Db.user_roles st' = Db.user_roles st
  /\ (Db.user_packages st' = Db.user_packages st
      \/ exists row, Db.user_packages st' = (Db.user_packages st ++ [row])%list)
  /\ map Db.Profile.id (Db.profiles st') = map Db.Profile.id (Db.profiles st).
Proof.
  destruct (WebhookFacts.activate_cases w st order paid)
    as [(u & p & y & row & _ & _ & _ & _ & _ & _ & ->)|[-> _]]; cbn.
  - split; [reflexivity|]. split; [right; now eexists|].
    now apply update_where_keys.
  - split; [reflexivity|]. split; [now left | reflexivity].
Qed.

(** X8.  Whatever the request, a run leaves [integration_secrets],
    [domain_pricing_settings] and [user_roles] as they were; it neither
    adds, removes nor reorders [orders] and [profiles] rows and never
    rewrites an order's id, midtrans_order_id, user_id or
    subscription_years, nor a profile's id; and [user_packages] is left as
    it was or gets one row appended. *)
Theorem run_frame (w : world) (req : request) :
  let st := store w in
  let st' := snd (handler w req) in
  Db.integration_secrets st' = Db.integration_secrets st
  /\ Db.domain_pricing_settings st' = Db.domain_pricing_settings st
  /\ Db.user_roles st' = Db.user_roles st
  /\ map order_key (Db.orders st') = map order_key (Db.orders st)
  /\ map Db.Profile.id (Db.profiles st') = map Db.Profile.id (Db.profiles st)
  /\ (Db.user_packages st' = Db.user_packages st
      \/ exists row, Db.user_packages st' = (Db.user_packages st ++ [row])%list).
Proof.
  cbn zeta. destruct (WebhookFacts.run_keeps w req) as (Hs & Hp & Ho).
  split; [exact Hs|]. split; [exact Hp|].
  destruct (reach w req) as [[[body env] order]|] eqn:R.
  - rewrite (WebhookFacts.handler_reach _ _ _ _ _ R) in *.
    destruct (activate_frame w (Db.with_orders (store w) (updated_orders w env body order))
                order (is_paid (status_of body))) as (Hr & Hu & Hf).
    cbn zeta in Hr, Hu, Hf. split; [exact Hr|]. split; [|split; [exact Hf | exact Hu]].
    rewrite Ho. unfold updated_orders. now apply update_where_keys.
  - rewrite (WebhookFacts.reach_none _ _ R). repeat split; try reflexivity. now left.
Qed.

(** X9.  The store changes only for a notification that carries the
    digest of its fields under a stored server key and names a stored
    order: a run that leaves the store different from what it found was
    served, verified, and found its order. *)
Theorem change_is_signed (w : world) (req : request) :
  snd (handler w req) <> store w ->
  exists body env key order,
    serves w req body /\ complete body
    /\ stored_key w env key /\ signs key body
    /\ order_lookup w body = inr (Some order).
Proof.
  intros H. destruct (reach w req) as [[[body env] order]|] eqn:R.
  - apply WebhookFacts.reach_some in R. destruct R as (Hs & Hc & He & Ho).
    assert (K : exists key, stored_key w env key /\ signs key body).
    { destruct env.
      - apply WebhookFacts.env_of_sandbox in He. exact (proj2 He).
      - now apply WebhookFacts.env_of_production in He. }
    destruct K as (key & Hk & Hsg). now exists body, env, key, order.
  - elim H. now apply WebhookFacts.reach_none.
Qed.

Lemma change_is_signed_witness :
  exists body env key order,
    serves (deployment shop) (post settlement) body /\ complete body
    /\ stored_key (deployment shop) env key /\ signs key body
    /\ order_lookup (deployment shop) body = inr (Some order).
Proof.
  apply (change_is_signed (deployment shop) (post settlement)).
  intros H. apply (f_equal (fun st => List.length (Db.user_packages st))) in H.
  revert H. vm_compute. discriminate.
Defined.

(** X10.  The handler answers 200, 400, 401 or 500 and nothing else, and a
    request answered 400 or 401 leaves the store as it was. *)
Theorem run_status (w : world) (req : request) :
  let code := Http.status (fst (handler w req)) in
  (code = 200 \/ code = 400 \/ code = 401 \/ code = 500)
  /\ (code = 400 \/ code = 401 -> snd (handler w req) = store w).
Proof.
  cbn zeta. unfold handler, try_block.
  destruct (method req =? "OPTIONS")%string; [cbn; split; [tauto|reflexivity]|].
  destruct (negb (Http.configured (SUPABASE_URL w)) || _); [cbn; split; [tauto|reflexivity]|].
  destruct (json req) as [e|b]; [cbn; split; [tauto|reflexivity]|].
  destruct (negb (Js.truthy (Js.field b "order_id")) || _ || _ || _);
    [cbn; split; [tauto|reflexivity]|].
  fold (env_of w b). fold (order_lookup w b).
  destruct (env_of w b) as [env|]; [|cbn; split; [tauto|reflexivity]].
  destruct (order_lookup w b) as [err|[o|]];
    [cbn; split; [tauto|reflexivity]| |cbn; split; [tauto|reflexivity]].
  destruct (WebhookFacts.activate_response w
              (Db.with_orders (store w)
                 (Db.update_where (fun r => N.eqb (Db.Order.id r) (Db.Order.id o))
                                  (order_update env b) (Db.orders (store w))))
              o (is_paid (Js.or_null (Js.field b "transaction_status")))) as [H|[e H]];
    destruct (activate _ _ _ _) as [r st]; cbn in H; subst r; cbn; split; (tauto || lia).
Qed.

Lemma run_status_witness :
  snd (handler (deployment shop) (post uppercase)) = store (deployment shop).
Proof.
  apply (proj2 (run_status (deployment shop) (post uppercase))). right.
  vm_compute. reflexivity.
Defined.

(** X11.  The handler does not undo what it wrote: when the settings query
    fails for a paid notification of an order with a user and a positive
    number of years, the answer is 500 although the order row has already
    been marked 'paid'; no entitlement row is inserted and no profile is
    updated. *)
Theorem no_rollback (w : world) (req : request) (body : Js.jsval) (env : Env)
    (order : Db.Order.row) (userId : Db.uuid) (years : Z) (pricingErr : Db.error) :
  serves w req body -> complete body -> env_of w body = Some env ->
  order_lookup w body = inr (Some order) ->
  order_status (status_of body) = "paid" ->
  Db.Order.user_id order = Some userId ->
  Db.Order.subscription_years order = Some years -> 0 < years ->
  pricing_lookup w = inl pricingErr ->
  let st' := snd (handler w req) in
  fst (handler w req)
  = Http.json 500 (Http.error_obj (Http.catch_message (Db.thrown pricingErr)))
  /\ In (order_update env body order) (Db.orders st')
  /\ Db.Order.status (order_update env body order) = "paid"
  /\ Db.user_packages st' = Db.user_packages (store w)
  /\ Db.profiles st' = Db.profiles (store w).
Proof.
  intros Hs Hc He Ho Hp Hu Hy Hpos Hq. cbn zeta.
  rewrite (WebhookFacts.handler_served _ _ _ Hs),
    (WebhookFacts.try_block_complete _ _ _ Hs Hc), He, Ho.
  apply WebhookFacts.paid_iff in Hp.
  unfold activate, activation_user. rewrite Hp, Hu, Hy.
  destruct (Z.ltb_spec 0 years) as [_|]; [|lia].
  change (Db.maybeSingle _ _) with (pricing_lookup w). rewrite Hq. cbn.
  split; [reflexivity|]. split; [|split; [|now split]].
  - apply WebhookFacts.order_lookup_in in Ho. destruct Ho as (_ & _ & Hin & _).
    unfold updated_orders, Db.update_where. apply in_map_iff.
    exists order. now rewrite N.eqb_refl.
  - unfold order_status. fold (status_of body). now rewrite Hp.
Qed.

Lemma no_rollback_witness :
  fst (handler broken (post settlement))
  = Http.json 500 (Http.error_obj "[object Object]")
  /\ In (order_update sandbox settlement
            (Db.Order.mk 1%N (Some "ORDER-1001") (Some 7%N) (Some 1) "pending"
                         None None None None None))
        (Db.orders (snd (handler broken (post settlement)))).
Proof.
  pose proof (no_rollback broken (post settlement) settlement sandbox
                (Db.Order.mk 1%N (Some "ORDER-1001") (Some 7%N) (Some 1) "pending"
                             None None None None None)
                7%N 1 (Db.mkError "connection closed" false)) as H.
  cbn zeta in H. refine ((fun H' => conj (proj1 H') (proj1 (proj2 H'))) (H _ _ _ _ _ _ _ _ _)).
  - repeat split. discriminate.
  - repeat split; discriminate.
  - vm_compute. reflexivity.
  - vm_compute. reflexivity.
  - vm_compute. reflexivity.
  - reflexivity.
  - reflexivity.
  - lia.
  - vm_compute. reflexivity.
Defined.

(** X12.  A key that [getPlainServerKey] returns is never empty and has no
    white space at either end.  A secret that is absent, blank, or stored
    with an [iv] other than 'plain' counts as missing: the function throws
    the error "Missing <name>". *)
Theorem getPlainServerKey_spec (w : world) (env : Env) :
  (forall key, getPlainServerKey w env = inr key -> key <> "" /\ trimmed key)
  /\ (fault w (ServerKeyQuery env) = None ->
      (Db.secrets_where (store w) "midtrans" (key_name env) = []
       \/ exists r, Db.secrets_where (store w) "midtrans" (key_name env) = [r]
                    /\ (Db.Secret.iv r <> Some "plain"
                        \/ Db.Secret.ciphertext r = None
                        \/ exists c, Db.Secret.ciphertext r = Some c /\ Js.trim c = "")) ->
      getPlainServerKey w env = inl (Js.Error ("Missing " ++ key_name env))).
Proof.
  split.
  - intros key H. apply WebhookFacts.getPlainServerKey_inr in H.
    destruct H as [_ (r & c & _ & _ & _ & -> & Hne)].
    split; [exact Hne | apply TextFacts.trim_trimmed].
  - intros Hf H. unfold getPlainServerKey, Db.maybeSingle. rewrite Hf.
    destruct H as [->|(r & -> & H)]; [reflexivity|].
    destruct (Db.Secret.iv r) as [i|] eqn:Ei; [|reflexivity].
    destruct (String.eqb_spec i "plain") as [->|Hne]; [|reflexivity].
    destruct H as [H|[H|(c & H & Hc)]].
    + now elim H.
    + now rewrite H.
    + now rewrite H, Hc.
Qed.

Lemma getPlainServerKey_spec_witness :
  getPlainServerKey (deployment shop) production
  = inl (Js.Error ("Missing " ++ key_name production)).
Proof.
  apply (proj2 (getPlainServerKey_spec (deployment shop) production)).
  - reflexivity.
  - now left.
Defined.

End WebhookMore.

(** ** More on [addMonthsIso] *)

Module CalendarMore.
Import JsDate.

Lemma overflow_month (lp : bool) (mn D : Z) :
  0 <= mn <= 11 -> 1 <= D <= 31 -> month_length lp mn < D ->
  0 <= mn + 1 <= 11
  /\ 1 <= D - month_length lp mn <= month_length lp (mn + 1)
  /\ month_start lp (mn + 1) = month_start lp mn + month_length lp mn.
Proof.
  intros Hm. unfold month_length. destruct lp; JsDateFacts.by_month mn; cbn; lia.
Qed.



Example end_of_january :
  Webhook.addMonthsIso 1738324800000 1 = "2025-03-03T12:00:00.000Z".
Proof. vm_compute. reflexivity. Qed.

End CalendarMore.

(** ** More on the Xendit secret endpoint *)

Module XenditMore.
Import XenditSecret XenditSpec MoreSpec XenditMoreSpec.

(** *** The shape of a run *)

Lemma handler_dispatch (w : world) (req : request) :
  served w req -> granted w req ->
  handler w req =
  match dispatch w req with
  | (inr response, st) => (response, st)
  | (inl e, st) => (Http.json 500 (Http.error_obj (Http.catch_message e)), st)
  end.
Proof.
  intros Hs Hg. rewrite (XenditFacts.xendit_handler_served _ _ (proj1 Hs)).
  now rewrite (proj1 (XenditFacts.try_block_authorized w req) Hs Hg).
Qed.

Lemma not_served_store (w : world) (req : request) :
  ~ served w req -> snd (handler w req) = store w.
Proof.
  intros H. unfold handler, try_block.
  destruct (String.eqb_spec (method req) "OPTIONS") as [E|E]; [reflexivity|].
  destruct (Http.configured (SUPABASE_URL w)) eqn:C1; [|reflexivity].
  destruct (Http.configured (SUPABASE_ANON_KEY w)) eqn:C2; [|reflexivity].
  destruct (Http.configured (SUPABASE_SERVICE_ROLE_KEY w)) eqn:C3; [|reflexivity].
  elim H. now repeat split.
Qed.

Lemma not_granted_store (w : world) (req : request) :
  ~ granted w req -> snd (handler w req) = store w.
Proof.
  intros H. destruct (proj2 (XenditFacts.try_block_authorized w req) H) as [Hst _].
  unfold handler. destruct (method req =? "OPTIONS")%string; [reflexivity|].
  destruct (try_block w req) as [[e|r] st]; exact Hst.
Qed.

Lemma served_dec (w : world) (req : request) : served w req \/ ~ served w req.
Proof.
  unfold served.
  destruct (String.eqb_spec (method req) "OPTIONS");
    destruct (Http.configured (SUPABASE_URL w));
    destruct (Http.configured (SUPABASE_ANON_KEY w));
    destruct (Http.configured (SUPABASE_SERVICE_ROLE_KEY w));
    try (left; now repeat split);
    right; intros (H1 & H2 & H3 & H4); try discriminate; contradiction.
Qed.

Lemma granted_dec (w : world) (req : request) : granted w req \/ ~ granted w req.
Proof.
  destruct (authorize w req) as [e|[r|u]] eqn:A.
  - right. intros (sub & Hg). apply XenditFacts.authorize_granted in Hg. congruence.
  - right. intros (sub & Hg). apply XenditFacts.authorize_granted in Hg. congruence.
  - left. exists u. now apply XenditFacts.authorize_granted.
Qed.

Lemma asks_action (req : request) (a : string) (body : Js.jsval) (b : string) :
  asks req a body -> is_action (Js.get body "action") b = (a =? b)%string.
Proof. intros [_ ->]. reflexivity. Qed.

Lemma dispatch_asks (w : world) (req : request) (a : string) (body : Js.jsval) :
  asks req a body ->
  dispatch w req =
  if (a =? "get")%string then
    match Db.maybeSingle (fault w SecretQuery) (xendit_rows (store w)) with
    | inl error => (inl (Db.thrown error), store w)
    | inr data =>
        (inr (Http.json 200
                (Js.JObj
                   [("configured", Js.JBool (match data with Some _ => true | None => false end));
                    ("updated_at",
                     match data with
                     | Some r => Js.JStr (match Db.Secret.updated_at r with
                                          | Some s => s
                                          | None => "null"
                                          end)
                     | None => Js.JNull
                     end)])), store w)
    end
  else if (a =? "set")%string then
    match validateXenditSecretKey (Js.get body "api_key") with
    | Invalid error => (inr (Http.json 400 (Http.error_obj error)), store w)
    | Valid apiKey =>
        match fault w SecretUpsert with
        | Some error => (inl (Db.thrown error), store w)
        | None =>
            (inr (Http.json 200 Http.ok_obj),
             Db.with_secrets (store w)
               (upsert_secret "xendit" "api_key" apiKey (Db.integration_secrets (store w))))
        end
    end
  else if (a =? "clear")%string then
    match fault w SecretDelete with
    | Some error => (inl (Db.thrown error), store w)
    | None =>
        (inr (Http.json 200 Http.ok_obj),
         Db.with_secrets (store w)
           (delete_secret "xendit" "api_key" (Db.integration_secrets (store w))))
    end
  else (inr (Http.json 400 (Http.error_obj "Unknown action")), store w).
Proof.
  intros H. pose proof (asks_action req a body) as Ha. destruct H as [Hj Hg].
  unfold dispatch. rewrite Hj.
  destruct body; try discriminate Hg.
  rewrite !(Ha _ (conj Hj Hg)). reflexivity.
Qed.

(** What a run of [dispatch] does to the store. *)
Lemma dispatch_cases (w : world) (req : request) :
  snd (dispatch w req) = store w
  \/ (exists body k,
         asks req "set" body
         /\ validateXenditSecretKey (Js.get body "api_key") = Valid k
         /\ fault w SecretUpsert = None
         /\ dispatch w req
            = (inr (Http.json 200 Http.ok_obj),
               Db.with_secrets (store w)
                 (upsert_secret "xendit" "api_key" k (Db.integration_secrets (store w)))))
  \/ (exists body,
         asks req "clear" body /\ fault w SecretDelete = None
         /\ dispatch w req
            = (inr (Http.json 200 Http.ok_obj),
               Db.with_secrets (store w)
                 (delete_secret "xendit" "api_key" (Db.integration_secrets (store w))))).
Proof.
  destruct (json req) as [e|body] eqn:Hj.
  { left. unfold dispatch. now rewrite Hj. }
  destruct (Js.get body "action") as [[| | |a| |]|] eqn:Hg;
    try (left; unfold dispatch; rewrite Hj; destruct body; try reflexivity;
         rewrite Hg; reflexivity).
  rewrite (dispatch_asks w req a body (conj Hj Hg)).
  destruct (a =? "get")%string.
  { left. destruct (Db.maybeSingle _ _); reflexivity. }
  destruct (String.eqb_spec a "set") as [->|_].
  { destruct (validateXenditSecretKey _) as [k|m] eqn:V; [|now left].
    destruct (fault w SecretUpsert) eqn:F; [now left|].
    right; left. exists body, k. now repeat split. }
  destruct (String.eqb_spec a "clear") as [->|_]; [|now left].
  destruct (fault w SecretDelete) eqn:F; [now left|].
  right; right. exists body. now repeat split.
Qed.

(** A run either leaves the store alone, or is the accepted [set] or
    [clear] of a granted caller, answered [{ ok: true }]. *)
Lemma run_cases (w : world) (req : request) :
  snd (handler w req) = store w
  \/ (served w req /\ granted w req
      /\ ((exists body k,
             asks req "set" body
             /\ validateXenditSecretKey (Js.get body "api_key") = Valid k
             /\ fault w SecretUpsert = None
             /\ handler w req
                = (Http.json 200 Http.ok_obj,
                   Db.with_secrets (store w)
                     (upsert_secret "xendit" "api_key" k (Db.integration_secrets (store w)))))
          \/ (exists body,
                 asks req "clear" body /\ fault w SecretDelete = None
                 /\ handler w req
                    = (Http.json 200 Http.ok_obj,
                       Db.with_secrets (store w)
                         (delete_secret "xendit" "api_key"
                                        (Db.integration_secrets (store w))))))).
Proof.
  destruct (served_dec w req) as [Hs|Hs]; [|left; now apply not_served_store].
  destruct (granted_dec w req) as [Hg|Hg]; [|left; now apply not_granted_store].
  rewrite (handler_dispatch w req Hs Hg).
  destruct (dispatch_cases w req) as [H|[(body & k & Ha & Hv & Hf & E)|(body & Ha & Hf & E)]].
  - left. destruct (dispatch w req) as [[e|r] st]; exact H.
  - right. split; [exact Hs|]. split; [exact Hg|]. left. exists body, k. now rewrite E.
  - right. split; [exact Hs|]. split; [exact Hg|]. right. exists body. now rewrite E.
Qed.

(** *** Rows of other secrets *)

Lemma is_xendit_hit (r : Db.Secret.row) :
  ((Db.Secret.provider r =? "xendit") && (Db.Secret.name r =? "api_key"))%string
  = is_xendit r.
Proof. reflexivity. Qed.

Lemma upsert_others (k : string) (rows : list Db.Secret.row) :
  filter (fun r => negb (is_xendit r)) (upsert_secret "xendit" "api_key" k rows)
  = filter (fun r => negb (is_xendit r)) rows.
Proof.
  unfold upsert_secret.
  destruct (existsb _ rows).
  - unfold Db.update_where. induction rows as [|r rows IH]; [reflexivity|].
    cbn [map filter]. rewrite IH, is_xendit_hit.
    destruct (is_xendit r) eqn:H; [reflexivity|]. now rewrite H.
  - unfold Db.insert. rewrite filter_app. cbn. apply app_nil_r.
Qed.

Lemma delete_others (rows : list Db.Secret.row) :
  filter (fun r => negb (is_xendit r)) (delete_secret "xendit" "api_key" rows)
  = filter (fun r => negb (is_xendit r)) rows.
Proof.
  unfold delete_secret.
  induction rows as [|r rows IH]; [reflexivity|].
  cbn [filter]. rewrite is_xendit_hit.
  destruct (is_xendit r) eqn:H; cbn [negb]; [exact IH|].
  cbn [filter]. rewrite H. cbn [negb]. now rewrite IH.
Qed.

Lemma midtrans_others (n : string) (rows : list Db.Secret.row) :
  filter (fun r => (Db.Secret.provider r =? "midtrans")%string
                   && (Db.Secret.name r =? n)%string) rows
  = filter (fun r => (Db.Secret.provider r =? "midtrans")%string
                     && (Db.Secret.name r =? n)%string)
           (filter (fun r => negb (is_xendit r)) rows).
Proof.
  induction rows as [|r rows IH]; [reflexivity|]. cbn [filter].
  destruct ((Db.Secret.provider r =? "midtrans")%string
            && (Db.Secret.name r =? n)%string) eqn:F.
  - assert (X : negb (is_xendit r) = true).
    { apply andb_prop in F. destruct F as [F _]. apply String.eqb_eq in F.
      unfold is_xendit. now rewrite F. }
    rewrite X. cbn [filter]. rewrite F. now rewrite IH.
  - destruct (negb (is_xendit r)); [|exact IH].
    cbn [filter]. rewrite F. exact IH.
Qed.

(** X14.  Whatever the request, the endpoint touches nothing but the rows
    of [integration_secrets] for provider 'xendit' and name 'api_key':
    every other secret row is kept, in order (so the Midtrans server keys
    the webhook reads are the same afterwards), and the other tables are
    left as they were. *)
Theorem only_xendit_rows (w : world) (req : request) :
  let st := store w in
  let st' := snd (handler w req) in
  filter (fun r => negb (is_xendit r)) (Db.integration_secrets st')
  = filter (fun r => negb (is_xendit r)) (Db.integration_secrets st)
  /\ (forall n, Db.secrets_where st' "midtrans" n = Db.secrets_where st "midtrans" n)
  /\ Db.orders st' = Db.orders st
  /\ Db.domain_pricing_settings st' = Db.domain_pricing_settings st
  /\ Db.user_packages st' = Db.user_packages st
  /\ Db.profiles st' = Db.profiles st
  /\ Db.user_roles st' = Db.user_roles st.
Proof.
  cbn zeta.
  destruct (run_cases w req)
    as [->|(_ & _ & [(body & k & _ & _ & _ & ->)|(body & _ & _ & ->)])]; cbn [snd].
  - repeat split; reflexivity.
  - pose proof (upsert_others k (Db.integration_secrets (store w))) as H.
    split; [exact H|]. split; [|now repeat split].
    intros n. unfold Db.secrets_where.
    rewrite midtrans_others, (midtrans_others n (Db.integration_secrets (store w))).
    cbn [Db.integration_secrets Db.with_secrets]. now rewrite H.
  - pose proof (delete_others (Db.integration_secrets (store w))) as H.
    split; [exact H|]. split; [|now repeat split].
    intros n. unfold Db.secrets_where.
    rewrite midtrans_others, (midtrans_others n (Db.integration_secrets (store w))).
    cbn [Db.integration_secrets Db.with_secrets]. now rewrite H.
Qed.

(** *** Status codes *)

Lemma authorize_status (w : world) (req : request) (r : Http.response) :
  authorize w req = inr (inl r) ->
  Http.status r = 401 \/ Http.status r = 403 \/ Http.status r = 500.
Proof.
  unfold authorize. intros A.
  destruct (bearer _) as [token|]; [|injection A as <-; now left].
  destruct (negb (Js.truthy token)); [injection A as <-; now left|].
  destruct (getClaims w token) as [e|[|[sub|]]]; try discriminate;
    try (injection A as <-; now left).
  destruct (negb (Js.truthy sub)); [injection A as <-; now left|].
  unfold requireSuperAdmin in A.
  destruct (Db.maybeSingle _ _) as [e|row].
  - injection A as <-. right; now right.
  - destruct (negb _); [|discriminate]. injection A as <-. right; now left.
Qed.

Lemma dispatch_status (w : world) (req : request) (r : Http.response) (st : Db.store) :
  dispatch w req = (inr r, st) -> Http.status r = 200 \/ Http.status r = 400.
Proof.
  destruct (json req) as [e|body] eqn:Hj.
  { unfold dispatch. rewrite Hj. discriminate. }
  destruct (Js.get body "action") as [[| | |a| |]|] eqn:Hg;
    try (unfold dispatch; rewrite Hj; destruct body; try discriminate;
         rewrite Hg; cbn [is_action]; intros [= <- _]; now right).
  rewrite (dispatch_asks w req a body (conj Hj Hg)).
  destruct (a =? "get")%string.
  { destruct (Db.maybeSingle _ _); [discriminate|]. intros [= <- _]. now left. }
  destruct (a =? "set")%string.
  { destruct (validateXenditSecretKey _); [|intros [= <- _]; now right].
    destruct (fault w SecretUpsert); [discriminate|]. intros [= <- _]. now left. }
  destruct (a =? "clear")%string.
  { destruct (fault w SecretDelete); [discriminate|]. intros [= <- _]. now left. }
  intros [= <- _]. now right.
Qed.

(** X15.  The endpoint answers 200, 400, 401, 403 or 500 and nothing else,
    and it changes the store only for a granted caller, in a request it
    answers with 200 [{ ok: true }]: an error answer never comes with a
    change of the stored key. *)
Theorem change_is_granted (w : world) (req : request) :
  let code := Http.status (fst (handler w req)) in
  (code = 200 \/ code = 400 \/ code = 401 \/ code = 403 \/ code = 500)
  /\ (snd (handler w req) <> store w ->
      served w req /\ granted w req
      /\ fst (handler w req) = Http.json 200 Http.ok_obj).
Proof.
  cbn zeta. split.
  - unfold handler. destruct (method req =? "OPTIONS")%string; [now left|].
    unfold try_block.
    destruct (negb (Http.configured (SUPABASE_URL w)) || _ || _); [cbn; tauto|].
    destruct (authorize w req) as [e|[r|u]] eqn:A; [cbn; tauto| |].
    + cbn. destruct (authorize_status w req r A) as [-> | [-> | ->]]; tauto.
    + destruct (dispatch w req) as [[e|r] st] eqn:D; [cbn; tauto|].
      cbn. destruct (dispatch_status w req r st D) as [-> | ->]; tauto.
  - intros Hne.
    destruct (run_cases w req)
      as [E|(Hs & Hg & [(body & k & _ & _ & _ & E)|(body & _ & _ & E)])];
      [contradiction| |]; now rewrite E.
Qed.

(** *** What an answer shows of the stored key *)

Lemma label_rows (rows rows' : list Db.Secret.row) :
  map label rows = map label rows' ->
  map label (filter is_xendit rows) = map label (filter is_xendit rows').
Proof.
  revert rows'. induction rows as [|r rows IH]; intros [|r' rows'] H; try discriminate;
    [reflexivity|].
  cbn [map] in H.
  assert (Hl : label r = label r') by congruence.
  assert (Hr : map label rows = map label rows') by congruence.
  assert (E : is_xendit r = is_xendit r').
  { unfold is_xendit. unfold label in Hl. congruence. }
  cbn [filter]. rewrite <- E.
  destruct (is_xendit r); cbn [map]; [rewrite Hl; f_equal|]; now apply IH.
Qed.

Lemma dispatch_hides (w : world) (rows : list Db.Secret.row) (req : request) :
  map label rows = map label (Db.integration_secrets (store w)) ->
  fst (dispatch (with_rows w rows) req) = fst (dispatch w req).
Proof.
  intros H. apply label_rows in H.
  destruct (json req) as [e|body] eqn:Hj.
  { unfold dispatch. now rewrite Hj. }
  destruct (Js.get body "action") as [[| | |a| |]|] eqn:Hg;
    try (unfold dispatch; rewrite Hj; destruct body; try reflexivity;
         rewrite Hg; reflexivity).
  rewrite !(dispatch_asks _ req a body (conj Hj Hg)).
  destruct (a =? "get")%string.
  { unfold xendit_rows, Db.secrets_where.
    change (fault (with_rows w rows)) with (fault w).
    change (Db.integration_secrets (store (with_rows w rows))) with rows.
    change (filter _ rows) with (filter is_xendit rows).
    change (filter _ (Db.integration_secrets (store w)))
      with (filter is_xendit (Db.integration_secrets (store w))).
    unfold Db.maybeSingle. destruct (fault w SecretQuery); [reflexivity|].
    destruct (filter is_xendit rows) as [|r [|r2 l]];
      destruct (filter is_xendit (Db.integration_secrets (store w))) as [|r' [|r2' l']];
      try discriminate H; try reflexivity.
    cbn [map] in H. unfold label in H.
    assert (U : Db.Secret.updated_at r = Db.Secret.updated_at r') by congruence.
    now rewrite U. }
  destruct (a =? "set")%string.
  { destruct (validateXenditSecretKey _); [|reflexivity].
    change (fault (with_rows w rows)) with (fault w).
    destruct (fault w SecretUpsert); reflexivity. }
  destruct (a =? "clear")%string; [|reflexivity].
  change (fault (with_rows w rows)) with (fault w).
  destruct (fault w SecretDelete); reflexivity.
Qed.

(** X16.  No answer of the endpoint shows the stored key: two
    installations whose secret rows agree on provider, name and
    [updated_at], and differ at most in [ciphertext] and [iv], get the same
    response to every request. *)
Theorem answer_hides_key (w : world) (rows : list Db.Secret.row) (req : request) :
  map label rows = map label (Db.integration_secrets (store w)) ->
  fst (handler (with_rows w rows) req) = fst (handler w req).
Proof.
  intros H. unfold handler.
  change (method req =? "OPTIONS")%string with (method req =? "OPTIONS")%string.
  destruct (method req =? "OPTIONS")%string; [reflexivity|].
  unfold try_block.
  change (SUPABASE_URL (with_rows w rows)) with (SUPABASE_URL w).
  change (SUPABASE_ANON_KEY (with_rows w rows)) with (SUPABASE_ANON_KEY w).
  change (SUPABASE_SERVICE_ROLE_KEY (with_rows w rows)) with (SUPABASE_SERVICE_ROLE_KEY w).
  destruct (negb (Http.configured (SUPABASE_URL w)) || _ || _); [reflexivity|].
  rewrite XenditFacts.authorize_secrets.
  destruct (authorize w req) as [e|[r|u]]; [reflexivity|reflexivity|].
  pose proof (dispatch_hides w rows req H) as D.
  destruct (dispatch (with_rows w rows) req) as [[e|r] st];
    destruct (dispatch w req) as [[e'|r'] st']; cbn in D |- *; congruence.
Qed.

Lemma answer_hides_key_witness :
  let w := with_rows (installation healthy)
                     [Db.Secret.mk "xendit" "api_key" (Some "xnd_development_abc123")
                                   (Some "plain") None] in
  let rows := [Db.Secret.mk "xendit" "api_key" (Some "xnd_production_zzzzzz")
                            (Some "plain") None] in
  fst (handler (with_rows w rows) (ask "tok-admin" "get"))
  = fst (handler w (ask "tok-admin" "get")).
Proof. cbn zeta. apply answer_hides_key. reflexivity. Defined.

Lemma change_is_granted_witness :
  let w := installation healthy in
  let req := set_key "tok-admin" "xnd_development_abc123" in
  snd (handler w req) <> store w
  /\ served w req /\ granted w req /\ fst (handler w req) = Http.json 200 Http.ok_obj.
Proof.
  cbn zeta.
  assert (H : snd (handler (installation healthy)
                           (set_key "tok-admin" "xnd_development_abc123"))
              <> store (installation healthy)) by (vm_compute; discriminate).
  split; [exact H|].
  exact (proj2 (change_is_granted (installation healthy)
                  (set_key "tok-admin" "xnd_development_abc123")) H).
Defined.

(** *** The same request again *)

Lemma later_same (w : world) (req req' : request) :
  snd (handler w req) = store w -> handler (later w req) req' = handler w req'.
Proof. intros H. unfold later. rewrite H. destruct w; reflexivity. Qed.

Lemma run_roles (w : world) (req : request) :
  Db.user_roles (snd (handler w req)) = Db.user_roles (store w).
Proof.
  destruct (run_cases w req)
    as [->|(_ & _ & [(body & k & _ & _ & _ & ->)|(body & _ & _ & ->)])]; reflexivity.
Qed.

Lemma later_served (w : world) (req req' : request) :
  served w req' -> served (later w req) req'.
Proof. intros H. exact H. Qed.

Lemma later_granted (w : world) (req req' : request) :
  granted w req' -> granted (later w req) req'.
Proof.
  intros (sub & Hp & Hf & r & Hr & Hrole). exists sub. split; [exact Hp|].
  split; [exact Hf|]. exists r. split; [|exact Hrole].
  unfold Db.roles_where in *. cbn [store later]. now rewrite run_roles.
Qed.

Lemma upsert_hits (k : string) (rows : list Db.Secret.row) :
  filter is_xendit
         (Db.update_where is_xendit
            (fun r => Db.Secret.mk "xendit" "api_key" (Some k) (Some "plain")
                                   (Db.Secret.updated_at r)) rows)
  = map (fun r => Db.Secret.mk "xendit" "api_key" (Some k) (Some "plain")
                               (Db.Secret.updated_at r))
        (filter is_xendit rows).
Proof.
  unfold Db.update_where. induction rows as [|r rows IH]; [reflexivity|].
  cbn [map filter]. destruct (is_xendit r) eqn:E.
  - cbn [map]. now rewrite <- IH.
  - now rewrite E.
Qed.

Lemma no_hits (rows : list Db.Secret.row) :
  existsb is_xendit rows = false -> filter is_xendit rows = [].
Proof.
  induction rows as [|r rows IH]; [reflexivity|]. cbn [existsb filter].
  destruct (is_xendit r); [discriminate|]. exact IH.
Qed.

Lemma some_hits (rows : list Db.Secret.row) :
  existsb is_xendit rows = true -> filter is_xendit rows <> [].
Proof.
  induction rows as [|r rows IH]; [discriminate|]. cbn [existsb filter].
  destruct (is_xendit r); [discriminate|]. exact IH.
Qed.

Lemma upsert_hit (k : string) (rows : list Db.Secret.row) :
  existsb is_xendit rows = true ->
  upsert_secret "xendit" "api_key" k rows
  = Db.update_where is_xendit
      (fun r => Db.Secret.mk "xendit" "api_key" (Some k) (Some "plain")
                             (Db.Secret.updated_at r)) rows.
Proof.
  intros E. unfold upsert_secret.
  change (fun r => ((Db.Secret.provider r =? "xendit")
                    && (Db.Secret.name r =? "api_key"))%string) with is_xendit.
  now rewrite E.
Qed.

Lemma upsert_miss (k : string) (rows : list Db.Secret.row) :
  existsb is_xendit rows = false ->
  upsert_secret "xendit" "api_key" k rows
  = Db.insert (Db.Secret.mk "xendit" "api_key" (Some k) (Some "plain") None) rows.
Proof.
  intros E. unfold upsert_secret.
  change (fun r => ((Db.Secret.provider r =? "xendit")
                    && (Db.Secret.name r =? "api_key"))%string) with is_xendit.
  now rewrite E.
Qed.

Lemma upsert_twice (k : string) (rows : list Db.Secret.row) :
  upsert_secret "xendit" "api_key" k (upsert_secret "xendit" "api_key" k rows)
  = upsert_secret "xendit" "api_key" k rows.
Proof.
  destruct (existsb is_xendit rows) eqn:E.
  - rewrite (upsert_hit k rows E).
    assert (X : existsb is_xendit
                  (Db.update_where is_xendit
                     (fun r => Db.Secret.mk "xendit" "api_key" (Some k) (Some "plain")
                                            (Db.Secret.updated_at r)) rows) = true).
    { clear - E. unfold Db.update_where.
      induction rows as [|r rows IH]; [discriminate|].
      cbn [existsb map] in E |- *. destruct (is_xendit r) eqn:H; [reflexivity|].
      rewrite H. exact (IH E). }
    rewrite (upsert_hit k _ X). unfold Db.update_where. rewrite map_map. apply map_ext.
    intros r. destruct (is_xendit r) eqn:H; [reflexivity|]. now rewrite H.
  - rewrite (upsert_miss k rows E).
    assert (X : existsb is_xendit
                  (Db.insert (Db.Secret.mk "xendit" "api_key" (Some k) (Some "plain") None)
                             rows) = true).
    { unfold Db.insert. rewrite existsb_app. cbn [existsb]. apply orb_true_r. }
    rewrite (upsert_hit k _ X).
    unfold Db.insert, Db.update_where. rewrite map_app. cbn [map]. f_equal.
    clear - E. induction rows as [|r rows IH]; [reflexivity|].
    cbn [existsb map] in E |- *. destruct (is_xendit r); [discriminate|].
    now rewrite IH.
Qed.

Lemma delete_twice (rows : list Db.Secret.row) :
  delete_secret "xendit" "api_key" (delete_secret "xendit" "api_key" rows)
  = delete_secret "xendit" "api_key" rows.
Proof.
  unfold delete_secret. induction rows as [|r rows IH]; [reflexivity|].
  cbn [filter]. destruct (negb _) eqn:E; [|exact IH].
  cbn [filter]. rewrite E. now rewrite IH.
Qed.

(** X17.  A request sent twice does no more than the request sent once:
    the second run answers as the first did and leaves the same secrets
    (provider, name, ciphertext and iv of every row), so a retried [set] or
    [clear] is harmless. *)
Theorem request_idempotent (w : world) (req : request) :
  fst (handler (later w req) req) = fst (handler w req)
  /\ map content (Db.integration_secrets (snd (handler (later w req) req)))
     = map content (Db.integration_secrets (snd (handler w req))).
Proof.
  assert (E : handler (later w req) req = handler w req).
  {
    destruct (run_cases w req)
      as [E|(Hs & Hg & [(body & k & Ha & Hv & Hf & E)|(body & Ha & Hf & E)])].
    - now apply later_same.
    - rewrite (handler_dispatch _ req (later_served w req req Hs) (later_granted w req req Hg)).
      rewrite (dispatch_asks _ req "set" body Ha). cbn [String.eqb Ascii.eqb Bool.eqb].
      rewrite Hv. change (fault (later w req)) with (fault w). rewrite Hf.
      change (store (later w req)) with (snd (handler w req)). rewrite E. cbn [snd].
      cbn [Db.with_secrets Db.integration_secrets Db.orders Db.domain_pricing_settings
           Db.user_packages Db.profiles Db.user_roles].
      now rewrite upsert_twice.
    - rewrite (handler_dispatch _ req (later_served w req req Hs) (later_granted w req req Hg)).
      rewrite (dispatch_asks _ req "clear" body Ha). cbn [String.eqb Ascii.eqb Bool.eqb].
      change (fault (later w req)) with (fault w). rewrite Hf.
      change (store (later w req)) with (snd (handler w req)). rewrite E. cbn [snd].
      cbn [Db.with_secrets Db.integration_secrets Db.orders Db.domain_pricing_settings
           Db.user_packages Db.profiles Db.user_roles].
      now rewrite delete_twice.
  }
  now rewrite E.
Qed.

(** *** Reading the key back *)

Lemma get_report (w : world) (req : request) (body : Js.jsval) :
  accepted w req "get" body -> fault w SecretQuery = None ->
  (xendit_rows (store w) = [] -> fst (handler w req) = report false Js.JNull)
  /\ (forall r, xendit_rows (store w) = [r] ->
                exists u, fst (handler w req) = report true (Js.JStr u)).
Proof.
  intros (Hs & Hg & Ha) Hf.
  rewrite (handler_dispatch w req Hs Hg), (dispatch_asks w req "get" body Ha).
  cbn [String.eqb Ascii.eqb Bool.eqb]. rewrite Hf. split.
  - intros ->. reflexivity.
  - intros r ->. cbn. eexists. reflexivity.
Qed.

Lemma later_accepted (w : world) (req req' : request) (a : string) (body : Js.jsval) :
  accepted w req' a body -> accepted (later w req) req' a body.
Proof.
  intros (Hs & Hg & Ha). split; [exact Hs|]. split; [now apply later_granted|exact Ha].
Qed.

Lemma delete_hits (rows : list Db.Secret.row) :
  filter is_xendit (delete_secret "xendit" "api_key" rows) = [].
Proof.
  unfold delete_secret. induction rows as [|r rows IH]; [reflexivity|].
  cbn [filter]. rewrite is_xendit_hit. destruct (is_xendit r) eqn:E; cbn [negb]; [exact IH|].
  cbn [filter]. now rewrite E.
Qed.

Lemma upsert_one (k : string) (rows : list Db.Secret.row) :
  (List.length (filter is_xendit rows) <= 1)%nat ->
  exists r, filter is_xendit (upsert_secret "xendit" "api_key" k rows) = [r]
            /\ Db.Secret.ciphertext r = Some k.
Proof.
  intros Hlen.
  destruct (existsb is_xendit rows) eqn:E.
  - rewrite (upsert_hit k rows E), upsert_hits. apply some_hits in E.
    destruct (filter is_xendit rows) as [|r [|r2 l]]; [contradiction| |cbn in Hlen; lia].
    eexists. split; reflexivity.
  - rewrite (upsert_miss k rows E).
    unfold Db.insert. rewrite filter_app, (no_hits rows E). cbn.
    eexists. split; reflexivity.
Qed.

(** X18.  [clear] then [get]: once a [clear] has been accepted, a [get]
    of any super admin reports [{ configured: false, updated_at: null }],
    whatever was stored before. *)
Theorem clear_then_get (w : world) (req req' : request) (body body' : Js.jsval) :
  accepted w req "clear" body -> fault w SecretDelete = None ->
  accepted w req' "get" body' -> fault w SecretQuery = None ->
  fst (handler w req) = Http.json 200 Http.ok_obj
  /\ fst (handler (later w req) req') = report false Js.JNull.
Proof.
  intros (Hs & Hg & Ha) Hd Hget Hq.
  assert (E : handler w req
              = (Http.json 200 Http.ok_obj,
                 Db.with_secrets (store w)
                   (delete_secret "xendit" "api_key" (Db.integration_secrets (store w))))).
  { rewrite (handler_dispatch w req Hs Hg), (dispatch_asks w req "clear" body Ha).
    cbn [String.eqb Ascii.eqb Bool.eqb]. now rewrite Hd. }
  split; [now rewrite E|].
  apply (proj1 (get_report (later w req) req' body' (later_accepted w req req' _ _ Hget) Hq)).
  unfold xendit_rows, Db.secrets_where. cbn [store later]. rewrite E. cbn [snd].
  apply delete_hits.
Qed.

Lemma clear_then_get_witness :
  let w := with_rows (installation healthy)
                     [Db.Secret.mk "xendit" "api_key" (Some "xnd_development_abc123")
                                   (Some "plain") None] in
  fst (handler w (ask "tok-admin" "clear")) = Http.json 200 Http.ok_obj
  /\ fst (handler (later w (ask "tok-admin" "clear")) (ask "tok-admin" "get"))
     = report false Js.JNull.
Proof.
  cbn zeta.
  assert (G : forall a, granted (with_rows (installation healthy)
                     [Db.Secret.mk "xendit" "api_key" (Some "xnd_development_abc123")
                                   (Some "plain") None]) (ask "tok-admin" a)).
  { intros a. exists "admin-1". split.
    - exists "Bearer tok-admin", "tok-admin". repeat split; try reflexivity; discriminate.
    - split; [reflexivity|]. eexists. split; reflexivity. }
  eapply clear_then_get.
  - split; [|split; [apply G|split; reflexivity]].
    repeat split; try reflexivity. discriminate.
  - reflexivity.
  - split; [|split; [apply G|split; reflexivity]].
    repeat split; try reflexivity. discriminate.
  - reflexivity.
Defined.

(** X19.  [set] then [get]: once a [set] with a valid key has been
    accepted in a table that held at most one Xendit row, the table holds
    exactly one, with the trimmed key as [ciphertext], and a [get] of any
    super admin reports [configured: true] with a text [updated_at]. *)
Theorem set_then_get (w : world) (req req' : request) (body body' : Js.jsval) (k : string) :
  accepted w req "set" body ->
  validateXenditSecretKey (Js.get body "api_key") = Valid k ->
  fault w SecretUpsert = None ->
  (List.length (xendit_rows (store w)) <= 1)%nat ->
  accepted w req' "get" body' -> fault w SecretQuery = None ->
  (exists r, xendit_rows (snd (handler w req)) = [r] /\ Db.Secret.ciphertext r = Some k)
  /\ exists u, fst (handler (later w req) req') = report true (Js.JStr u).
Proof.
  intros (Hs & Hg & Ha) Hv Hu Hlen Hget Hq.
  assert (E : handler w req
              = (Http.json 200 Http.ok_obj,
                 Db.with_secrets (store w)
                   (upsert_secret "xendit" "api_key" k (Db.integration_secrets (store w))))).
  { rewrite (handler_dispatch w req Hs Hg), (dispatch_asks w req "set" body Ha).
    cbn [String.eqb Ascii.eqb Bool.eqb]. now rewrite Hv, Hu. }
  destruct (upsert_one k (Db.integration_secrets (store w)) Hlen) as (r & Hr & Hc).
  assert (X : xendit_rows (snd (handler w req)) = [r]).
  { rewrite E. exact Hr. }
  split; [exists r; now split|].
  exact (proj2 (get_report (later w req) req' body' (later_accepted w req req' _ _ Hget) Hq)
               r X).
Qed.

Lemma set_then_get_witness :
  let w := installation healthy in
  let req := set_key "tok-admin" " xnd_development_abc123 " in
  (exists r, xendit_rows (snd (handler w req)) = [r]
             /\ Db.Secret.ciphertext r = Some "xnd_development_abc123")
  /\ exists u, fst (handler (later w req) (ask "tok-admin" "get")) = report true (Js.JStr u).
Proof.
  cbn zeta.
  assert (G : forall req, Authorization req = Some "Bearer tok-admin" ->
                          granted (installation healthy) req).
  { intros req A. exists "admin-1". split.
    - exists "Bearer tok-admin", "tok-admin". repeat split; try reflexivity; try discriminate.
      exact A.
    - split; [reflexivity|]. eexists. split; reflexivity. }
  eapply set_then_get.
  - split; [|split; [apply G; reflexivity|split; reflexivity]].
    repeat split; try reflexivity. discriminate.
  - vm_compute. reflexivity.
  - reflexivity.
  - cbn. lia.
  - split; [|split; [apply G; reflexivity|split; reflexivity]].
    repeat split; try reflexivity. discriminate.
  - reflexivity.
Defined.

(** *** The accepted key *)

(** X20.  Whatever JSON value arrives as [api_key] (a string, or a value
    [String()] turns into text, such as a one-element array), an accepted
    key is that text trimmed, is well formed (no white space, 8 to 256
    characters, prefix 'xnd_' but not 'xnd_public_'), and is accepted
    unchanged when validated again. *)
Theorem accepted_key (input : option Js.jsval) (k : string) :
  validateXenditSecretKey input = Valid k ->
  k = Js.trim (Js.String_or_empty input)
  /\ k <> "" /\ Js.has_white_space k = false /\ 8 <= Js.length k <= 256
  /\ Js.startsWith k "xnd_" = true /\ Js.startsWith k "xnd_public_" = false
  /\ validateXenditSecretKey (Some (Js.JStr k)) = Valid k.
Proof.
  unfold validateXenditSecretKey at 1. cbn zeta.
  set (t := Js.trim (Js.String_or_empty input)).
  destruct (negb (Js.truthy t)) eqn:T; [discriminate|].
  destruct (Js.has_white_space t || (Js.length t <? 8) || (Js.length t >? 256)) eqn:F;
    [discriminate|].
  destruct (negb (Js.startsWith t "xnd_")) eqn:P; [discriminate|].
  destruct (Js.startsWith t "xnd_public_") eqn:Q; [discriminate|].
  intros [= <-].
  assert (I : Js.trim t = t) by apply TextFacts.trim_trimmed.
  split; [reflexivity|].
  apply orb_false_iff in F. destruct F as [F F3].
  apply orb_false_iff in F. destruct F as [F1 F2].
  apply negb_false_iff in T, P.
  split; [intros Z; rewrite Z in T; discriminate|].
  split; [exact F1|]. split; [|split; [exact P|split; [exact Q|]]].
  - apply Z.ltb_ge in F2. rewrite Z.gtb_ltb in F3. apply Z.ltb_ge in F3.
    clearbody t. lia.
  - unfold validateXenditSecretKey. cbn [Js.String_or_empty Js.to_String]. cbn zeta.
    rewrite I. apply negb_false_iff in T. rewrite T, F1, F2, F3.
    apply negb_false_iff in P. rewrite P, Q. reflexivity.
Qed.

Lemma accepted_key_witness :
  let k := "xnd_development_abc123" in
  k = Js.trim (Js.String_or_empty (Some (Js.JArr [Js.JStr " xnd_development_abc123 "])))
  /\ k <> "" /\ Js.has_white_space k = false /\ 8 <= Js.length k <= 256
  /\ Js.startsWith k "xnd_" = true /\ Js.startsWith k "xnd_public_" = false
  /\ validateXenditSecretKey (Some (Js.JStr k)) = Valid k.
Proof.
  cbn zeta. apply accepted_key. vm_compute. reflexivity.
Defined.

End XenditMore.

(** ** More on the suggestions hook *)

Module SuggestMore.
Import useDomainSuggestions SuggestSpec MoreSpec SuggestMoreSpec.

(** *** Where the queries come from *)

Lemma clear_current_incl (h : hook) (t : timeout) :
  In t (clear_current h) -> In t (pending h).
Proof.
  unfold clear_current. destruct (timer h); [apply SuggestFacts.clearTimeout_incl|auto].
Qed.

Lemma run_cleanup_sourced (ds : deps -> Prop) (h : hook) :
  sourced ds h -> sourced ds (run_cleanup h).
Proof.
  intros [Hp Hi]. unfold run_cleanup. destruct (cleanup h); [|now split].
  split; [|exact Hi]. intros t Ht. apply Hp. now apply clear_current_incl.
Qed.

Lemma effect_sourced (ds : deps -> Prop) (d : deps) (h : hook) :
  ds d -> sourced ds h -> sourced ds (effect d h).
Proof.
  intros Hd [Hp Hi]. unfold effect.
  destruct (enabled d) eqn:En; cbn [negb]; [|now split].
  destruct (Js.truthy (Js.trim (query d))) eqn:T; cbn [negb]; [|now split].
  split; [|exact Hi]. cbn [pending]. intros t Ht. apply in_app_or in Ht.
  destruct Ht as [Ht|[<-|[]]].
  - apply Hp. now apply clear_current_incl.
  - cbn [q]. split; [intros E; rewrite E in T; discriminate|].
    split; [apply TextFacts.trim_trimmed|]. now exists d.
Qed.

Lemma step_sourced (ds : deps -> Prop) (h : hook) (e : event) :
  (forall d, e = Render d -> ds d) -> sourced ds h -> sourced ds (step h e).
Proof.
  intros He H. destruct e as [d| |id|a]; cbn [step].
  - destruct (deps_eqb d (last h)); [exact H|].
    apply effect_sourced; [now apply He|now apply run_cleanup_sourced].
  - now apply run_cleanup_sourced.
  - destruct (find _ (pending h)) as [t|] eqn:F; [|exact H].
    destruct H as [Hp Hi]. apply find_some in F. destruct F as [Ft _].
    split; cbn [pending invoked].
    + intros t' Ht'. apply Hp. now apply SuggestFacts.clearTimeout_incl in Ht'.
    + intros x Hx. apply in_app_or in Hx. destruct Hx as [Hx|[<-|[]]]; auto.
  - exact H.
Qed.

Lemma steps_sourced (ds : deps -> Prop) (es : list event) (h : hook) :
  (forall d, In (Render d) es -> ds d) -> sourced ds h ->
  sourced ds (fold_left step es h).
Proof.
  revert h. induction es as [|e es IH]; intros h He H; [exact H|].
  cbn [fold_left]. apply IH.
  - intros d Hd. apply He. now right.
  - apply step_sourced; [|exact H]. intros d ->. apply He. now left.
Qed.

(** X21.  The remote function [domainr-check] is only ever called with a
    query that is non-empty, carries no white space at either end, and is
    the trimmed [query] of a render that had the hook enabled; the same
    holds of the query a pending timer has captured. *)
Theorem queries_are_typed (first : positive) (d : deps) (es : list event) :
  let h := run first d es in
  (forall x, In x (invoked h) -> typed (renders d es) x)
  /\ (forall t, In t (pending h) -> typed (renders d es) (q t)).
Proof.
  cbn zeta.
  assert (H : sourced (renders d es) (run first d es)).
  { unfold run. apply steps_sourced.
    - intros d' Hd'. now right.
    - unfold mount. apply effect_sourced; [now left|]. split; intros ? []. }
  destruct H as [Hp Hi]. now split.
Qed.

Lemma queries_are_typed_witness :
  typed (renders (typing " kopi ") [Fire 1%positive]) "kopi".
Proof.
  apply (proj1 (queries_are_typed 1%positive (typing " kopi ") [Fire 1%positive])).
  vm_compute. now left.
Defined.

(** *** The timer that fires *)

Lemma run_cleanup_next (h : hook) :
  next (run_cleanup h) = next h /\ invoked (run_cleanup h) = invoked h
  /\ state (run_cleanup h) = state h.
Proof. unfold run_cleanup. destruct (cleanup h); now repeat split. Qed.

Lemma effect_invoked (d : deps) (h : hook) : invoked (effect d h) = invoked h.
Proof.
  unfold effect. destruct (negb (enabled d)); [reflexivity|].
  destruct (negb (Js.truthy _)); reflexivity.
Qed.

Lemma scheduled (h : hook) (d' : deps) :
  tidy h -> deps_eqb d' (last h) = false ->
  enabled d' = true -> Js.trim (query d') <> "" ->
  pending (step h (Render d')) = [mkTimeout (next h) (debounceMs d') (Js.trim (query d'))]
  /\ invoked (step h (Render d')) = invoked h.
Proof.
  intros Ht Hd En Hq. cbn [step]. rewrite Hd. split.
  - rewrite SuggestFacts.effect_pending.
    + rewrite En. cbn [andb].
      assert (T : Js.truthy (Js.trim (query d')) = true).
      { unfold Js.truthy. apply negb_true_iff. now apply String.eqb_neq. }
      rewrite T. now rewrite (proj1 (run_cleanup_next h)).
    + apply (SuggestFacts.step_tidy h Unmount Ht).
  - rewrite effect_invoked. apply run_cleanup_next.
Qed.

(** X22.  Debounce: when a render schedules a fetch, the timer it sets is
    the only one that can fire.  Its firing sends the new trimmed query,
    once, and sets [loading]; the handle of any earlier timer does nothing
    any more, and neither does a second firing of the same handle. *)
Theorem only_latest_fires (first : positive) (d : deps) (es : list event)
        (d' : deps) (id : positive) :
  let h := run first d es in
  deps_eqb d' (last h) = false -> enabled d' = true -> Js.trim (query d') <> "" ->
  let h' := step h (Render d') in
  invoked (step h' (Fire (next h))) = (invoked h ++ [Js.trim (query d')])%list
  /\ loading (state (step h' (Fire (next h)))) = true
  /\ pending (step h' (Fire (next h))) = []
  /\ (id <> next h -> step h' (Fire id) = h')
  /\ step (step h' (Fire id)) (Fire id) = step h' (Fire id).
Proof.
  cbn zeta. intros Hd En Hq.
  destruct (scheduled _ d' (SuggestFacts.run_tidy first d es) Hd En Hq) as [Hp Hi].
  set (h := run first d es) in *. set (h' := step h (Render d')) in *.
  assert (Hit : step h' (Fire (next h))
                = mkHook (mkState true None (items (state h'))) (timer h') (cleanup h')
                         (last h') [] (next h') (invoked h ++ [Js.trim (query d')])).
  { cbn [step]. rewrite Hp. cbn [find handle]. rewrite Pos.eqb_refl.
    cbn [clearTimeout filter handle q]. rewrite Pos.eqb_refl, Hi. reflexivity. }
  assert (Miss : forall i, i <> next h -> step h' (Fire i) = h').
  { intros i Hne. cbn [step]. rewrite Hp. cbn [find handle].
    apply Pos.eqb_neq in Hne. rewrite Pos.eqb_sym in Hne. now rewrite Hne. }
  split; [now rewrite Hit|]. split; [now rewrite Hit|]. split; [now rewrite Hit|].
  split; [apply Miss|].
  destruct (Pos.eq_dec id (next h)) as [->|Hne].
  - rewrite Hit. reflexivity.
  - now rewrite !(Miss id Hne).
Qed.

Lemma only_latest_fires_witness :
  let h := run 1%positive (typing "ko") [] in
  let h' := step h (Render (typing "kopi")) in
  invoked (step h' (Fire 2%positive)) = ["kopi"]
  /\ step h' (Fire 1%positive) = h'.
Proof.
  cbn zeta.
  destruct (only_latest_fires 1%positive (typing "ko") [] (typing "kopi") 1%positive)
    as (H1 & _ & _ & H4 & _); try reflexivity; try discriminate.
  split; [exact H1|]. apply H4. discriminate.
Defined.

(** *** After the unmount *)

Lemma quiet_step (h : hook) (e : event) :
  pending h = [] -> is_render e = false ->
  pending (step h e) = [] /\ invoked (step h e) = invoked h.
Proof.
  intros Hp He. destruct e as [d| |id|a]; [discriminate| | |]; cbn [step].
  - split; [|apply run_cleanup_next].
    unfold run_cleanup. destruct (cleanup h); [|exact Hp].
    cbn [pending]. unfold clear_current. rewrite Hp. now destruct (timer h).
  - rewrite Hp. now split.
  - now split.
Qed.

Lemma quiet_steps (es : list event) (h : hook) :
  pending h = [] -> forallb (fun e => negb (is_render e)) es = true ->
  pending (fold_left step es h) = [] /\ invoked (fold_left step es h) = invoked h.
Proof.
  revert h. induction es as [|e es IH]; intros h Hp He; [now split|].
  cbn [forallb] in He. apply andb_prop in He. destruct He as [He Hes].
  apply negb_true_iff in He.
  destruct (quiet_step h e Hp He) as [Hp' Hi'].
  cbn [fold_left]. destruct (IH (step h e) Hp' Hes) as [Hp2 Hi2].
  split; [exact Hp2|]. now rewrite Hi2.
Qed.

(** X23.  After the unmount the hook calls the remote function no more:
    whatever timers elapse and whatever answers arrive, as long as the
    component is not rendered again, no query is sent and no timer is
    pending. *)
Theorem unmounted_is_silent (first : positive) (d : deps) (es es' : list event) :
  forallb (fun e => negb (is_render e)) es' = true ->
  let h := step (run first d es) Unmount in
  invoked (fold_left step es' h) = invoked (run first d es)
  /\ pending (fold_left step es' h) = [].
Proof.
  intros He. cbn zeta.
  assert (Hp : pending (step (run first d es) Unmount) = []).
  { cbn [step]. apply SuggestFacts.run_cleanup_pending. apply SuggestFacts.run_tidy. }
  destruct (quiet_steps es' _ Hp He) as [Hp' Hi'].
  split; [|exact Hp']. rewrite Hi'. cbn [step]. apply run_cleanup_next.
Qed.

Lemma unmounted_is_silent_witness :
  let h := step (run 1%positive (typing "kopi") []) Unmount in
  invoked (fold_left step [Fire 1%positive; Settle found; Fire 1%positive] h) = []
  /\ pending (fold_left step [Fire 1%positive; Settle found; Fire 1%positive] h) = [].
Proof.
  cbn zeta.
  apply (unmounted_is_silent 1%positive (typing "kopi") []
                             [Fire 1%positive; Settle found; Fire 1%positive]).
  reflexivity.
Defined.

(** *** The state shown *)

Lemma effect_state (d : deps) (h : hook) :
  state (effect d h) = state h \/ state (effect d h) = idle.
Proof.
  unfold effect. destruct (negb (enabled d)); [now left|].
  destruct (negb (Js.truthy _)); [now right|now left].
Qed.

Lemma step_coherent (h : hook) (e : event) :
  coherent (state h) -> coherent (state (step h e)).
Proof.
  intros H. destruct e as [d| |id|a]; cbn [step].
  - destruct (deps_eqb d (last h)); [exact H|].
    destruct (effect_state d (run_cleanup h)) as [-> | ->].
    + now rewrite (proj2 (proj2 (run_cleanup_next h))).
    + intros E. now elim E.
  - now rewrite (proj2 (proj2 (run_cleanup_next h))).
  - destruct (find _ _); [|exact H]. intros E. now elim E.
  - cbn [state]. destruct a as [[m|]|data]; cbn; intros E; [now split|now split|now elim E].
Qed.

(** X24.  In every state the hook can reach, an error is shown alone: when
    [error] is set, [items] is empty and [loading] is false.  A failed call
    always sets a message, the fallback text when the error carries none. *)
Theorem error_shown_alone (first : positive) (d : deps) (es : list event) :
  coherent (state (run first d es))
  /\ forall m, error (state (step (run first d es) (Settle (Failed m)))) <> None.
Proof.
  split.
  - unfold run.
    assert (H0 : coherent (state (mount first d))).
    { unfold mount. destruct (effect_state d (mkHook idle None false d [] first []))
        as [-> | ->]; intros E; now elim E. }
    revert H0. generalize (mount first d). induction es as [|e es IH]; intros h H; [exact H|].
    cbn [fold_left]. apply IH. now apply step_coherent.
  - intros [m|]; cbn; discriminate.
Qed.

Lemma error_shown_alone_witness :
  let h := step searched (Settle (Failed None)) in
  error (state h) <> None /\ items (state h) = [] /\ loading (state h) = false.
Proof.
  cbn zeta.
  assert (E : error (state (step searched (Settle (Failed None)))) <> None)
    by (apply (proj2 (error_shown_alone 1%positive (typing "kopi")
                        [Fire 1%positive; Settle found])) with (m := None)).
  split; [exact E|].
  exact (proj1 (error_shown_alone 1%positive (typing "kopi")
                  [Fire 1%positive; Settle found; Settle (Failed None)]) E).
Defined.

End SuggestMore.
